(** * dcrdata explorer: shared state store, producer entry points, address history

    A shallow embedding of the [explorer] package:
    - [explorertypes.go]: the display records and [ReduceAddressHistory];
    - the explorer UI file: [explorerUI], [Store], [StoreMPData],
      [StopWebsocketHub].

    Go's fixed-width integers are [Z] with the wrap-around written out,
    [float64] is the primitive binary64 float, a Go pointer that the callers
    never pass as nil is modelled by its pointee, and a pointer field that
    starts as nil is an [option]. *)

From Stdlib Require Import ZArith List Ascii String Bool Lia Floats.
Import ListNotations.
Open Scope string_scope.
Open Scope list_scope.
Open Scope Z_scope.

(** ** Go integer conversions *)

Module GoInt.

Definition wrap_unsigned (bits z : Z) : Z := z mod 2 ^ bits.

Definition wrap_signed (bits z : Z) : Z :=
  (z + 2 ^ (bits - 1)) mod 2 ^ bits - 2 ^ (bits - 1).

Definition int64 (z : Z) : Z := wrap_signed 64 z.
Definition int32 (z : Z) : Z := wrap_signed 32 z.
Definition uint64 (z : Z) : Z := wrap_unsigned 64 z.
Definition uint32 (z : Z) : Z := wrap_unsigned 32 z.

Definition min_int64 : Z := - 2 ^ 63.
Definition max_int64 : Z := 2 ^ 63 - 1.

(** [a + b] and [a - b] on two int64 operands. *)
Definition add64 (a b : Z) : Z := int64 (a + b).
Definition sub64 (a b : Z) : Z := int64 (a - b).

(** [len(s)]: a Go [int]; the length of a slice always fits, so the
    conversion [int64(len(s))] is the identity on it. *)
Definition len {A : Type} (s : list A) : Z := Z.of_nat (List.length s).

End GoInt.
Import GoInt.

(** ** dcrutil.Amount *)

Definition float64 : Type := float.

Definition float64_of_int (z : Z) : float64 :=
  SF2Prim (binary_normalize prec emax z 0 false).

(** [dcrutil.Amount] is an int64 number of atoms; [ToCoin] is
    [float64(a) / 1e8]. *)
Definition Amount (z : Z) : Z := int64 z.
Definition ToCoin (a : Z) : float64 :=
  PrimFloat.div (float64_of_int a) 100000000%float.

(** ** explorertypes.go *)

(** [dbtypes.AddressRow], the fields [ReduceAddressHistory] reads. [Value] is
    a uint64. *)
Record AddressRow : Type := {
  Address : string;
  FundingTxHash : string;
  FundingTxVoutIndex : Z;
  Value : Z;
  SpendingTxHash : string;
  SpendingTxVinIndex : Z
}.

Record AddressTx : Type := {
  TxID : string;
  InOutID : Z;
  FormattedSize : string;
  Total : float64;
  Confirmations : Z;
  Time : Z;
  FormattedTime : string;
  ReceivedTotal : float64;
  SentTotal : float64
}.

Record AddressBalance : Type := {
  ab_Address : string;
  NumSpent : Z;
  NumUnspent : Z;
  TotalSpent : Z;
  TotalUnspent : Z
}.

Record AddressInfo : Type := {
  ai_Address : string;
  MaxTxLimit : Z;
  Fullmode : bool;
  Path : string;
  Limit : Z;
  Offset : Z;
  TxnType : string;
  NumUnconfirmed : Z;
  Transactions : list AddressTx;
  TxnsFunding : list AddressTx;
  TxnsSpending : list AddressTx;
  NumTransactions : Z;
  NumFundingTxns : Z;
  NumSpendingTxns : Z;
  AmountReceived : Z;
  AmountSent : Z;
  AmountUnspent : Z;
  Balance : option AddressBalance;
  KnownTransactions : Z;
  KnownFundingTxns : Z;
  KnownSpendingTxns : Z
}.

Module ReduceHistory.

(** The local variables of the loop in [ReduceAddressHistory]. *)
Record locals : Type := {
  received : Z;
  sent : Z;
  transactions : list AddressTx;
  creditTxns : list AddressTx;
  debitTxns : list AddressTx
}.

Definition locals0 : locals :=
  {| received := 0; sent := 0;
     transactions := []; creditTxns := []; debitTxns := [] |}.

Definition fundingTx (addrOut : AddressRow) (coin : float64) : AddressTx :=
  {| TxID := FundingTxHash addrOut;
     InOutID := FundingTxVoutIndex addrOut;
     FormattedSize := ""; Total := 0%float; Confirmations := 0; Time := 0;
     FormattedTime := "";
     ReceivedTotal := coin;
     SentTotal := 0%float |}.

Definition spendingTx (addrOut : AddressRow) (coin : float64) : AddressTx :=
  {| TxID := SpendingTxHash addrOut;
     InOutID := SpendingTxVinIndex addrOut;
     FormattedSize := ""; Total := 0%float; Confirmations := 0; Time := 0;
     FormattedTime := "";
     ReceivedTotal := 0%float;
     SentTotal := coin |}.

(** One iteration of [for _, addrOut := range addrHist]. *)
Definition body (l : locals) (addrOut : AddressRow) : locals :=
  let coin := ToCoin (Amount (Value addrOut)) in
  let received' := add64 (received l) (int64 (Value addrOut)) in
  let transactions' := transactions l ++ [fundingTx addrOut coin] in
  let creditTxns' := creditTxns l ++ [fundingTx addrOut coin] in
  if String.eqb (SpendingTxHash addrOut) "" then
    {| received := received'; sent := sent l;
       transactions := transactions';
       creditTxns := creditTxns';
       debitTxns := debitTxns l |}
  else
    {| received := received';
       sent := add64 (sent l) (int64 (Value addrOut));
       transactions := transactions' ++ [spendingTx addrOut coin];
       creditTxns := creditTxns';
       debitTxns := debitTxns l ++ [spendingTx addrOut coin] |}.

Definition loop (addrHist : list AddressRow) (l : locals) : locals :=
  fold_left body addrHist l.

End ReduceHistory.

Definition ReduceAddressHistory (addrHist : list AddressRow)
  : option AddressInfo :=
  match addrHist with
  | [] => None
  | first :: _ =>
      let l := ReduceHistory.loop addrHist ReduceHistory.locals0 in
      Some {| ai_Address := Address first;
              MaxTxLimit := 0; Fullmode := false; Path := "";
              Limit := 0; Offset := 0; TxnType := "";
              NumUnconfirmed := 0;
              Transactions := ReduceHistory.transactions l;
              TxnsFunding := ReduceHistory.creditTxns l;
              TxnsSpending := ReduceHistory.debitTxns l;
              NumTransactions := 0;
              NumFundingTxns := len (ReduceHistory.creditTxns l);
              NumSpendingTxns := len (ReduceHistory.debitTxns l);
              AmountReceived := Amount (ReduceHistory.received l);
              AmountSent := Amount (ReduceHistory.sent l);
              AmountUnspent :=
                Amount (sub64 (ReduceHistory.received l)
                              (ReduceHistory.sent l));
              Balance := None;
              KnownTransactions := 0; KnownFundingTxns := 0;
              KnownSpendingTxns := 0 |}
  end.

(** The rows whose outpoint is spent: those with a non-empty
    [SpendingTxHash]. *)
Definition is_spent (r : AddressRow) : bool :=
  negb (String.eqb (SpendingTxHash r) "").

Definition spent_rows (addrHist : list AddressRow) : list AddressRow :=
  filter is_spent addrHist.

(** The atoms paid by the rows, as an unbounded sum. *)
Definition total_value (addrHist : list AddressRow) : Z :=
  fold_right (fun r acc => Value r + acc) 0 addrHist.

(** ** explorertypes.go: block, home page and mempool records *)

Module BlockBasic.
Record t : Type := {
  Height : Z;
  Size : Z;
  Valid : bool;
  Voters : Z;
  Transactions : Z;
  FreshStake : Z;
  Revocations : Z;
  BlockTime : Z;
  FormattedTime : string;
  FormattedBytes : string
}.
End BlockBasic.

Module BlockSubsidy.
Record t : Type := { Total : Z; PoW : Z; PoS : Z; Dev : Z }.
End BlockSubsidy.

Module ChainParams.
Record t : Type := {
  WindowSize : Z;
  RewardWindowSize : Z;
  TargetPoolSize : Z;
  BlockTime : Z
}.
End ChainParams.

Module TicketPoolInfo.
Record t : Type := {
  Size : Z;
  Value : float64;
  ValAvg : float64;
  Percentage : float64;
  Target : Z;
  PercentTarget : float64
}.
Definition zero : t :=
  {| Size := 0; Value := 0%float; ValAvg := 0%float; Percentage := 0%float;
     Target := 0; PercentTarget := 0%float |}.
End TicketPoolInfo.

Module HomeInfo.
Record t : Type := {
  CoinSupply : Z;
  StakeDiff : float64;
  IdxBlockInWindow : Z;
  IdxInRewardWindow : Z;
  Difficulty : float64;
  DevFund : Z;
  DevAddress : string;
  TicketROI : float64;
  ROIPeriod : string;
  NBlockSubsidy : BlockSubsidy.t;
  Params : ChainParams.t;
  PoolInfo : TicketPoolInfo.t
}.
End HomeInfo.

(** [txhelpers.VoteChoice] is declared outside these files; the explorer only
    carries it around. *)
Module VoteChoice.
Record t : Type := { ID : string; Description : string; Mask : Z }.
End VoteChoice.

Module BlockValidation.
Record t : Type := { Hash : string; Height : Z; Validity : bool }.
End BlockValidation.

Module VoteInfo.
Record t : Type := {
  Validation : BlockValidation.t;
  Version : Z;
  Bits : Z;
  Choices : list VoteChoice.t;
  TicketSpent : string;
  MempoolTicketIndex : Z
}.
End VoteInfo.

Module MempoolTx.
Record t : Type := {
  Hash : string;
  Time : Z;
  Size : Z;
  TotalOut : float64;
  Type_ : string;
  VoteInfo : option VoteInfo.t
}.
End MempoolTx.

Module MempoolShort.
Record t : Type := {
  LastBlockHeight : Z;
  LastBlockTime : Z;
  TotalOut : float64;
  TotalSize : Z;
  NumTickets : Z;
  NumVotes : Z;
  NumRegular : Z;
  NumRevokes : Z;
  NumAll : Z;
  LatestTransactions : list MempoolTx.t;
  FormattedTotalSize : string;
  TicketIndexes : list (string * Z)
}.

Definition zero : t :=
  {| LastBlockHeight := 0; LastBlockTime := 0; TotalOut := 0%float;
     TotalSize := 0; NumTickets := 0; NumVotes := 0; NumRegular := 0;
     NumRevokes := 0; NumAll := 0; LatestTransactions := [];
     FormattedTotalSize := ""; TicketIndexes := [] |}.

(** [s.NumTickets = n] *)
Definition set_NumTickets (n : Z) (s : t) : t :=
  {| LastBlockHeight := LastBlockHeight s;
     LastBlockTime := LastBlockTime s;
     TotalOut := TotalOut s;
     TotalSize := TotalSize s;
     NumTickets := n;
     NumVotes := NumVotes s;
     NumRegular := NumRegular s;
     NumRevokes := NumRevokes s;
     NumAll := NumAll s;
     LatestTransactions := LatestTransactions s;
     FormattedTotalSize := FormattedTotalSize s;
     TicketIndexes := TicketIndexes s |}.
End MempoolShort.

(** ** sync.RWMutex

    The state of a reader/writer lock as the goroutines sharing it see it:
    whether a writer holds it and how many readers do. An operation that
    would have to wait yields [None]. *)
Module RWMutex.
Record t : Type := { writer : bool; readers : nat }.

Definition zero : t := {| writer := false; readers := 0 |}.

Definition can_Lock (m : t) : bool := negb (writer m) && Nat.eqb (readers m) 0.
Definition can_RLock (m : t) : bool := negb (writer m).

Definition Lock (m : t) : option t :=
  if can_Lock m then Some {| writer := true; readers := readers m |}
  else None.

(** Unlocking a mutex that is not write-locked is a fatal runtime error. *)
Definition Unlock (m : t) : option t :=
  if writer m then Some {| writer := false; readers := readers m |}
  else None.

Definition RLock (m : t) : option t :=
  if can_RLock m then Some {| writer := writer m; readers := S (readers m) |}
  else None.

Definition RUnlock (m : t) : option t :=
  match readers m with
  | O => None
  | S n => Some {| writer := writer m; readers := n |}
  end.
End RWMutex.

Module MempoolInfo.
Record t : Type := {
  RWMutex : RWMutex.t;
  MempoolShort : MempoolShort.t;
  Transactions : list MempoolTx.t;
  Tickets : list MempoolTx.t;
  Votes : list MempoolTx.t;
  Revocations : list MempoolTx.t
}.

(** [new(MempoolInfo)] *)
Definition zero : t :=
  {| RWMutex := RWMutex.zero; MempoolShort := MempoolShort.zero;
     Transactions := []; Tickets := []; Votes := []; Revocations := [] |}.

Definition set_RWMutex (m : RWMutex.t) (i : t) : t :=
  {| RWMutex := m; MempoolShort := MempoolShort i;
     Transactions := Transactions i; Tickets := Tickets i;
     Votes := Votes i; Revocations := Revocations i |}.

Definition set_MempoolShort (s : MempoolShort.t) (i : t) : t :=
  {| RWMutex := RWMutex i; MempoolShort := s;
     Transactions := Transactions i; Tickets := Tickets i;
     Votes := Votes i; Revocations := Revocations i |}.
End MempoolInfo.

(** ** Declarations of neighbouring packages

    The records below are declared outside the files embedded here; each has
    the fields the explorer reads, under the names it reads them by. *)

(** [chaincfg.Params]: the chain parameters of the network. *)
Module chaincfg.
Record Params : Type := {
  StakeDiffWindowSize : Z;
  SubsidyReductionInterval : Z;
  TicketPoolSize : Z;
  TargetTimePerBlock : Z
}.
End chaincfg.

(** [blockdata.BlockData] and the summary its method
    [ToBlockExplorerSummary] returns. *)
Module blockdata.

Record BlockExplorerBasic : Type := {
  Height : Z;
  Size : Z;
  Voters : Z;
  Revocations : Z;
  FreshStake : Z;
  TxLen : Z;
  Time : Z;
  FormattedTime : string
}.

Record GetBlockSubsidyResult : Type := {
  Developer : Z; PoS : Z; PoW : Z; Total : Z
}.

Record BlockExplorerExtraInfo : Type := {
  CoinSupply : Z;
  NextBlockSubsidy : GetBlockSubsidyResult
}.

Record GetBlockHeaderVerboseResult : Type := { Difficulty : float64 }.

Record GetStakeDifficultyResult : Type := {
  CurrentStakeDifficulty : float64
}.

Record BlockData : Type := {
  Header : GetBlockHeaderVerboseResult;
  CurrentStakeDiff : GetStakeDifficultyResult;
  ExtraInfo : BlockExplorerExtraInfo;
  IdxBlockInWindow : Z
}.

End blockdata.

(** [mempool.MempoolData]: the explorer reads its ticket count only. *)
Module mempool.
Record MempoolData : Type := { NumTickets : Z }.
End mempool.

(** Go's [error] results. *)
Inductive error : Type :=
| error_nil
| error_of (msg : string).

(** ** The websocket hub *)

(** Modelled from the spec: the signal constants [sigNewBlock] and
    [sigMempoolUpdate] sent on [HubRelay] are declared with the hub, outside
    the files embedded here. The spec's EventKind has exactly the two kinds
    NewBlock and MempoolUpdate; a signal is a bare constant. *)
Inductive hubSignal : Type :=
| sigNewBlock
| sigMempoolUpdate.

(** A Go channel as its sender sees it: the values sent and not yet taken by
    the receiver, oldest first, and how many the channel accepts before a
    send has to wait. *)
Module Chan.
Record t (A : Type) : Type := { buf : list A; cap : nat }.
Arguments buf {A} _.
Arguments cap {A} _.

Definition has_room {A : Type} (c : t A) : bool :=
  Nat.ltb (List.length (buf c)) (cap c).

(** [c <- v]; [None] when the send has to wait. *)
Definition send {A : Type} (v : A) (c : t A) : option (t A) :=
  if has_room c then Some {| buf := buf c ++ [v]; cap := cap c |}
  else None.
End Chan.

(** Modelled from the spec: the hub type [WebsocketHub] with its [Stop],
    registration and broadcast operations is declared outside the files
    embedded here (only the call [exp.wsHub.Stop()] and the sends on
    [HubRelay] are). Following section 4.2 and 7 of the spec: [Register]
    allocates and admits a new subscriber, [Broadcast] enqueues a notification
    request on the control channel, [Stop] terminates the loop and releases
    all subscriber references, and both [Broadcast] and [Register] fail with
    HubClosed after [Stop]. *)
Module WebsocketHub.

Definition SubscriberHandle : Type := nat.

Record t : Type := {
  HubRelay : Chan.t hubSignal;
  clients : list SubscriberHandle;
  nextHandle : SubscriberHandle;
  stopped : bool
}.

Inductive failure : Type :=
| HubClosed
| WouldBlock.

Definition set_HubRelay (c : Chan.t hubSignal) (h : t) : t :=
  {| HubRelay := c; clients := clients h; nextHandle := nextHandle h;
     stopped := stopped h |}.

Definition Stop (h : t) : t :=
  {| HubRelay := HubRelay h; clients := []; nextHandle := nextHandle h;
     stopped := true |}.

Definition Register (h : t) : t * (failure + SubscriberHandle) :=
  if stopped h then (h, inl HubClosed)
  else ({| HubRelay := HubRelay h;
           clients := clients h ++ [nextHandle h];
           nextHandle := S (nextHandle h);
           stopped := false |},
        inr (nextHandle h)).

Definition Broadcast (signal : hubSignal) (h : t) : t * (failure + unit) :=
  if stopped h then (h, inl HubClosed)
  else match Chan.send signal (HubRelay h) with
       | Some c => (set_HubRelay c h, inr tt)
       | None => (h, inl WouldBlock)
       end.

(** [NewWebsocketHub()], with room for [n] pending signals. *)
Definition NewWebsocketHub (n : nat) : t :=
  {| HubRelay := {| Chan.buf := []; Chan.cap := n |};
     clients := []; nextHandle := O; stopped := false |}.

(** A caller's request to the hub and the hub's answer to it. *)
Inductive call : Type :=
| CallRegister
| CallBroadcast (signal : hubSignal)
| CallStop.

Inductive reply : Type :=
| Registered (handle : SubscriberHandle)
| Done
| Failed (f : failure).

Definition apply (c : call) (h : t) : t * reply :=
  match c with
  | CallRegister =>
      match Register h with
      | (h', inr handle) => (h', Registered handle)
      | (h', inl f) => (h', Failed f)
      end
  | CallBroadcast signal =>
      match Broadcast signal h with
      | (h', inr _) => (h', Done)
      | (h', inl f) => (h', Failed f)
      end
  | CallStop => (Stop h, Done)
  end.

Fixpoint apply_all (cs : list call) (h : t) : t * list reply :=
  match cs with
  | [] => (h, [])
  | c :: cs' =>
      let (h', r) := apply c h in
      let (h'', rs) := apply_all cs' h' in
      (h'', r :: rs)
  end.


End WebsocketHub.

(** ** The explorer UI state

    [explorerUI] without its presentation fields (router, data sources and
    templates). [NewBlockData] and [ExtraInfo] are nil until the first block
    is stored; [MempoolData], [ChainParams] and [wsHub] are set by [New]. *)
Module explorerUI.
Record t : Type := {
  liteMode : bool;
  wsHub : WebsocketHub.t;
  NewBlockDataMtx : RWMutex.t;
  NewBlockData : option BlockBasic.t;
  ExtraInfo : option HomeInfo.t;
  MempoolData : MempoolInfo.t;
  ChainParams : chaincfg.Params
}.

Definition set_wsHub (h : WebsocketHub.t) (e : t) : t :=
  {| liteMode := liteMode e; wsHub := h;
     NewBlockDataMtx := NewBlockDataMtx e; NewBlockData := NewBlockData e;
     ExtraInfo := ExtraInfo e; MempoolData := MempoolData e;
     ChainParams := ChainParams e |}.

Definition set_NewBlockDataMtx (m : RWMutex.t) (e : t) : t :=
  {| liteMode := liteMode e; wsHub := wsHub e;
     NewBlockDataMtx := m; NewBlockData := NewBlockData e;
     ExtraInfo := ExtraInfo e; MempoolData := MempoolData e;
     ChainParams := ChainParams e |}.

Definition set_NewBlockData (b : option BlockBasic.t) (e : t) : t :=
  {| liteMode := liteMode e; wsHub := wsHub e;
     NewBlockDataMtx := NewBlockDataMtx e; NewBlockData := b;
     ExtraInfo := ExtraInfo e; MempoolData := MempoolData e;
     ChainParams := ChainParams e |}.

Definition set_ExtraInfo (x : option HomeInfo.t) (e : t) : t :=
  {| liteMode := liteMode e; wsHub := wsHub e;
     NewBlockDataMtx := NewBlockDataMtx e; NewBlockData := NewBlockData e;
     ExtraInfo := x; MempoolData := MempoolData e;
     ChainParams := ChainParams e |}.

Definition set_MempoolData (i : MempoolInfo.t) (e : t) : t :=
  {| liteMode := liteMode e; wsHub := wsHub e;
     NewBlockDataMtx := NewBlockDataMtx e; NewBlockData := NewBlockData e;
     ExtraInfo := ExtraInfo e; MempoolData := i;
     ChainParams := ChainParams e |}.
End explorerUI.

(** The two locks of the store and the two records they guard. *)
Inductive lock_id : Type :=
| NewBlockDataMtx       (* exp.NewBlockDataMtx *)
| MempoolDataMtx.       (* the RWMutex embedded in *exp.MempoolData *)

Inductive store_field : Type :=
| fNewBlockData         (* exp.NewBlockData *)
| fExtraInfo            (* exp.ExtraInfo *)
| fMempoolNumTickets.   (* exp.MempoolData.NumTickets *)

Definition guard_of (f : store_field) : lock_id :=
  match f with
  | fNewBlockData | fExtraInfo => NewBlockDataMtx
  | fMempoolNumTickets => MempoolDataMtx
  end.

Definition lock_id_eqb (a b : lock_id) : bool :=
  match a, b with
  | NewBlockDataMtx, NewBlockDataMtx | MempoolDataMtx, MempoolDataMtx => true
  | _, _ => false
  end.

Definition get_lock (l : lock_id) (e : explorerUI.t) : RWMutex.t :=
  match l with
  | NewBlockDataMtx => explorerUI.NewBlockDataMtx e
  | MempoolDataMtx => MempoolInfo.RWMutex (explorerUI.MempoolData e)
  end.

Definition set_lock (l : lock_id) (m : RWMutex.t) (e : explorerUI.t)
  : explorerUI.t :=
  match l with
  | NewBlockDataMtx => explorerUI.set_NewBlockDataMtx m e
  | MempoolDataMtx =>
      explorerUI.set_MempoolData
        (MempoolInfo.set_RWMutex m (explorerUI.MempoolData e)) e
  end.

(** ** Effects

    A call runs against the explorer state shared with the other goroutines
    and leaves a trace: every lock operation, store write, channel send and
    log line, each with the state it executed in. A call that has to wait at
    a lock or at the channel stops as [Blocked]. *)
Inductive op : Type :=
| OpLock (l : lock_id)
| OpUnlock (l : lock_id)
| OpRLock (l : lock_id)
| OpRUnlock (l : lock_id)
| OpWrite (f : store_field)
| OpSend (s : hubSignal)
| OpStop
| OpLog (msg : string) (args : list Z).

Record event : Type := { ev_op : op; ev_at : explorerUI.t }.

Record world : Type := { exp : explorerUI.t; trace : list event }.

Inductive outcome (A : Type) : Type :=
| Returned (a : A) (w : world)
| Blocked (w : world)
| Fatal (w : world).
Arguments Returned {A} _ _.
Arguments Blocked {A} _.
Arguments Fatal {A} _.

Definition M (A : Type) : Type := world -> outcome A.

Definition ret {A : Type} (a : A) : M A := fun w => Returned a w.

Definition bind {A B : Type} (c : M A) (k : A -> M B) : M B :=
  fun w =>
    match c w with
    | Returned a w' => k a w'
    | Blocked w' => Blocked w'
    | Fatal w' => Fatal w'
    end.

Declare Scope go_scope.
Delimit Scope go_scope with go.
Notation "x <- c ;; k" := (bind c (fun x => k))
  (at level 61, c at next level, right associativity) : go_scope.
Notation "c ;; k" := (bind c (fun _ => k))
  (at level 61, right associativity) : go_scope.

Definition world_of {A : Type} (o : outcome A) : world :=
  match o with
  | Returned _ w | Blocked w | Fatal w => w
  end.

Definition result_of {A : Type} (o : outcome A) : option A :=
  match o with
  | Returned a _ => Some a
  | Blocked _ | Fatal _ => None
  end.

(** A call starts with an empty trace. *)
Definition start (e : explorerUI.t) : world := {| exp := e; trace := [] |}.

Definition ops_of {A : Type} (o : outcome A) : list op :=
  map ev_op (trace (world_of o)).

(** One step: record [o] with the state it runs in, then move to [e']. *)
Definition step (o : op) (e' : explorerUI.t) (w : world) : world :=
  {| exp := e'; trace := trace w ++ [{| ev_op := o; ev_at := exp w |}] |}.

Definition read_exp : M explorerUI.t := fun w => Returned (exp w) w.

Definition lock_op (o : op) (l : lock_id)
  (f : RWMutex.t -> option RWMutex.t) (stuck : world -> outcome unit)
  : M unit :=
  fun w =>
    match f (get_lock l (exp w)) with
    | Some m => Returned tt (step o (set_lock l m (exp w)) w)
    | None => stuck w
    end.

Definition Lock (l : lock_id) : M unit :=
  lock_op (OpLock l) l RWMutex.Lock Blocked.
Definition Unlock (l : lock_id) : M unit :=
  lock_op (OpUnlock l) l RWMutex.Unlock Fatal.
Definition RLock (l : lock_id) : M unit :=
  lock_op (OpRLock l) l RWMutex.RLock Blocked.
Definition RUnlock (l : lock_id) : M unit :=
  lock_op (OpRUnlock l) l RWMutex.RUnlock Fatal.

Definition write (f : store_field) (upd : explorerUI.t -> explorerUI.t)
  : M unit :=
  fun w => Returned tt (step (OpWrite f) (upd (exp w)) w).

(** [exp.wsHub.HubRelay <- s] *)
Definition send_HubRelay (s : hubSignal) : M unit :=
  fun w =>
    let h := explorerUI.wsHub (exp w) in
    match Chan.send s (WebsocketHub.HubRelay h) with
    | Some c =>
        Returned tt
          (step (OpSend s)
                (explorerUI.set_wsHub (WebsocketHub.set_HubRelay c h) (exp w))
                w)
    | None => Blocked w
    end.

Definition log (msg : string) (args : list Z) : M unit :=
  fun w => Returned tt (step (OpLog msg args) (exp w) w).

(** ** The producer entry points *)

Section ExplorerCode.

(** [wire.MsgBlock]: the second argument of [Store], which it ignores. *)
Variable MsgBlock : Type.

(** The method [ToBlockExplorerSummary] of [blockdata.BlockData] and
    [humanize.Bytes] are defined outside the files embedded here. *)
Variable ToBlockExplorerSummary :
  blockdata.BlockData -> blockdata.BlockExplorerBasic.
Variable humanize_Bytes : Z -> string.

(** The [&BlockBasic{...}] literal of [Store]; [Valid] is not among the
    fields it lists. *)
Definition newBlockData (bData : blockdata.BlockExplorerBasic)
  : BlockBasic.t :=
  {| BlockBasic.Height := int64 (blockdata.Height bData);
     BlockBasic.Size := int32 (blockdata.Size bData);
     BlockBasic.Valid := false;
     BlockBasic.Voters := blockdata.Voters bData;
     BlockBasic.Transactions := blockdata.TxLen bData;
     BlockBasic.FreshStake := blockdata.FreshStake bData;
     BlockBasic.Revocations := uint32 (blockdata.Revocations bData);
     BlockBasic.BlockTime := blockdata.Time bData;
     BlockBasic.FormattedTime := blockdata.FormattedTime bData;
     BlockBasic.FormattedBytes :=
       humanize_Bytes (uint64 (blockdata.Size bData)) |}.

(** The [&HomeInfo{...}] literal of [Store]; the fields it does not list
    have their zero values. *)
Definition newExtraInfo (blockData : blockdata.BlockData)
  (params : chaincfg.Params) : HomeInfo.t :=
  {| HomeInfo.CoinSupply :=
       blockdata.CoinSupply (blockdata.ExtraInfo blockData);
     HomeInfo.StakeDiff :=
       blockdata.CurrentStakeDifficulty (blockdata.CurrentStakeDiff blockData);
     HomeInfo.IdxBlockInWindow := blockdata.IdxBlockInWindow blockData;
     HomeInfo.IdxInRewardWindow := 0;
     HomeInfo.Difficulty := blockdata.Difficulty (blockdata.Header blockData);
     HomeInfo.DevFund := 0;
     HomeInfo.DevAddress := "";
     HomeInfo.TicketROI := 0%float;
     HomeInfo.ROIPeriod := "";
     HomeInfo.NBlockSubsidy :=
       (let sub := blockdata.NextBlockSubsidy (blockdata.ExtraInfo blockData)
        in {| BlockSubsidy.Dev := blockdata.Developer sub;
              BlockSubsidy.PoS := blockdata.PoS sub;
              BlockSubsidy.PoW := blockdata.PoW sub;
              BlockSubsidy.Total := blockdata.Total sub |});
     HomeInfo.Params :=
       {| ChainParams.WindowSize := chaincfg.StakeDiffWindowSize params;
          ChainParams.RewardWindowSize := 0;
          ChainParams.TargetPoolSize := 0;
          ChainParams.BlockTime := 0 |};
     HomeInfo.PoolInfo := TicketPoolInfo.zero |}.

Open Scope go_scope.

Definition Store (blockData : blockdata.BlockData) (_ : MsgBlock)
  : M error :=
  Lock NewBlockDataMtx ;;
  let bData := ToBlockExplorerSummary blockData in
  let newBlockData := newBlockData bData in
  write fNewBlockData (explorerUI.set_NewBlockData (Some newBlockData)) ;;
  write fExtraInfo
    (fun e => explorerUI.set_ExtraInfo
                (Some (newExtraInfo blockData (explorerUI.ChainParams e))) e) ;;
  Unlock NewBlockDataMtx ;;
  send_HubRelay sigNewBlock ;;
  log "Got new block %d" [BlockBasic.Height newBlockData] ;;
  ret error_nil.

(** [timestamp] is a [time.Time], taken here as its Unix time. *)
Definition StoreMPData (data : mempool.MempoolData) (timestamp : Z)
  : M error :=
  RLock MempoolDataMtx ;;
  write fMempoolNumTickets
    (fun e =>
       let mp := explorerUI.MempoolData e in
       explorerUI.set_MempoolData
         (MempoolInfo.set_MempoolShort
            (MempoolShort.set_NumTickets (mempool.NumTickets data)
               (MempoolInfo.MempoolShort mp)) mp) e) ;;
  RUnlock MempoolDataMtx ;;
  send_HubRelay sigMempoolUpdate ;;
  ret error_nil.

Definition StopWebsocketHub : M unit :=
  log "Stopping websocket hub." [] ;;
  fun w =>
    Returned tt
      (step OpStop
         (explorerUI.set_wsHub
            (WebsocketHub.Stop (explorerUI.wsHub (exp w))) (exp w)) w).

Close Scope go_scope.

End ExplorerCode.

Arguments Store {MsgBlock} _ _ _ _ _.

(** ** Reading a trace

    The locks a call holds at a point of its own trace, and the checks the
    locking discipline asks of each operation. *)
Inductive mode : Type := Exclusive | Shared.

Definition mode_eqb (a b : mode) : bool :=
  match a, b with
  | Exclusive, Exclusive | Shared, Shared => true
  | _, _ => false
  end.

Definition holding : Type := list (lock_id * mode).

Fixpoint release (l : lock_id) (m : mode) (h : holding) : holding :=
  match h with
  | [] => []
  | (l', m') :: h' =>
      if lock_id_eqb l l' && mode_eqb m m' then h'
      else (l', m') :: release l m h'
  end.

Definition holds (l : lock_id) (m : mode) (h : holding) : bool :=
  existsb (fun x => lock_id_eqb l (fst x) && mode_eqb m (snd x)) h.

Definition holding_after (h : holding) (o : op) : holding :=
  match o with
  | OpLock l => (l, Exclusive) :: h
  | OpRLock l => (l, Shared) :: h
  | OpUnlock l => release l Exclusive h
  | OpRUnlock l => release l Shared h
  | _ => h
  end.

(** [check p h tr]: every operation of [tr] passes [p] under the locks held
    when it runs, [h] being held at the start. *)
Fixpoint check (p : holding -> op -> bool) (h : holding) (tr : list op)
  : bool :=
  match tr with
  | [] => true
  | o :: tr' => p h o && check p (holding_after h o) tr'
  end.

(** No lock is held at a send into the hub. *)
Definition send_unlocked (h : holding) (o : op) : bool :=
  match o with
  | OpSend _ => match h with [] => true | _ => false end
  | _ => true
  end.

(** A store write runs under the exclusive lock of its record. *)
Definition write_exclusive (h : holding) (o : op) : bool :=
  match o with
  | OpWrite f => holds (guard_of f) Exclusive h
  | _ => true
  end.

(** A lock operation is on lock [l]. *)
Definition only_lock (l : lock_id) (o : op) : bool :=
  match o with
  | OpLock l' | OpUnlock l' | OpRLock l' | OpRUnlock l' => lock_id_eqb l l'
  | _ => true
  end.

Definition is_send (o : op) : bool :=
  match o with OpSend _ => true | _ => false end.

Definition is_write (o : op) : bool :=
  match o with OpWrite _ => true | _ => false end.

Definition sends_of (tr : list op) : list hubSignal :=
  flat_map (fun o => match o with OpSend s => [s] | _ => [] end) tr.

(** The store as [New] leaves it: a fresh [MempoolInfo], the chain parameters
    of the data source, no block yet and a running hub. [room] is the room of
    the hub's control channel. *)
Definition New (params : chaincfg.Params) (lite : bool) (room : nat)
  : explorerUI.t :=
  {| explorerUI.liteMode := lite;
     explorerUI.wsHub := WebsocketHub.NewWebsocketHub room;
     explorerUI.NewBlockDataMtx := RWMutex.zero;
     explorerUI.NewBlockData := None;
     explorerUI.ExtraInfo := None;
     explorerUI.MempoolData := MempoolInfo.zero;
     explorerUI.ChainParams := params |}.

(** ** The data model in the words of the spec *)

(** The chain parameters block of ExtraInfo with every field taken from the
    configured chain parameters. *)
Definition spec_ChainParams (params : chaincfg.Params) : ChainParams.t :=
  {| ChainParams.WindowSize := chaincfg.StakeDiffWindowSize params;
     ChainParams.RewardWindowSize := chaincfg.SubsidyReductionInterval params;
     ChainParams.TargetPoolSize := chaincfg.TicketPoolSize params;
     ChainParams.BlockTime := chaincfg.TargetTimePerBlock params |}.

(** ** Sample inputs *)

(** Two outputs paid to one address, the first of them spent. *)
Definition sample_history : list AddressRow :=
  [ {| Address := "DsExample"; FundingTxHash := "f0"; FundingTxVoutIndex := 0;
       Value := 150000000; SpendingTxHash := "s0"; SpendingTxVinIndex := 1 |};
    {| Address := "DsExample"; FundingTxHash := "f1"; FundingTxVoutIndex := 2;
       Value := 50000000; SpendingTxHash := ""; SpendingTxVinIndex := 0 |} ].

(** The main network's parameters. *)
Definition sample_params : chaincfg.Params :=
  {| chaincfg.StakeDiffWindowSize := 144;
     chaincfg.SubsidyReductionInterval := 6144;
     chaincfg.TicketPoolSize := 8192;
     chaincfg.TargetTimePerBlock := 300000000000 |}.

Definition sample_block : blockdata.BlockData :=
  {| blockdata.Header := {| blockdata.Difficulty := 1048576%float |};
     blockdata.CurrentStakeDiff :=
       {| blockdata.CurrentStakeDifficulty := 95.5%float |};
     blockdata.ExtraInfo :=
       {| blockdata.CoinSupply := 700000000000000;
          blockdata.NextBlockSubsidy :=
            {| blockdata.Developer := 200000000; blockdata.PoS := 600000000;
               blockdata.PoW := 1200000000; blockdata.Total := 2000000000 |} |};
     blockdata.IdxBlockInWindow := 17 |}.

Definition sample_summary (_ : blockdata.BlockData)
  : blockdata.BlockExplorerBasic :=
  {| blockdata.Height := 200000; blockdata.Size := 5123;
     blockdata.Voters := 5; blockdata.Revocations := 1;
     blockdata.FreshStake := 3; blockdata.TxLen := 12;
     blockdata.Time := 1520000000;
     blockdata.FormattedTime := "3/ 2/18 14:13:20" |}.

Definition sample_Bytes (n : Z) : string :=
  if n <? 1000 then "B" else "kB".

Definition sample_mempool : mempool.MempoolData :=
  {| mempool.NumTickets := 7 |}.

(** A fresh store, and the same store with five votes already counted. *)
Definition sample_exp : explorerUI.t := New sample_params false 1.

Definition sample_exp_votes : explorerUI.t :=
  explorerUI.set_MempoolData
    {| MempoolInfo.RWMutex := RWMutex.zero;
       MempoolInfo.MempoolShort :=
         {| MempoolShort.LastBlockHeight := 199999;
            MempoolShort.LastBlockTime := 1519999700;
            MempoolShort.TotalOut := 12.5%float;
            MempoolShort.TotalSize := 2048;
            MempoolShort.NumTickets := 2;
            MempoolShort.NumVotes := 5;
            MempoolShort.NumRegular := 1;
            MempoolShort.NumRevokes := 0;
            MempoolShort.NumAll := 8;
            MempoolShort.LatestTransactions := [];
            MempoolShort.FormattedTotalSize := "2.0 kB";
            MempoolShort.TicketIndexes := [("t0", 0); ("t1", 1)] |};
       MempoolInfo.Transactions := []; MempoolInfo.Tickets := [];
       MempoolInfo.Votes := []; MempoolInfo.Revocations := [] |}
    sample_exp.

(** The fresh store while another goroutine holds the mempool record's read
    lock, and while one holds its write lock. *)
Definition sample_exp_reader : explorerUI.t :=
  set_lock MempoolDataMtx {| RWMutex.writer := false; RWMutex.readers := 1 |}
    sample_exp.

Definition sample_exp_mempool_writer : explorerUI.t :=
  set_lock MempoolDataMtx {| RWMutex.writer := true; RWMutex.readers := 0 |}
    sample_exp.

Definition sample_exp_chain_writer : explorerUI.t :=
  set_lock NewBlockDataMtx {| RWMutex.writer := true; RWMutex.readers := 0 |}
    sample_exp.

(** The NewBlock send of [Store] on the fresh store, as it appears in the
    trace: the store already holds the new block and ExtraInfo. *)
Definition sample_send_event : event :=
  {| ev_op := OpSend sigNewBlock;
     ev_at :=
       explorerUI.set_ExtraInfo
         (Some (newExtraInfo sample_block sample_params))
         (explorerUI.set_NewBlockData
            (Some (newBlockData sample_Bytes (sample_summary sample_block)))
            sample_exp) |}.

(** Two outputs whose values add up to one atom more than an int64 holds. *)
Definition overflowing_history : list AddressRow :=
  [ {| Address := "DsExample"; FundingTxHash := "f0"; FundingTxVoutIndex := 0;
       Value := 9223372036854775807; SpendingTxHash := "s0";
       SpendingTxVinIndex := 0 |};
    {| Address := "DsExample"; FundingTxHash := "f1"; FundingTxVoutIndex := 0;
       Value := 1; SpendingTxHash := ""; SpendingTxVinIndex := 0 |} ].

(** ** Address history: the shape of the result *)

(** The entries a row contributes to [Transactions]: its funding transaction
    and, when the outpoint is spent, the spending transaction after it. *)
Definition row_coin (r : AddressRow) : float64 := ToCoin (Amount (Value r)).

Definition row_funding (r : AddressRow) : AddressTx :=
  ReduceHistory.fundingTx r (row_coin r).

Definition row_spending (r : AddressRow) : AddressTx :=
  ReduceHistory.spendingTx r (row_coin r).

Definition row_transactions (r : AddressRow) : list AddressTx :=
  row_funding r :: (if is_spent r then [row_spending r] else []).

Definition is_unspent (r : AddressRow) : bool := negb (is_spent r).

(** [dbtypes.AddrTxnType], the result of [dbtypes.AddrTxnTypeFromStr]. *)
Inductive AddrTxnType : Type :=
| AddrTxnAll
| AddrTxnCredit
| AddrTxnDebit
| AddrTxnUnknown.

(** The method [TxnCount] of [AddressInfo], with the warning it logs, if any.
    [dbtypes.AddrTxnTypeFromStr] is defined outside the files embedded
    here. *)
Definition TxnCount (AddrTxnTypeFromStr : string -> AddrTxnType)
  (a : AddressInfo) : Z * list string :=
  if negb (Fullmode a) then (KnownTransactions a, [])
  else
    match AddrTxnTypeFromStr (TxnType a) with
    | AddrTxnAll => (KnownTransactions a, [])
    | AddrTxnCredit => (KnownFundingTxns a, [])
    | AddrTxnDebit => (KnownSpendingTxns a, [])
    | AddrTxnUnknown =>
        (0, [String.append "Unknown address transaction type: " (TxnType a)])
    end.

(** A second page of the sample history. *)
Definition sample_history_page2 : list AddressRow :=
  [ {| Address := "DsOther"; FundingTxHash := "f2"; FundingTxVoutIndex := 1;
       Value := 25000000; SpendingTxHash := "s2"; SpendingTxVinIndex := 0 |} ].

(** ** Sequences of calls *)

(** The hub after a call that queues [s] at most once: as it was, or with [s]
    at the end of the control channel. *)
Definition queued_after (s : hubSignal) (h h' : WebsocketHub.t) : Prop :=
  h' = h \/
  h' = WebsocketHub.set_HubRelay
         {| Chan.buf := Chan.buf (WebsocketHub.HubRelay h) ++ [s];
            Chan.cap := Chan.cap (WebsocketHub.HubRelay h) |} h.

(** The control channel has room for [n] more signals. *)
Definition room_for (n : nat) (e : explorerUI.t) : Prop :=
  (List.length (Chan.buf (WebsocketHub.HubRelay (explorerUI.wsHub e))) + n
   <= Chan.cap (WebsocketHub.HubRelay (explorerUI.wsHub e)))%nat.

(** A fresh store whose control channel takes two signals. *)
Definition sample_exp_room2 : explorerUI.t := New sample_params false 2.

Definition sample_block2 : blockdata.BlockData :=
  {| blockdata.Header := {| blockdata.Difficulty := 2097152%float |};
     blockdata.CurrentStakeDiff :=
       {| blockdata.CurrentStakeDifficulty := 96.25%float |};
     blockdata.ExtraInfo :=
       {| blockdata.CoinSupply := 700002000000000;
          blockdata.NextBlockSubsidy :=
            {| blockdata.Developer := 199000000; blockdata.PoS := 597000000;
               blockdata.PoW := 1194000000; blockdata.Total := 1990000000 |} |};
     blockdata.IdxBlockInWindow := 18 |}.

Definition sample_mempool2 : mempool.MempoolData :=
  {| mempool.NumTickets := 9 |}.

(** The fresh store with its control channel full, and with a reader inside
    the chain summary's lock. *)
Definition sample_exp_full : explorerUI.t := New sample_params false 0.


(** A call made after others continues their trace. *)
Definition with_history {A : Type} (tr : list event) (o : outcome A)
  : outcome A :=
  match o with
  | Returned a w => Returned a {| exp := exp w; trace := tr ++ trace w |}
  | Blocked w => Blocked {| exp := exp w; trace := tr ++ trace w |}
  | Fatal w => Fatal {| exp := exp w; trace := tr ++ trace w |}
  end.

(** ** The template set

    [explorerUI]'s presentation fields [templates] and [templateFiles], with
    [reloadTemplates] and the part of [New] that fills them. Parsing is the
    [html/template] package's: [ParseFiles name funcs files] stands for
    [template.New(name).Funcs(exp.templateHelpers).ParseFiles(files...)]
    when [funcs] is set and for [template.New(name).ParseFiles(files...)]
    otherwise, and yields the template or the error's message.
    [filepath_Join] is [filepath.Join]. *)
Module Templates.

Definition homeTemplateIndex : nat := 0.
Definition rootTemplateIndex : nat := 1.
Definition blockTemplateIndex : nat := 2.
Definition txTemplateIndex : nat := 3.
Definition addressTemplateIndex : nat := 4.
Definition decodeTxTemplateIndex : nat := 5.
Definition errorTemplateIndex : nat := 6.

(** A [map[string]string]: the latest assignment to a key comes first; a
    missing key reads as the empty string. *)
Definition files : Type := list (string * string).

Fixpoint lookup (k : string) (m : files) : string :=
  match m with
  | [] => ""
  | (k', v) :: m' => if String.eqb k k' then v else lookup k m'
  end.

Definition assign (k v : string) (m : files) : files := (k, v) :: m.

(** [s[i] = v]; [None] when the index is out of range. *)
Fixpoint store_at {A : Type} (i : nat) (v : A) (s : list A)
  : option (list A) :=
  match s, i with
  | [], _ => None
  | _ :: s', O => Some (v :: s')
  | x :: s', S i' => option_map (cons x) (store_at i' v s')
  end.

Section WithParser.

Variable Template : Type.
Variable ParseFiles : string -> bool -> list string -> Template + string.
Variable filepath_Join : string -> string -> string.

Record t : Type := {
  templates : list (option Template);
  templateFiles : files
}.

Inductive reloaded : Type :=
| ReturnedNil (p : t)
| ReturnedErr (err : error) (p : t)
| IndexOutOfRange.

(** The parse of the page [name]: its own file and the extras. *)
Definition parse (p : t) (name : string) (funcs : bool)
  : Template + string :=
  ParseFiles name funcs
    [lookup name (templateFiles p); lookup "extras" (templateFiles p)].

(** [x, err := ...; if err != nil { return err }] *)
Definition or_return (p : t) (r : Template + string)
  (k : Template -> reloaded) : reloaded :=
  match r with
  | inl x => k x
  | inr msg => ReturnedErr (error_of msg) p
  end.

(** [exp.templates[i] = x] *)
Definition set_template (i : nat) (x : Template)
  (s : option (list (option Template))) : option (list (option Template)) :=
  match s with
  | Some l => store_at i (Some x) l
  | None => None
  end.

Definition reloadTemplates (p : t) : reloaded :=
  or_return p (parse p "home" true) (fun homeTemplate =>
  or_return p (parse p "explorer" true) (fun explorerTemplate =>
  or_return p (parse p "block" true) (fun blockTemplate =>
  or_return p (parse p "tx" true) (fun txTemplate =>
  or_return p (parse p "address" true) (fun addressTemplate =>
  or_return p (parse p "rawtx" true) (fun decodeTxTemplate =>
  or_return p (parse p "error" false) (fun errorTemplate =>
    let s0 := Some (templates p) in
    let s1 := set_template homeTemplateIndex homeTemplate s0 in
    let s2 := set_template rootTemplateIndex explorerTemplate s1 in
    let s3 := set_template blockTemplateIndex blockTemplate s2 in
    let s4 := set_template txTemplateIndex txTemplate s3 in
    let s5 := set_template addressTemplateIndex addressTemplate s4 in
    let s6 := set_template decodeTxTemplateIndex decodeTxTemplate s5 in
    let s7 := set_template errorTemplateIndex errorTemplate s6 in
    match s7 with
    | Some l => ReturnedNil {| templates := l;
                               templateFiles := templateFiles p |}
    | None => IndexOutOfRange
    end))))))).

(** [New]: the file table ... *)
Definition New_templateFiles : files :=
  assign "error" (filepath_Join "views" "error.tmpl")
  (assign "rawtx" (filepath_Join "views" "rawtx.tmpl")
  (assign "address" (filepath_Join "views" "address.tmpl")
  (assign "extras" (filepath_Join "views" "extras.tmpl")
  (assign "tx" (filepath_Join "views" "tx.tmpl")
  (assign "block" (filepath_Join "views" "block.tmpl")
  (assign "explorer" (filepath_Join "views" "explorer.tmpl")
  (assign "home" (filepath_Join "views" "home.tmpl") []))))))).

(** ... and the templates: each page is parsed and appended, a page that
    does not parse as nil, with the error logged. *)
Definition append_parsed (name : string) (funcs : bool)
  (acc : t * list string) : t * list string :=
  let (p, logged) := acc in
  match parse p name funcs with
  | inl x =>
      ({| templates := templates p ++ [Some x];
          templateFiles := templateFiles p |}, logged)
  | inr msg =>
      ({| templates := templates p ++ [None];
          templateFiles := templateFiles p |},
       logged ++ [String.append "Unable to create new html template: " msg])
  end.

Definition New_templates : t * list string :=
  let p0 := {| templates := []; templateFiles := New_templateFiles |} in
  append_parsed "error" false
  (append_parsed "rawtx" true
  (append_parsed "address" true
  (append_parsed "tx" true
  (append_parsed "block" true
  (append_parsed "explorer" true
  (append_parsed "home" true (p0, []))))))).

(** The pages in the order of their indices. *)
Definition pages : list (string * bool) :=
  [("home", true); ("explorer", true); ("block", true); ("tx", true);
   ("address", true); ("rawtx", true); ("error", false)].

Definition parse_page (p : t) (page : string * bool) : Template + string :=
  parse p (fst page) (snd page).

Fixpoint first_error (rs : list (Template + string)) : option string :=
  match rs with
  | [] => None
  | inr msg :: _ => Some msg
  | inl _ :: rs' => first_error rs'
  end.

Definition parsed (r : Template + string) : option Template :=
  match r with
  | inl x => Some x
  | inr _ => None
  end.

End WithParser.

Arguments templates {Template} _.
Arguments templateFiles {Template} _.
Arguments ReturnedNil {Template} _.
Arguments ReturnedErr {Template} _ _.
Arguments IndexOutOfRange {Template}.

End Templates.

(** ** The template helpers of [New] *)

(** Go's string functions the helpers use. A panic is [None]. *)
Module GoStrings.

Definition len (s : string) : Z := Z.of_nat (String.length s).

Fixpoint repeat_string (s : string) (n : nat) : string :=
  match n with
  | O => ""
  | S n' => String.append s (repeat_string s n')
  end.

(** [strings.Repeat(s, count)]: panics on a negative count. *)
Definition Repeat (s : string) (count : Z) : option string :=
  if count <? 0 then None else Some (repeat_string s (Z.to_nat count)).

(** [strings.TrimRight(s, "0")] *)
Fixpoint TrimRight0 (s : string) : string :=
  match s with
  | EmptyString => ""
  | String c r =>
      match TrimRight0 r with
      | EmptyString => if Ascii.eqb c "0"%char then "" else String c ""
      | r' => String c r'
      end
  end.

Fixpoint take (n : nat) (s : string) : string :=
  match n, s with
  | S n', String c r => String c (take n' r)
  | _, _ => ""
  end.

Fixpoint drop (n : nat) (s : string) : string :=
  match n, s with
  | S n', String _ r => drop n' r
  | _, _ => s
  end.

(** [s[:n]] and [s[n:]]: panic when [n] is out of range. *)
Definition slice_to (s : string) (n : Z) : option string :=
  if (n <? 0) || (len s <? n) then None else Some (take (Z.to_nat n) s).

Definition slice_from (s : string) (n : Z) : option string :=
  if (n <? 0) || (len s <? n) then None else Some (drop (Z.to_nat n) s).

Definition digit_char (d : Z) : ascii := ascii_of_N (Z.to_N (48 + d)).

Definition is_digit (c : ascii) : bool :=
  (48 <=? N_of_ascii c)%N && (N_of_ascii c <=? 57)%N.

Definition digit_val (c : ascii) : Z := Z.of_N (N_of_ascii c) - 48.

(** The decimal digits of [n >= 0] in front of [acc], most significant
    first; [fuel] bounds the number of digits. *)
Fixpoint format_digits (fuel : nat) (n : Z) (acc : string) : string :=
  match fuel with
  | O => acc
  | S fuel' =>
      let acc' := String (digit_char (n mod 10)) acc in
      if n <? 10 then acc' else format_digits fuel' (n / 10) acc'
  end.

(** [strconv.FormatInt(v, 10)] for an int64 [v]: at most 19 digits. *)
Definition FormatInt (v : Z) : string :=
  if v <? 0 then String "-"%char (format_digits 20 (- v) "")
  else format_digits 20 v "".

Fixpoint all_digits (s : string) : bool :=
  match s with
  | EmptyString => true
  | String c r => is_digit c && all_digits r
  end.

Fixpoint digits_value_from (acc : Z) (s : string) : Z :=
  match s with
  | EmptyString => acc
  | String c r => digits_value_from (acc * 10 + digit_val c) r
  end.

(** The number a string of decimal digits stands for. *)
Definition digits_value (s : string) : Z := digits_value_from 0 s.

(** [strconv.ParseInt(s, 10, 64)]: [None] for a syntax or range error. *)
Definition ParseInt (s : string) : option Z :=
  let (neg, ds) :=
    match s with
    | String c r =>
        if Ascii.eqb c "+"%char then (false, r)
        else if Ascii.eqb c "-"%char then (true, r)
        else (false, s)
    | EmptyString => (false, s)
    end in
  if String.eqb ds "" || negb (all_digits ds) then None
  else
    let v := if neg : bool then - digits_value ds else digits_value ds in
    if (min_int64 <=? v) && (v <=? max_int64) then Some v else None.

End GoStrings.

Module Helpers.

Import GoStrings.

(** The dynamic values a template hands to a helper taking [interface{}]:
    an integer with its Go type, or a value of any other type. *)
Inductive value : Type :=
| VInt64 (z : Z)
| VInt32 (z : Z)
| VUint32 (z : Z)
| VUint64 (z : Z)
| VInt (z : Z)
| VInt16 (z : Z)
| VUint16 (z : Z)
| VInt8 (z : Z)
| VUint8 (z : Z)
| VFloat64 (f : float64)
| VString (s : string)
| VOther (type_name : string).

(** The values each integer type holds ([int] is 64 bits wide). *)
Definition well_typed (v : value) : Prop :=
  match v with
  | VInt64 z | VInt z => - 2 ^ 63 <= z < 2 ^ 63
  | VInt32 z => - 2 ^ 31 <= z < 2 ^ 31
  | VInt16 z => - 2 ^ 15 <= z < 2 ^ 15
  | VInt8 z => - 2 ^ 7 <= z < 2 ^ 7
  | VUint64 z => 0 <= z < 2 ^ 64
  | VUint32 z => 0 <= z < 2 ^ 32
  | VUint16 z => 0 <= z < 2 ^ 16
  | VUint8 z => 0 <= z < 2 ^ 8
  | VFloat64 _ | VString _ | VOther _ => True
  end.

(** The integer a value holds, if it is one. *)
Definition integer_of (v : value) : option Z :=
  match v with
  | VInt64 z | VInt32 z | VUint32 z | VUint64 z | VInt z | VInt16 z
  | VUint16 z | VInt8 z | VUint8 z => Some z
  | VFloat64 _ | VString _ | VOther _ => None
  end.

Definition toInt64 (v : value) : Z :=
  match v with
  | VInt64 vt => vt
  | VInt32 vt => int64 vt
  | VUint32 vt => int64 vt
  | VUint64 vt => int64 vt
  | VInt vt => int64 vt
  | VInt16 vt => int64 vt
  | VUint16 vt => int64 vt
  | _ => min_int64
  end.

(** "add", "subtract" and "divide"; a division by zero panics. *)
Definition add (a b : Z) : Z := add64 a b.
Definition subtract (a b : Z) : Z := sub64 a b.
Definition divide (n d : Z) : option Z :=
  if d =? 0 then None else Some (int64 (Z.quot n d)).

Section WithComma.

(** [humanize.Comma] is defined outside the files embedded here. *)
Variable humanize_Comma : Z -> string.

(** "intComma" and "int64Comma" *)
Definition intComma (v : value) : string := humanize_Comma (toInt64 v).
Definition int64Comma (v : Z) : string := humanize_Comma v.

Definition and_then {A B : Type} (o : option A) (k : A -> option B)
  : option B :=
  match o with
  | Some a => k a
  | None => None
  end.

(** "amountAsDecimalParts": the three parts and the errors logged; [None]
    is a panic. *)
Definition amountAsDecimalParts (v : Z) (useCommas : bool)
  : option (list string * list string) :=
  let amt := FormatInt v in
  if len amt <=? 8 then
    let dec := TrimRight0 amt in
    and_then (Repeat "0" (len amt - len dec)) (fun trailingZeros =>
    and_then (Repeat "0" (8 - len amt)) (fun leadingZeros =>
    Some (["0"; String.append leadingZeros dec; trailingZeros], [])))
  else
    and_then (slice_to amt (len amt - 8)) (fun integer =>
    let finish (integer : string) :=
      and_then (slice_from amt (len amt - 8)) (fun last8 =>
      let dec := TrimRight0 last8 in
      and_then (Repeat "0" (8 - len dec)) (fun zeros =>
      Some ([integer; dec; zeros], []))) in
    if useCommas then
      match ParseInt integer with
      | None =>
          Some (["ERROR"; "VALUE"; ""],
                ["amountAsDecimalParts comma formatting failed."])
      | Some integerAsInt64 => finish (humanize_Comma integerAsInt64)
      end
    else finish integer).

End WithComma.

End Helpers.

(** A comma formatter for the examples: it writes the plain digits. *)
Definition sample_Comma (v : Z) : string := GoStrings.FormatInt v.

(** ** More sample inputs *)

(** Two parsers over templates named by their page: one that parses every
    page and one that fails on the block page. *)
Definition sample_parse_ok (name : string) (funcs : bool)
  (files : list string) : string + string :=
  inl name.

Definition sample_parse_bad (name : string) (funcs : bool)
  (files : list string) : string + string :=
  if String.eqb name "block" then inr "block.tmpl: unexpected EOF"
  else inl name.

Definition sample_Join (dir file : string) : string :=
  String.append dir (String.append "/" file).

Definition sample_templates_ok : Templates.t string :=
  fst (Templates.New_templates string sample_parse_ok sample_Join).

Definition sample_templates_bad : Templates.t string :=
  fst (Templates.New_templates string sample_parse_bad sample_Join).

Definition sample_AddrTxnTypeFromStr (s : string) : AddrTxnType :=
  if String.eqb s "all" then AddrTxnAll
  else if String.eqb s "credit" then AddrTxnCredit
  else if String.eqb s "debit" then AddrTxnDebit
  else AddrTxnUnknown.

(** An address page in full mode, showing credits. *)
Definition sample_address_info : AddressInfo :=
  {| ai_Address := "DsExample"; MaxTxLimit := 1000; Fullmode := true;
     Path := "/address/DsExample"; Limit := 20; Offset := 0;
     TxnType := "credit"; NumUnconfirmed := 0;
     Transactions := []; TxnsFunding := []; TxnsSpending := [];
     NumTransactions := 0; NumFundingTxns := 0; NumSpendingTxns := 0;
     AmountReceived := 0; AmountSent := 0; AmountUnspent := 0;
     Balance := None;
     KnownTransactions := 5; KnownFundingTxns := 3;
     KnownSpendingTxns := 2 |}.

(** * Proofs *)

(** ** Integer conversions *)

Lemma int64_small (z : Z) :
  min_int64 <= z <= max_int64 -> int64 z = z.
Proof.
  unfold int64, wrap_signed, min_int64, max_int64. intros H.
  rewrite Z.mod_small; lia.
Qed.

Lemma int64_range (z : Z) : min_int64 <= int64 z <= max_int64.
Proof.
  unfold int64, wrap_signed, min_int64, max_int64.
  pose proof (Z.mod_pos_bound (z + 2 ^ (64 - 1)) (2 ^ 64) ltac:(lia)). lia.
Qed.

(** ** Address history: proofs *)

Section ReduceAddressHistoryFacts.

Import ReduceHistory.

Lemma body_lengths (l : locals) (r : AddressRow) :
  List.length (creditTxns (body l r)) = S (List.length (creditTxns l)) /\
  List.length (debitTxns (body l r)) =
    (List.length (debitTxns l) + (if is_spent r then 1 else 0))%nat /\
  List.length (transactions (body l r)) =
    (List.length (transactions l) + (if is_spent r then 2 else 1))%nat.
Proof.
  unfold body, is_spent.
  destruct (String.eqb (SpendingTxHash r) ""); simpl;
    repeat rewrite length_app; simpl; lia.
Qed.

Lemma loop_lengths (addrHist : list AddressRow) : forall l : locals,
  List.length (creditTxns (loop addrHist l)) =
    (List.length (creditTxns l) + List.length addrHist)%nat /\
  List.length (debitTxns (loop addrHist l)) =
    (List.length (debitTxns l) + List.length (spent_rows addrHist))%nat /\
  List.length (transactions (loop addrHist l)) =
    (List.length (transactions l) + List.length addrHist
     + List.length (spent_rows addrHist))%nat.
Proof.
  induction addrHist as [|r rest IH]; intros l.
  - simpl. lia.
  - unfold loop in *. cbn [fold_left].
    destruct (IH (body l r)) as (Hc & Hd & Ht).
    destruct (body_lengths l r) as (Bc & Bd & Bt).
    rewrite Hc, Hd, Ht, Bc, Bd, Bt.
    unfold spent_rows. cbn [filter List.length].
    destruct (is_spent r); cbn [List.length]; lia.
Qed.

Lemma body_in_range (l : locals) (r : AddressRow) :
  min_int64 <= received (body l r) <= max_int64 /\
  (min_int64 <= sent l <= max_int64 ->
   min_int64 <= sent (body l r) <= max_int64).
Proof.
  unfold body.
  unfold body, add64.
  destruct (String.eqb (SpendingTxHash r) ""); cbn [received sent];
    split; intros; try apply int64_range; assumption.
Qed.

Lemma loop_in_range (addrHist : list AddressRow) : forall l : locals,
  min_int64 <= received l <= max_int64 ->
  min_int64 <= sent l <= max_int64 ->
  min_int64 <= received (loop addrHist l) <= max_int64 /\
  min_int64 <= sent (loop addrHist l) <= max_int64.
Proof.
  induction addrHist as [|r rest IH]; intros l Hr Hs.
  - simpl. split; assumption.
  - unfold loop in *. cbn [fold_left].
    destruct (body_in_range l r) as (Br & Bs).
    apply IH; auto.
Qed.

(** While the amounts fit an int64 the two running sums are the plain sums
    of the rows' values. *)
Lemma loop_sums (addrHist : list AddressRow) : forall l : locals,
  Forall (fun r => 0 <= Value r) addrHist ->
  0 <= sent l <= received l ->
  received l + total_value addrHist <= max_int64 ->
  received (loop addrHist l) = received l + total_value addrHist /\
  sent (loop addrHist l) = sent l + total_value (spent_rows addrHist) /\
  0 <= total_value (spent_rows addrHist) <= total_value addrHist.
Proof.
  induction addrHist as [|r rest IH]; intros l Hpos Hl Hmax.
  - cbn. lia.
  - inversion Hpos as [|? ? Hr Hrest]; subst.
    cbn [total_value fold_right] in Hmax. fold (total_value rest) in Hmax.
    assert (Htail : 0 <= total_value (spent_rows rest) <= total_value rest).
    { clear - Hrest. induction Hrest as [|x xs Hx _ IHxs]; [cbn; lia|].
      unfold spent_rows in *. cbn [filter total_value fold_right].
      destruct (is_spent x); cbn [total_value fold_right];
        fold (total_value xs); fold (total_value (filter is_spent xs)); lia. }
    assert (Hv : int64 (Value r) = Value r)
      by (apply int64_small; unfold min_int64, max_int64 in *; lia).
    unfold loop in *. cbn [fold_left].
    assert (Hrec : received (body l r) = received l + Value r).
    { unfold body, add64. rewrite Hv.
      destruct (String.eqb (SpendingTxHash r) ""); cbn [received];
        apply int64_small; unfold min_int64, max_int64 in *; lia. }
    assert (Hsent : sent (body l r)
                    = sent l + (if is_spent r then Value r else 0)).
    { unfold body, add64, is_spent. rewrite Hv.
      destruct (String.eqb (SpendingTxHash r) ""); cbn [sent negb];
        [lia|]. apply int64_small; unfold min_int64, max_int64 in *; lia. }
    destruct (IH (body l r) Hrest) as (IHr & IHs & _).
    + rewrite Hrec, Hsent. destruct (is_spent r); lia.
    + rewrite Hrec. lia.
    + rewrite IHr, IHs, Hrec, Hsent.
      unfold spent_rows. cbn [filter total_value fold_right].
      fold (total_value rest).
      destruct (is_spent r); cbn [total_value fold_right];
        fold (total_value (filter is_spent rest));
        unfold spent_rows in Htail; lia.
Qed.

End ReduceAddressHistoryFacts.

(** C10. [ReduceAddressHistory] returns nil exactly when the input slice is
    empty; on a non-empty input it returns a record in which
    [AmountUnspent] is [AmountReceived - AmountSent] (Go's int64
    subtraction), [NumFundingTxns] is the number of input rows,
    [NumSpendingTxns] is the number of rows with a non-empty
    [SpendingTxHash], and [Transactions] has
    [NumFundingTxns + NumSpendingTxns] entries. *)
Theorem ReduceAddressHistory_summary (addrHist : list AddressRow) :
  (ReduceAddressHistory addrHist = None <-> addrHist = []) /\
  (addrHist <> [] ->
   exists info : AddressInfo,
     ReduceAddressHistory addrHist = Some info /\
     AmountUnspent info = sub64 (AmountReceived info) (AmountSent info) /\
     NumFundingTxns info = len addrHist /\
     NumSpendingTxns info = len (spent_rows addrHist) /\
     len (Transactions info) = NumFundingTxns info + NumSpendingTxns info).
Proof.
  split.
  - destruct addrHist; simpl; split; intros H; try reflexivity; discriminate.
  - intros Hne. destruct addrHist as [|first rest]; [congruence|].
    eexists. split; [reflexivity|].
    cbn [AmountUnspent AmountReceived AmountSent NumFundingTxns
         NumSpendingTxns Transactions].
    set (l := ReduceHistory.loop (first :: rest) ReduceHistory.locals0).
    destruct (loop_lengths (first :: rest) ReduceHistory.locals0)
      as (Hc & Hd & Ht).
    destruct (loop_in_range (first :: rest) ReduceHistory.locals0)
      as (Hr & Hs); [vm_compute; split; discriminate ..|].
    fold l in Hc, Hd, Ht, Hr, Hs.
    unfold Amount, len.
    rewrite (int64_small (ReduceHistory.received l)) by exact Hr.
    rewrite (int64_small (ReduceHistory.sent l)) by exact Hs.
    rewrite Hc, Hd, Ht. cbn [ReduceHistory.locals0 ReduceHistory.creditTxns
      ReduceHistory.debitTxns ReduceHistory.transactions List.length].
    repeat split.
    + unfold sub64. apply int64_small, int64_range.
    + lia.
Qed.

Example ReduceAddressHistory_sample :
  option_map (fun i => (AmountReceived i, AmountSent i, AmountUnspent i,
                        NumFundingTxns i, NumSpendingTxns i,
                        map TxID (Transactions i)))
             (ReduceAddressHistory sample_history)
  = Some (200000000, 150000000, 50000000, 2, 1, ["f0"; "s0"; "f1"]).
Proof. vm_compute. reflexivity. Qed.

Example ReduceAddressHistory_sample_coins :
  option_map (fun i => map (fun t => (ReceivedTotal t, SentTotal t))
                           (Transactions i))
             (ReduceAddressHistory sample_history)
  = Some [(1.5%float, 0%float); (0%float, 1.5%float); (0.5%float, 0%float)].
Proof. vm_compute. reflexivity. Qed.

(** Sums beyond an int64 wrap around as they do in Go; the unspent amount is
    still the int64 difference of the two. *)
Example ReduceAddressHistory_wraps :
  option_map (fun i => (AmountReceived i, AmountSent i, AmountUnspent i))
             (ReduceAddressHistory overflowing_history)
  = Some (-9223372036854775808, 9223372036854775807, 1).
Proof. vm_compute. reflexivity. Qed.

Lemma ReduceAddressHistory_summary_witness :
  exists info : AddressInfo,
    ReduceAddressHistory sample_history = Some info /\
    AmountUnspent info = sub64 (AmountReceived info) (AmountSent info) /\
    NumFundingTxns info = len sample_history /\
    NumSpendingTxns info = len (spent_rows sample_history) /\
    len (Transactions info) = NumFundingTxns info + NumSpendingTxns info.
Proof.
  apply (proj2 (ReduceAddressHistory_summary sample_history)).
  discriminate.
Defined.

(** When no amount overflows, the unspent amount is the difference of the
    two sums as integers. *)
Lemma ReduceAddressHistory_unspent_exact (addrHist : list AddressRow)
  (info : AddressInfo) :
  Forall (fun r => 0 <= Value r) addrHist ->
  total_value addrHist <= max_int64 ->
  ReduceAddressHistory addrHist = Some info ->
  AmountReceived info = total_value addrHist /\
  AmountSent info = total_value (spent_rows addrHist) /\
  AmountUnspent info = AmountReceived info - AmountSent info.
Proof.
  intros Hpos Hmax Hrun.
  destruct addrHist as [|first rest]; [discriminate Hrun|].
  injection Hrun as <-.
  cbn [AmountUnspent AmountReceived AmountSent].
  change (ReduceHistory.loop rest
            (ReduceHistory.body ReduceHistory.locals0 first))
    with (ReduceHistory.loop (first :: rest) ReduceHistory.locals0).
  destruct (loop_sums (first :: rest) ReduceHistory.locals0 Hpos)
    as (Hr & Hs & Hb); [cbn; lia | cbn [ReduceHistory.received
      ReduceHistory.locals0]; lia |].
  cbn [ReduceHistory.received ReduceHistory.sent ReduceHistory.locals0]
    in Hr, Hs.
  rewrite Z.add_0_l in Hr, Hs.
  assert (H0 : 0 <= total_value (first :: rest)) by lia.
  unfold Amount, sub64. rewrite Hr, Hs.
  rewrite !int64_small; unfold min_int64, max_int64 in *; try lia.
  rewrite int64_small; unfold min_int64, max_int64; lia.
Qed.

(** ** The producer entry points: how a call runs *)

Section ExplorerFacts.

Variable MsgBlock : Type.
Variable ToBlockExplorerSummary :
  blockdata.BlockData -> blockdata.BlockExplorerBasic.
Variable humanize_Bytes : Z -> string.

Local Arguments Chan.has_room : simpl never.

(** Opening the store down to the two locks and the control channel. *)
Ltac open_store e :=
  let buf := fresh "buf" in
  let cap := fresh "cap" in
  let wr := fresh "wr" in
  let rd := fresh "rd" in
  let mwr := fresh "mwr" in
  let mrd := fresh "mrd" in
  destruct e as [? [[buf cap] ? ? ?] [wr rd] ? ? [[mwr mrd] ? ? ? ? ?] ?].

Ltac run_call :=
  unfold Store, StoreMPData, StopWebsocketHub, bind, ret, Lock, Unlock,
    RLock, RUnlock, lock_op, write, send_HubRelay, log, step, start,
    RWMutex.Lock, RWMutex.Unlock, RWMutex.RLock, RWMutex.RUnlock,
    RWMutex.can_Lock, RWMutex.can_RLock, Chan.send;
  cbn.

(** The state [Store] leaves behind: both pointers replaced, nothing else
    touched apart from the signal queued on the control channel. *)
Lemma Store_run (e : explorerUI.t) (blockData : blockdata.BlockData)
  (msg : MsgBlock) :
  RWMutex.can_Lock (explorerUI.NewBlockDataMtx e) = true ->
  Chan.has_room (WebsocketHub.HubRelay (explorerUI.wsHub e)) = true ->
  exists w' : world,
    Store ToBlockExplorerSummary humanize_Bytes blockData msg (start e)
      = Returned error_nil w' /\
    exp w' =
      explorerUI.set_wsHub
        (WebsocketHub.set_HubRelay
           {| Chan.buf :=
                Chan.buf (WebsocketHub.HubRelay (explorerUI.wsHub e))
                ++ [sigNewBlock];
              Chan.cap :=
                Chan.cap (WebsocketHub.HubRelay (explorerUI.wsHub e)) |}
           (explorerUI.wsHub e))
        (explorerUI.set_ExtraInfo
           (Some (newExtraInfo blockData (explorerUI.ChainParams e)))
           (explorerUI.set_NewBlockData
              (Some (newBlockData humanize_Bytes
                       (ToBlockExplorerSummary blockData))) e)) /\
    map ev_op (trace w') =
      [OpLock NewBlockDataMtx; OpWrite fNewBlockData; OpWrite fExtraInfo;
       OpUnlock NewBlockDataMtx; OpSend sigNewBlock;
       OpLog "Got new block %d"
         [int64 (blockdata.Height (ToBlockExplorerSummary blockData))]].
Proof.
  open_store e. unfold RWMutex.can_Lock. cbn.
  intros Hl Hr. apply andb_true_iff in Hl. destruct Hl as [Hw Hz].
  apply negb_true_iff in Hw. apply Nat.eqb_eq in Hz. subst wr rd.
  run_call. rewrite Hr. cbn.
  eexists. split; [reflexivity|]. cbn. split; reflexivity.
Qed.

Lemma StoreMPData_run (e : explorerUI.t) (data : mempool.MempoolData)
  (timestamp : Z) :
  RWMutex.can_RLock (MempoolInfo.RWMutex (explorerUI.MempoolData e)) = true ->
  Chan.has_room (WebsocketHub.HubRelay (explorerUI.wsHub e)) = true ->
  exists w' : world,
    StoreMPData data timestamp (start e) = Returned error_nil w' /\
    exp w' =
      explorerUI.set_wsHub
        (WebsocketHub.set_HubRelay
           {| Chan.buf :=
                Chan.buf (WebsocketHub.HubRelay (explorerUI.wsHub e))
                ++ [sigMempoolUpdate];
              Chan.cap :=
                Chan.cap (WebsocketHub.HubRelay (explorerUI.wsHub e)) |}
           (explorerUI.wsHub e))
        (explorerUI.set_MempoolData
           (MempoolInfo.set_MempoolShort
              (MempoolShort.set_NumTickets (mempool.NumTickets data)
                 (MempoolInfo.MempoolShort (explorerUI.MempoolData e)))
              (explorerUI.MempoolData e)) e) /\
    map ev_op (trace w') =
      [OpRLock MempoolDataMtx; OpWrite fMempoolNumTickets;
       OpRUnlock MempoolDataMtx; OpSend sigMempoolUpdate].
Proof.
  open_store e. unfold RWMutex.can_RLock. cbn.
  intros Hw Hr. apply negb_true_iff in Hw. subst mwr.
  run_call. rewrite Hr. cbn.
  eexists. split; [reflexivity|]. cbn. split; reflexivity.
Qed.

(** Whatever the state of the locks and of the channel, the operations of a
    call are a prefix of the same sequence: it stops at the lock, at the
    channel, or runs to its end. *)
Lemma Store_ops (e : explorerUI.t) (blockData : blockdata.BlockData)
  (msg : MsgBlock) :
  ops_of (Store ToBlockExplorerSummary humanize_Bytes blockData msg (start e))
  = if RWMutex.can_Lock (explorerUI.NewBlockDataMtx e) then
      [OpLock NewBlockDataMtx; OpWrite fNewBlockData; OpWrite fExtraInfo;
       OpUnlock NewBlockDataMtx]
      ++ (if Chan.has_room (WebsocketHub.HubRelay (explorerUI.wsHub e)) then
            [OpSend sigNewBlock;
             OpLog "Got new block %d"
               [int64 (blockdata.Height (ToBlockExplorerSummary blockData))]]
          else [])
    else [].
Proof.
  open_store e. unfold ops_of. run_call.
  destruct wr; [reflexivity|]. destruct rd; [|reflexivity]. cbn.
  destruct (Chan.has_room _); reflexivity.
Qed.

Lemma StoreMPData_ops (e : explorerUI.t) (data : mempool.MempoolData)
  (timestamp : Z) :
  ops_of (StoreMPData data timestamp (start e))
  = if RWMutex.can_RLock (MempoolInfo.RWMutex (explorerUI.MempoolData e)) then
      [OpRLock MempoolDataMtx; OpWrite fMempoolNumTickets;
       OpRUnlock MempoolDataMtx]
      ++ (if Chan.has_room (WebsocketHub.HubRelay (explorerUI.wsHub e)) then
            [OpSend sigMempoolUpdate]
          else [])
    else [].
Proof.
  open_store e. unfold ops_of. run_call.
  destruct mwr; [reflexivity|]. cbn.
  destruct (Chan.has_room _); reflexivity.
Qed.

Lemma Store_result (e : explorerUI.t) (blockData : blockdata.BlockData)
  (msg : MsgBlock) :
  result_of
    (Store ToBlockExplorerSummary humanize_Bytes blockData msg (start e))
  = if RWMutex.can_Lock (explorerUI.NewBlockDataMtx e)
       && Chan.has_room (WebsocketHub.HubRelay (explorerUI.wsHub e))
    then Some error_nil else None.
Proof.
  open_store e. run_call.
  destruct wr; [reflexivity|]. destruct rd; [|reflexivity]. cbn.
  destruct (Chan.has_room _); reflexivity.
Qed.

Lemma StoreMPData_result (e : explorerUI.t) (data : mempool.MempoolData)
  (timestamp : Z) :
  result_of (StoreMPData data timestamp (start e))
  = if RWMutex.can_RLock (MempoolInfo.RWMutex (explorerUI.MempoolData e))
       && Chan.has_room (WebsocketHub.HubRelay (explorerUI.wsHub e))
    then Some error_nil else None.
Proof.
  open_store e. run_call.
  destruct mwr; [reflexivity|]. cbn.
  destruct (Chan.has_room _); reflexivity.
Qed.

(** The state a signal is sent in: the store as the call has updated it,
    with the lock back to what it was before the call. *)
Lemma Store_send_state (e : explorerUI.t) (blockData : blockdata.BlockData)
  (msg : MsgBlock) (ev : event) :
  In ev (trace (world_of
    (Store ToBlockExplorerSummary humanize_Bytes blockData msg (start e)))) ->
  is_send (ev_op ev) = true ->
  ev_op ev = OpSend sigNewBlock /\
  ev_at ev =
    explorerUI.set_ExtraInfo
      (Some (newExtraInfo blockData (explorerUI.ChainParams e)))
      (explorerUI.set_NewBlockData
         (Some (newBlockData humanize_Bytes
                  (ToBlockExplorerSummary blockData))) e).
Proof.
  open_store e. run_call.
  destruct wr; [intros []|]. destruct rd; [|intros []]. cbn.
  destruct (Chan.has_room _); cbn; intros Hin Hs;
    repeat (destruct Hin as [<-|Hin]; try discriminate Hs);
    try contradiction; split; reflexivity.
Qed.

Lemma StoreMPData_send_state (e : explorerUI.t) (data : mempool.MempoolData)
  (timestamp : Z) (ev : event) :
  In ev (trace (world_of (StoreMPData data timestamp (start e)))) ->
  is_send (ev_op ev) = true ->
  ev_op ev = OpSend sigMempoolUpdate /\
  ev_at ev =
    explorerUI.set_MempoolData
      (MempoolInfo.set_MempoolShort
         (MempoolShort.set_NumTickets (mempool.NumTickets data)
            (MempoolInfo.MempoolShort (explorerUI.MempoolData e)))
         (explorerUI.MempoolData e)) e.
Proof.
  open_store e. run_call.
  destruct mwr; [intros []|]. cbn.
  destruct (Chan.has_room _); cbn; intros Hin Hs;
    repeat (destruct Hin as [<-|Hin]; try discriminate Hs);
    try contradiction; split; reflexivity.
Qed.

(** ** Locks and the signal *)

(** C4. In [Store] and in [StoreMPData] the store's lock is released before
    the signal goes into the hub's control channel: in every run no lock
    taken by the call is still held at a send, and in the state the send
    executes in both locks are as they were before the call. When the lock
    and the channel are free the send does take place. *)
Theorem producers_release_before_send (e : explorerUI.t)
  (blockData : blockdata.BlockData) (msg : MsgBlock)
  (data : mempool.MempoolData) (timestamp : Z) :
  let store :=
    Store ToBlockExplorerSummary humanize_Bytes blockData msg (start e) in
  let storeMP := StoreMPData data timestamp (start e) in
  check send_unlocked [] (ops_of store) = true /\
  check send_unlocked [] (ops_of storeMP) = true /\
  (forall (ev : event) (l : lock_id),
     In ev (trace (world_of store)) \/ In ev (trace (world_of storeMP)) ->
     is_send (ev_op ev) = true ->
     get_lock l (ev_at ev) = get_lock l e) /\
  (RWMutex.can_Lock (explorerUI.NewBlockDataMtx e) = true ->
   Chan.has_room (WebsocketHub.HubRelay (explorerUI.wsHub e)) = true ->
   sends_of (ops_of store) = [sigNewBlock]) /\
  (RWMutex.can_RLock (MempoolInfo.RWMutex (explorerUI.MempoolData e)) = true ->
   Chan.has_room (WebsocketHub.HubRelay (explorerUI.wsHub e)) = true ->
   sends_of (ops_of storeMP) = [sigMempoolUpdate]).
Proof.
  intros store storeMP. subst store storeMP.
  rewrite Store_ops, StoreMPData_ops.
  repeat split.
  - destruct (RWMutex.can_Lock _); [|reflexivity].
    destruct (Chan.has_room _); reflexivity.
  - destruct (RWMutex.can_RLock _); [|reflexivity].
    destruct (Chan.has_room _); reflexivity.
  - intros ev l [Hin|Hin] Hs.
    + destruct (Store_send_state _ _ _ _ Hin Hs) as [_ ->].
      destruct l; reflexivity.
    + destruct (StoreMPData_send_state _ _ _ _ Hin Hs) as [_ ->].
      destruct l; reflexivity.
  - intros -> ->. reflexivity.
  - intros -> ->. reflexivity.
Qed.

(** C5. In [Store] the stored block data and ExtraInfo are replaced before
    the NewBlock signal is queued: the state any NewBlock signal is sent in
    already holds the new block record and the new ExtraInfo, and a run that
    is not held up performs both writes, the unlock and then the send, in
    that order. *)
Theorem Store_updates_before_signal (e : explorerUI.t)
  (blockData : blockdata.BlockData) (msg : MsgBlock) :
  let store :=
    Store ToBlockExplorerSummary humanize_Bytes blockData msg (start e) in
  (forall ev : event,
     In ev (trace (world_of store)) ->
     ev_op ev = OpSend sigNewBlock ->
     explorerUI.NewBlockData (ev_at ev)
       = Some (newBlockData humanize_Bytes (ToBlockExplorerSummary blockData))
     /\ explorerUI.ExtraInfo (ev_at ev)
       = Some (newExtraInfo blockData (explorerUI.ChainParams e))) /\
  (RWMutex.can_Lock (explorerUI.NewBlockDataMtx e) = true ->
   Chan.has_room (WebsocketHub.HubRelay (explorerUI.wsHub e)) = true ->
   ops_of store =
     [OpLock NewBlockDataMtx; OpWrite fNewBlockData; OpWrite fExtraInfo;
      OpUnlock NewBlockDataMtx; OpSend sigNewBlock;
      OpLog "Got new block %d"
        [int64 (blockdata.Height (ToBlockExplorerSummary blockData))]]).
Proof.
  intros store. subst store. split.
  - intros ev Hin Hop.
    assert (Hs : is_send (ev_op ev) = true) by (rewrite Hop; reflexivity).
    destruct (Store_send_state _ _ _ _ Hin Hs) as [_ ->].
    split; reflexivity.
  - intros Hl Hr. rewrite Store_ops, Hl, Hr. reflexivity.
Qed.

(** C6. The mempool notification is the bare signal: whatever [data] is,
    the only value [StoreMPData] sends on the control channel is
    [sigMempoolUpdate], and the hub after the call is the hub before it with
    that one signal queued, the same for every [data]. *)
Theorem StoreMPData_sends_bare_signal (e : explorerUI.t)
  (data : mempool.MempoolData) (timestamp : Z) :
  (forall s : hubSignal,
     In (OpSend s) (ops_of (StoreMPData data timestamp (start e))) ->
     s = sigMempoolUpdate) /\
  (RWMutex.can_RLock (MempoolInfo.RWMutex (explorerUI.MempoolData e)) = true ->
   Chan.has_room (WebsocketHub.HubRelay (explorerUI.wsHub e)) = true ->
   exists w' : world,
     StoreMPData data timestamp (start e) = Returned error_nil w' /\
     sends_of (map ev_op (trace w')) = [sigMempoolUpdate] /\
     explorerUI.wsHub (exp w') =
       WebsocketHub.set_HubRelay
         {| Chan.buf :=
              Chan.buf (WebsocketHub.HubRelay (explorerUI.wsHub e))
              ++ [sigMempoolUpdate];
            Chan.cap :=
              Chan.cap (WebsocketHub.HubRelay (explorerUI.wsHub e)) |}
         (explorerUI.wsHub e)).
Proof.
  split.
  - intros s. rewrite StoreMPData_ops.
    destruct (RWMutex.can_RLock _); [|intros []].
    destruct (Chan.has_room _); cbn; intros Hin;
      repeat (destruct Hin as [Heq|Hin]; try discriminate Heq);
      try contradiction.
    injection Heq as <-. reflexivity.
  - intros Hl Hr.
    destruct (StoreMPData_run e data timestamp Hl Hr) as (w' & Hrun & He & Ht).
    exists w'. split; [exact Hrun|]. rewrite Ht, He. split; reflexivity.
Qed.

(** The two locks are two components of the store: setting one leaves the
    other as it is. *)
Lemma get_set_lock_other (l l' : lock_id) (m : RWMutex.t) (e : explorerUI.t) :
  lock_id_eqb l l' = false -> get_lock l (set_lock l' m e) = get_lock l e.
Proof. destruct l, l'; intros H; try discriminate H; reflexivity. Qed.

Lemma get_set_lock_same (l : lock_id) (m : RWMutex.t) (e : explorerUI.t) :
  get_lock l (set_lock l m e) = m.
Proof. destruct l; reflexivity. Qed.

(** C7. The chain summary and the mempool record are guarded by two distinct
    locks: every lock operation of [Store] is on [NewBlockDataMtx], every
    lock operation of [StoreMPData] is on the lock embedded in the mempool
    record, neither call changes the other record's lock, and whether a call
    returns does not depend on the state of the other record's lock. *)
Theorem store_locks_are_independent (e : explorerUI.t)
  (blockData : blockdata.BlockData) (msg : MsgBlock)
  (data : mempool.MempoolData) (timestamp : Z) :
  let store := Store ToBlockExplorerSummary humanize_Bytes blockData msg in
  let storeMP := StoreMPData data timestamp in
  forallb (only_lock NewBlockDataMtx) (ops_of (store (start e))) = true /\
  forallb (only_lock MempoolDataMtx) (ops_of (storeMP (start e))) = true /\
  get_lock MempoolDataMtx (exp (world_of (store (start e))))
    = get_lock MempoolDataMtx e /\
  get_lock NewBlockDataMtx (exp (world_of (storeMP (start e))))
    = get_lock NewBlockDataMtx e /\
  (forall m : RWMutex.t,
     get_lock NewBlockDataMtx (set_lock MempoolDataMtx m e)
       = get_lock NewBlockDataMtx e /\
     result_of (store (start (set_lock MempoolDataMtx m e)))
       = result_of (store (start e))) /\
  (forall m : RWMutex.t,
     get_lock MempoolDataMtx (set_lock NewBlockDataMtx m e)
       = get_lock MempoolDataMtx e /\
     result_of (storeMP (start (set_lock NewBlockDataMtx m e)))
       = result_of (storeMP (start e))).
Proof.
  intros store storeMP. subst store storeMP.
  rewrite Store_ops, StoreMPData_ops.
  split; [|split; [|split; [|split; [|split]]]].
  - destruct (RWMutex.can_Lock _); [|reflexivity].
    destruct (Chan.has_room _); reflexivity.
  - destruct (RWMutex.can_RLock _); [|reflexivity].
    destruct (Chan.has_room _); reflexivity.
  - open_store e. run_call.
    destruct wr; [reflexivity|]. destruct rd; [|reflexivity]. cbn.
    destruct (Chan.has_room _); reflexivity.
  - open_store e. run_call.
    destruct mwr; [reflexivity|]. cbn.
    destruct (Chan.has_room _); reflexivity.
  - intros m. split; [apply get_set_lock_other; reflexivity|].
    rewrite !Store_result. destruct e; reflexivity.
  - intros m. split; [apply get_set_lock_other; reflexivity|].
    rewrite !StoreMPData_result. destruct e; reflexivity.
Qed.

(** ** Results *)


(** ** What the calls store *)

(** C1, as the code has it. A call [StoreMPData data timestamp] that is not
    held up returns with the stored mempool record's [NumTickets] equal to
    [data.NumTickets] and every other field of the record as it was before
    the call. *)
Theorem StoreMPData_sets_NumTickets (e : explorerUI.t)
  (data : mempool.MempoolData) (timestamp : Z) :
  RWMutex.can_RLock (MempoolInfo.RWMutex (explorerUI.MempoolData e)) = true ->
  Chan.has_room (WebsocketHub.HubRelay (explorerUI.wsHub e)) = true ->
  exists w' : world,
    StoreMPData data timestamp (start e) = Returned error_nil w' /\
    let old := explorerUI.MempoolData e in
    let new := explorerUI.MempoolData (exp w') in
    MempoolShort.NumTickets (MempoolInfo.MempoolShort new)
      = mempool.NumTickets data /\
    MempoolInfo.MempoolShort new
      = MempoolShort.set_NumTickets (mempool.NumTickets data)
          (MempoolInfo.MempoolShort old) /\
    (let s := MempoolInfo.MempoolShort old in
     let s' := MempoolInfo.MempoolShort new in
     MempoolShort.NumVotes s' = MempoolShort.NumVotes s /\
     MempoolShort.NumRegular s' = MempoolShort.NumRegular s /\
     MempoolShort.NumRevokes s' = MempoolShort.NumRevokes s /\
     MempoolShort.NumAll s' = MempoolShort.NumAll s /\
     MempoolShort.TotalOut s' = MempoolShort.TotalOut s /\
     MempoolShort.TotalSize s' = MempoolShort.TotalSize s /\
     MempoolShort.LatestTransactions s' = MempoolShort.LatestTransactions s /\
     MempoolShort.TicketIndexes s' = MempoolShort.TicketIndexes s) /\
    MempoolInfo.Transactions new = MempoolInfo.Transactions old /\
    MempoolInfo.Tickets new = MempoolInfo.Tickets old /\
    MempoolInfo.Votes new = MempoolInfo.Votes old /\
    MempoolInfo.Revocations new = MempoolInfo.Revocations old.
Proof.
  intros Hl Hr.
  destruct (StoreMPData_run e data timestamp Hl Hr) as (w' & Hrun & He & _).
  exists w'. split; [exact Hrun|]. rewrite He. cbn.
  repeat split; reflexivity.
Qed.

(** C3, as the code has it. A call [Store blockData] that is not held up
    returns with a new block record whose height, size, voter, ticket and
    revocation counts, transaction count, block time and formatted strings
    come from the block's explorer summary, and a new ExtraInfo whose coin
    supply, stake difficulty, stake-window index, difficulty and subsidy
    breakdown come from [blockData] and whose window size is the configured
    stake-difficulty window size. [Store] sets neither the validity flag, nor
    the reward-window index, nor the other three chain parameters: they hold
    their zero values. *)
Theorem Store_stores_listed_fields (e : explorerUI.t)
  (blockData : blockdata.BlockData) (msg : MsgBlock) :
  RWMutex.can_Lock (explorerUI.NewBlockDataMtx e) = true ->
  Chan.has_room (WebsocketHub.HubRelay (explorerUI.wsHub e)) = true ->
  exists (w' : world) (b : BlockBasic.t) (x : HomeInfo.t),
    Store ToBlockExplorerSummary humanize_Bytes blockData msg (start e)
      = Returned error_nil w' /\
    explorerUI.NewBlockData (exp w') = Some b /\
    explorerUI.ExtraInfo (exp w') = Some x /\
    (let bData := ToBlockExplorerSummary blockData in
     BlockBasic.Height b = int64 (blockdata.Height bData) /\
     BlockBasic.Size b = int32 (blockdata.Size bData) /\
     BlockBasic.Voters b = blockdata.Voters bData /\
     BlockBasic.FreshStake b = blockdata.FreshStake bData /\
     BlockBasic.Revocations b = uint32 (blockdata.Revocations bData) /\
     BlockBasic.Transactions b = blockdata.TxLen bData /\
     BlockBasic.BlockTime b = blockdata.Time bData /\
     BlockBasic.FormattedTime b = blockdata.FormattedTime bData /\
     BlockBasic.FormattedBytes b
       = humanize_Bytes (uint64 (blockdata.Size bData))) /\
    (let extra := blockdata.ExtraInfo blockData in
     let sub := blockdata.NextBlockSubsidy extra in
     HomeInfo.CoinSupply x = blockdata.CoinSupply extra /\
     HomeInfo.StakeDiff x
       = blockdata.CurrentStakeDifficulty
           (blockdata.CurrentStakeDiff blockData) /\
     HomeInfo.IdxBlockInWindow x = blockdata.IdxBlockInWindow blockData /\
     HomeInfo.Difficulty x
       = blockdata.Difficulty (blockdata.Header blockData) /\
     BlockSubsidy.Dev (HomeInfo.NBlockSubsidy x) = blockdata.Developer sub /\
     BlockSubsidy.PoS (HomeInfo.NBlockSubsidy x) = blockdata.PoS sub /\
     BlockSubsidy.PoW (HomeInfo.NBlockSubsidy x) = blockdata.PoW sub /\
     BlockSubsidy.Total (HomeInfo.NBlockSubsidy x) = blockdata.Total sub /\
     ChainParams.WindowSize (HomeInfo.Params x)
       = chaincfg.StakeDiffWindowSize (explorerUI.ChainParams e)) /\
    (BlockBasic.Valid b = false /\
     HomeInfo.IdxInRewardWindow x = 0 /\
     ChainParams.RewardWindowSize (HomeInfo.Params x) = 0 /\
     ChainParams.TargetPoolSize (HomeInfo.Params x) = 0 /\
     ChainParams.BlockTime (HomeInfo.Params x) = 0).
Proof.
  intros Hl Hr.
  destruct (Store_run e blockData msg Hl Hr) as (w' & Hrun & He & _).
  exists w',
    (newBlockData humanize_Bytes (ToBlockExplorerSummary blockData)),
    (newExtraInfo blockData (explorerUI.ChainParams e)).
  split; [exact Hrun|]. rewrite He. cbn.
  repeat split; reflexivity.
Qed.

End ExplorerFacts.

(** ** Stopping the hub *)

Lemma hub_Stop_Stop (h : WebsocketHub.t) :
  WebsocketHub.Stop (WebsocketHub.Stop h) = WebsocketHub.Stop h.
Proof. reflexivity. Qed.



Example hub_calls_after_stop :
  WebsocketHub.apply_all
    [WebsocketHub.CallRegister; WebsocketHub.CallBroadcast sigNewBlock;
     WebsocketHub.CallStop; WebsocketHub.CallBroadcast sigMempoolUpdate;
     WebsocketHub.CallStop; WebsocketHub.CallRegister]
    (WebsocketHub.NewWebsocketHub 1)
  = (WebsocketHub.Stop
       {| WebsocketHub.HubRelay :=
            {| Chan.buf := [sigNewBlock]; Chan.cap := 1 |};
          WebsocketHub.clients := [O]; WebsocketHub.nextHandle := 1%nat;
          WebsocketHub.stopped := false |},
     [WebsocketHub.Registered O; WebsocketHub.Done; WebsocketHub.Done;
      WebsocketHub.Failed WebsocketHub.HubClosed; WebsocketHub.Done;
      WebsocketHub.Failed WebsocketHub.HubClosed]).
Proof. reflexivity. Qed.

(** ** The mempool record is written under its read lock *)

(** Every run of [StoreMPData] that gets past its lock writes the mempool
    record without holding the record's exclusive lock ... *)
Lemma StoreMPData_write_not_exclusive (e : explorerUI.t)
  (data : mempool.MempoolData) (timestamp : Z) :
  RWMutex.can_RLock (MempoolInfo.RWMutex (explorerUI.MempoolData e)) = true ->
  check write_exclusive [] (ops_of (StoreMPData data timestamp (start e)))
  = false.
Proof.
  intros Hl. rewrite StoreMPData_ops, Hl.
  destruct (Chan.has_room _); reflexivity.
Qed.

(** ... while [Store] writes the chain summary under [NewBlockDataMtx]. *)
Lemma Store_writes_exclusive (MsgBlock : Type)
  (ToBlockExplorerSummary :
     blockdata.BlockData -> blockdata.BlockExplorerBasic)
  (humanize_Bytes : Z -> string) (e : explorerUI.t)
  (blockData : blockdata.BlockData) (msg : MsgBlock) :
  check write_exclusive []
    (ops_of (Store ToBlockExplorerSummary humanize_Bytes blockData msg
               (start e)))
  = true.
Proof.
  rewrite Store_ops.
  destruct (RWMutex.can_Lock _); [|reflexivity].
  destruct (Chan.has_room _); reflexivity.
Qed.

(** C2. [StoreMPData] on a fresh store, seven tickets in the mempool, while
    another goroutine holds the mempool record's read lock: the call takes
    the read lock too, writes [NumTickets] with two readers inside and no
    writer, releases the read lock and signals. The write is not under the
    exclusive lock; the writes of [Store] on the same store are. *)
Theorem StoreMPData_writes_under_read_lock :
  let run := StoreMPData sample_mempool 0 (start sample_exp_reader) in
  result_of run = Some error_nil /\
  ops_of run =
    [OpRLock MempoolDataMtx; OpWrite fMempoolNumTickets;
     OpRUnlock MempoolDataMtx; OpSend sigMempoolUpdate] /\
  map (fun ev => get_lock MempoolDataMtx (ev_at ev))
      (filter (fun ev => is_write (ev_op ev)) (trace (world_of run)))
    = [{| RWMutex.writer := false; RWMutex.readers := 2 |}] /\
  check write_exclusive [] (ops_of run) = false /\
  check write_exclusive []
    (ops_of (@Store unit sample_summary sample_Bytes sample_block tt
               (start sample_exp_reader)))
  = true.
Proof. vm_compute. repeat split; reflexivity. Qed.

(** ** Where the stored records differ from the data model *)

(** C1 fails as stated: the stored record after [StoreMPData] is not a
    function of [data]. The same [data] stored into a fresh store and into
    one that counts five votes leaves two different records. *)
Lemma StoreMPData_not_wholesale :
  (exists w1 w2 : world,
     StoreMPData sample_mempool 0 (start sample_exp) = Returned error_nil w1 /\
     StoreMPData sample_mempool 0 (start sample_exp_votes)
       = Returned error_nil w2 /\
     MempoolShort.NumVotes
       (MempoolInfo.MempoolShort (explorerUI.MempoolData (exp w1))) = 0 /\
     MempoolShort.NumVotes
       (MempoolInfo.MempoolShort (explorerUI.MempoolData (exp w2))) = 5) /\
  ~ (exists derive : mempool.MempoolData -> MempoolShort.t,
       forall (e : explorerUI.t) (data : mempool.MempoolData)
              (timestamp : Z) (w' : world),
         StoreMPData data timestamp (start e) = Returned error_nil w' ->
         MempoolInfo.MempoolShort (explorerUI.MempoolData (exp w'))
           = derive data).
Proof.
  split.
  - eexists. eexists. split; [reflexivity|]. split; [reflexivity|].
    split; reflexivity.
  - intros [derive H].
    pose proof (H sample_exp sample_mempool 0 _ eq_refl) as H1.
    pose proof (H sample_exp_votes sample_mempool 0 _ eq_refl) as H2.
    rewrite <- H2 in H1.
    apply (f_equal MempoolShort.NumVotes) in H1.
    vm_compute in H1. discriminate H1.
Qed.

(** C3 fails as stated: on the main network's parameters the stored
    ExtraInfo does not carry the configured chain parameters (it has the
    stake-difficulty window size and three zeros), its reward-window index
    is zero, and the stored block record's validity flag is false. *)
Lemma Store_leaves_fields_unset :
  (exists (w' : world) (b : BlockBasic.t) (x : HomeInfo.t),
     @Store unit sample_summary sample_Bytes sample_block tt (start sample_exp)
       = Returned error_nil w' /\
     explorerUI.NewBlockData (exp w') = Some b /\
     explorerUI.ExtraInfo (exp w') = Some x /\
     HomeInfo.Params x <> spec_ChainParams (explorerUI.ChainParams sample_exp) /\
     HomeInfo.Params x =
       {| ChainParams.WindowSize := 144; ChainParams.RewardWindowSize := 0;
          ChainParams.TargetPoolSize := 0; ChainParams.BlockTime := 0 |} /\
     spec_ChainParams (explorerUI.ChainParams sample_exp) =
       {| ChainParams.WindowSize := 144; ChainParams.RewardWindowSize := 6144;
          ChainParams.TargetPoolSize := 8192;
          ChainParams.BlockTime := 300000000000 |} /\
     HomeInfo.IdxInRewardWindow x = 0 /\
     BlockBasic.Valid b = false) /\
  ~ (forall (e : explorerUI.t) (blockData : blockdata.BlockData)
            (w' : world),
       @Store unit sample_summary sample_Bytes blockData tt (start e)
         = Returned error_nil w' ->
       option_map HomeInfo.Params (explorerUI.ExtraInfo (exp w'))
         = Some (spec_ChainParams (explorerUI.ChainParams e))).
Proof.
  destruct (Store_run unit sample_summary sample_Bytes sample_exp
              sample_block tt eq_refl eq_refl) as (w' & Hrun & He & _).
  split.
  - exists w'. rewrite He. eexists. eexists.
    split; [exact Hrun|]. split; [reflexivity|]. split; [reflexivity|].
    split; [|repeat split; reflexivity].
    vm_compute. discriminate.
  - intros H.
    pose proof (H sample_exp sample_block w' Hrun) as H1.
    rewrite He in H1. vm_compute in H1. discriminate H1.
Qed.

(** ** The theorems at the sample inputs *)

Lemma StoreMPData_sets_NumTickets_witness :
  exists w' : world,
    StoreMPData sample_mempool 0 (start sample_exp_votes)
      = Returned error_nil w' /\
    MempoolShort.NumTickets
      (MempoolInfo.MempoolShort (explorerUI.MempoolData (exp w'))) = 7 /\
    MempoolShort.NumVotes
      (MempoolInfo.MempoolShort (explorerUI.MempoolData (exp w'))) = 5.
Proof.
  destruct (StoreMPData_sets_NumTickets sample_exp_votes sample_mempool 0
              eq_refl eq_refl)
    as (w' & Hrun & Hn & _ & (Hv & _) & _).
  exists w'. split; [exact Hrun|]. split; [exact Hn | exact Hv].
Defined.

Lemma Store_stores_listed_fields_witness :
  exists (w' : world) (b : BlockBasic.t) (x : HomeInfo.t),
    @Store unit sample_summary sample_Bytes sample_block tt (start sample_exp)
      = Returned error_nil w' /\
    explorerUI.NewBlockData (exp w') = Some b /\
    explorerUI.ExtraInfo (exp w') = Some x /\
    BlockBasic.Height b = 200000 /\
    HomeInfo.CoinSupply x = 700000000000000 /\
    ChainParams.WindowSize (HomeInfo.Params x) = 144.
Proof.
  destruct (Store_stores_listed_fields unit sample_summary sample_Bytes
              sample_exp sample_block tt eq_refl eq_refl)
    as (w' & b & x & Hrun & Hb & Hx & (Hh & _) & (Hc & Hrest) & _).
  exists w', b, x.
  split; [exact Hrun|]. split; [exact Hb|]. split; [exact Hx|].
  split; [exact Hh|]. split; [exact Hc|]. apply Hrest.
Defined.

Lemma producers_release_before_send_witness :
  In sample_send_event
     (trace (world_of (@Store unit sample_summary sample_Bytes sample_block tt
                         (start sample_exp)))) /\
  (forall l : lock_id,
     get_lock l (ev_at sample_send_event) = get_lock l sample_exp) /\
  sends_of (ops_of (@Store unit sample_summary sample_Bytes sample_block tt
                      (start sample_exp))) = [sigNewBlock] /\
  sends_of (ops_of (StoreMPData sample_mempool 0 (start sample_exp)))
    = [sigMempoolUpdate].
Proof.
  assert (Hin : In sample_send_event
     (trace (world_of (@Store unit sample_summary sample_Bytes sample_block tt
                         (start sample_exp))))).
  { vm_compute. right; right; right; right; left. reflexivity. }
  pose proof (producers_release_before_send unit sample_summary sample_Bytes
                sample_exp sample_block tt sample_mempool 0) as H.
  cbv zeta in H. destruct H as (_ & _ & Hat & Hs & Hm).
  split; [exact Hin|]. split; [|split].
  - intros l. apply Hat; [left; exact Hin | reflexivity].
  - apply Hs; reflexivity.
  - apply Hm; reflexivity.
Defined.

Lemma Store_updates_before_signal_witness :
  explorerUI.NewBlockData (ev_at sample_send_event)
    = Some (newBlockData sample_Bytes (sample_summary sample_block)) /\
  explorerUI.ExtraInfo (ev_at sample_send_event)
    = Some (newExtraInfo sample_block sample_params) /\
  ops_of (@Store unit sample_summary sample_Bytes sample_block tt
            (start sample_exp)) =
    [OpLock NewBlockDataMtx; OpWrite fNewBlockData; OpWrite fExtraInfo;
     OpUnlock NewBlockDataMtx; OpSend sigNewBlock;
     OpLog "Got new block %d" [200000]].
Proof.
  pose proof (Store_updates_before_signal unit sample_summary sample_Bytes
                sample_exp sample_block tt) as H.
  cbv zeta in H. destruct H as (Hat & Hops).
  assert (Hin : In sample_send_event
     (trace (world_of (@Store unit sample_summary sample_Bytes sample_block tt
                         (start sample_exp))))).
  { vm_compute. right; right; right; right; left. reflexivity. }
  destruct (Hat sample_send_event Hin eq_refl) as (Hb & Hx).
  split; [exact Hb|]. split; [exact Hx|].
  apply Hops; reflexivity.
Defined.

Lemma StoreMPData_sends_bare_signal_witness :
  In (OpSend sigMempoolUpdate)
     (ops_of (StoreMPData sample_mempool 0 (start sample_exp))) /\
  sigMempoolUpdate = sigMempoolUpdate /\
  exists w' : world,
    StoreMPData sample_mempool 0 (start sample_exp) = Returned error_nil w' /\
    Chan.buf (WebsocketHub.HubRelay (explorerUI.wsHub (exp w')))
      = [sigMempoolUpdate].
Proof.
  destruct (StoreMPData_sends_bare_signal sample_exp sample_mempool 0)
    as (Hs & Hrun).
  assert (Hin : In (OpSend sigMempoolUpdate)
     (ops_of (StoreMPData sample_mempool 0 (start sample_exp)))).
  { vm_compute. right; right; right; left. reflexivity. }
  split; [exact Hin|]. split; [exact (Hs sigMempoolUpdate Hin)|].
  destruct (Hrun eq_refl eq_refl) as (w' & Hw & _ & Hhub).
  exists w'. split; [exact Hw|]. rewrite Hhub. reflexivity.
Defined.


(** Each call goes through while another goroutine holds the other record's
    write lock, and waits while one holds its own. *)
Example calls_wait_for_their_own_lock_only :
  result_of (@Store unit sample_summary sample_Bytes sample_block tt
               (start sample_exp_mempool_writer)) = Some error_nil /\
  result_of (StoreMPData sample_mempool 0 (start sample_exp_chain_writer))
    = Some error_nil /\
  @Store unit sample_summary sample_Bytes sample_block tt
    (start sample_exp_chain_writer) = Blocked (start sample_exp_chain_writer) /\
  StoreMPData sample_mempool 0 (start sample_exp_mempool_writer)
    = Blocked (start sample_exp_mempool_writer).
Proof. vm_compute. repeat split; reflexivity. Qed.

(** ** Address history: order, sums and pages *)

Lemma int64_add_l (a b : Z) : int64 (int64 a + b) = int64 (a + b).
Proof.
  unfold int64, wrap_signed. f_equal.
  replace ((a + 2 ^ (64 - 1)) mod 2 ^ 64 - 2 ^ (64 - 1) + b + 2 ^ (64 - 1))
    with ((a + 2 ^ (64 - 1)) mod 2 ^ 64 + b) by lia.
  rewrite Zplus_mod_idemp_l. f_equal. lia.
Qed.

Lemma int64_add_r (a b : Z) : int64 (a + int64 b) = int64 (a + b).
Proof. rewrite Z.add_comm, int64_add_l. f_equal. lia. Qed.

Lemma int64_add_mid (a b c : Z) :
  int64 (a + int64 b + c) = int64 (a + (b + c)).
Proof.
  replace (a + int64 b + c) with (int64 b + (a + c)) by lia.
  rewrite int64_add_l. f_equal. lia.
Qed.

Lemma int64_sub_both (a b : Z) : int64 (int64 a - int64 b) = int64 (a - b).
Proof.
  unfold int64, wrap_signed. f_equal.
  replace ((a + 2 ^ (64 - 1)) mod 2 ^ 64 - 2 ^ (64 - 1)
           - ((b + 2 ^ (64 - 1)) mod 2 ^ 64 - 2 ^ (64 - 1)) + 2 ^ (64 - 1))
    with ((a + 2 ^ (64 - 1)) mod 2 ^ 64
          - ((b + 2 ^ (64 - 1)) mod 2 ^ 64 - 2 ^ (64 - 1))) by lia.
  rewrite Zminus_mod_idemp_l.
  replace (a + 2 ^ (64 - 1) - ((b + 2 ^ (64 - 1)) mod 2 ^ 64 - 2 ^ (64 - 1)))
    with (a + 2 ^ (64 - 1) + 2 ^ (64 - 1) - (b + 2 ^ (64 - 1)) mod 2 ^ 64)
    by lia.
  rewrite Zminus_mod_idemp_r. f_equal. lia.
Qed.

Lemma total_value_app (h1 h2 : list AddressRow) :
  total_value (h1 ++ h2) = total_value h1 + total_value h2.
Proof.
  induction h1 as [|r h1 IH]; [reflexivity|].
  cbn [app total_value fold_right]. fold (total_value (h1 ++ h2)).
  fold (total_value h1). lia.
Qed.

Lemma total_value_split (h : list AddressRow) :
  total_value h
  = total_value (spent_rows h) + total_value (filter is_unspent h).
Proof.
  induction h as [|r h IH]; [reflexivity|].
  unfold spent_rows, is_unspent in *. cbn [filter total_value fold_right].
  fold (total_value h).
  destruct (is_spent r); cbn [negb total_value fold_right];
    fold (total_value (filter is_spent h));
    fold (total_value (filter (fun r => negb (is_spent r)) h)); lia.
Qed.

(** The loop, run from any point: what it adds to each list and sum. *)
Lemma loop_shape (h : list AddressRow) : forall l : ReduceHistory.locals,
  ReduceHistory.transactions (ReduceHistory.loop h l)
    = ReduceHistory.transactions l ++ flat_map row_transactions h /\
  ReduceHistory.creditTxns (ReduceHistory.loop h l)
    = ReduceHistory.creditTxns l ++ map row_funding h /\
  ReduceHistory.debitTxns (ReduceHistory.loop h l)
    = ReduceHistory.debitTxns l ++ map row_spending (spent_rows h) /\
  int64 (ReduceHistory.received (ReduceHistory.loop h l))
    = int64 (ReduceHistory.received l + total_value h) /\
  int64 (ReduceHistory.sent (ReduceHistory.loop h l))
    = int64 (ReduceHistory.sent l + total_value (spent_rows h)).
Proof.
  induction h as [|r h IH]; intros l.
  - cbn. rewrite !app_nil_r, !Z.add_0_r. repeat split; reflexivity.
  - unfold ReduceHistory.loop in *. cbn [fold_left].
    destruct (IH (ReduceHistory.body l r)) as (Ht & Hc & Hd & Hr & Hs).
    rewrite Ht, Hc, Hd, Hr, Hs. clear IH Ht Hc Hd Hr Hs.
    unfold ReduceHistory.body, spent_rows, row_transactions, is_spent,
      row_funding, row_spending, row_coin, add64.
    cbn [flat_map map filter total_value fold_right].
    fold (total_value h).
    destruct (String.eqb (SpendingTxHash r) "");
      cbn [negb ReduceHistory.transactions ReduceHistory.creditTxns
           ReduceHistory.debitTxns ReduceHistory.received ReduceHistory.sent
           map total_value fold_right app];
      fold (total_value (filter is_spent h));
      rewrite <- ?app_assoc; cbn [app];
      rewrite ?int64_add_l, ?int64_add_r;
      repeat split; try reflexivity;
      rewrite int64_add_mid; unfold total_value; reflexivity.
Qed.

(** The result on a non-empty history, list by list and sum by sum. *)
Lemma ReduceAddressHistory_keeps_order_aux (first : AddressRow)
  (rest : list AddressRow) :
  exists info : AddressInfo,
    ReduceAddressHistory (first :: rest) = Some info /\
    ai_Address info = Address first /\
    Transactions info = flat_map row_transactions (first :: rest) /\
    TxnsFunding info = map row_funding (first :: rest) /\
    TxnsSpending info = map row_spending (spent_rows (first :: rest)).
Proof.
  eexists. split; [reflexivity|].
  cbn [ai_Address Transactions TxnsFunding TxnsSpending].
  destruct (loop_shape (first :: rest) ReduceHistory.locals0)
    as (Ht & Hc & Hd & _).
  rewrite Ht, Hc, Hd. repeat split; reflexivity.
Qed.

Lemma ReduceAddressHistory_amounts_aux (first : AddressRow)
  (rest : list AddressRow) (info : AddressInfo) :
  ReduceAddressHistory (first :: rest) = Some info ->
  NumFundingTxns info = len (first :: rest) /\
  NumSpendingTxns info = len (spent_rows (first :: rest)) /\
  AmountReceived info = int64 (total_value (first :: rest)) /\
  AmountSent info = int64 (total_value (spent_rows (first :: rest))) /\
  AmountUnspent info
    = int64 (total_value (filter is_unspent (first :: rest))).
Proof.
  intros Hrun. injection Hrun as <-.
  cbn [AmountReceived AmountSent AmountUnspent NumFundingTxns
       NumSpendingTxns].
  change (ReduceHistory.loop rest
            (ReduceHistory.body ReduceHistory.locals0 first))
    with (ReduceHistory.loop (first :: rest) ReduceHistory.locals0).
  destruct (loop_shape (first :: rest) ReduceHistory.locals0)
    as (_ & Hc & Hd & Hr & Hs).
  cbn [ReduceHistory.received ReduceHistory.sent ReduceHistory.locals0]
    in Hr, Hs.
  rewrite Z.add_0_l in Hr, Hs.
  rewrite Hc, Hd. cbn [ReduceHistory.creditTxns ReduceHistory.debitTxns
    ReduceHistory.locals0 app].
  unfold Amount, sub64, len. rewrite Hr, Hs, !length_map.
  split; [reflexivity|]. split; [reflexivity|].
  split; [reflexivity|]. split; [reflexivity|].
  rewrite <- (int64_sub_both
                (ReduceHistory.received
                   (ReduceHistory.loop (first :: rest) ReduceHistory.locals0))
                (ReduceHistory.sent
                   (ReduceHistory.loop (first :: rest) ReduceHistory.locals0))).
  rewrite Hr, Hs, int64_sub_both.
  rewrite (int64_small (int64 _)) by apply int64_range.
  f_equal. rewrite (total_value_split (first :: rest)). lia.
Qed.

(** X1. [ReduceAddressHistory] keeps the order of the rows: [TxnsFunding]
    is the rows' funding transactions in order, [TxnsSpending] the spending
    transactions of the spent rows in order, and [Transactions] lists each
    row's funding transaction followed at once by its spending transaction,
    if it has one. [Address] is the first row's. *)
Theorem ReduceAddressHistory_keeps_order (first : AddressRow)
  (rest : list AddressRow) :
  exists info : AddressInfo,
    ReduceAddressHistory (first :: rest) = Some info /\
    ai_Address info = Address first /\
    Transactions info = flat_map row_transactions (first :: rest) /\
    TxnsFunding info = map row_funding (first :: rest) /\
    TxnsSpending info = map row_spending (spent_rows (first :: rest)).
Proof.
  eexists. split; [reflexivity|].
  cbn [ai_Address Transactions TxnsFunding TxnsSpending].
  destruct (loop_shape (first :: rest) ReduceHistory.locals0)
    as (Ht & Hc & Hd & _).
  rewrite Ht, Hc, Hd. repeat split; reflexivity.
Qed.

(** X2. Whatever the values, the three amounts are the int64 wrap of the
    plain sums: received of all values, sent of the spent rows' values,
    unspent of the unspent rows' values. *)
Theorem ReduceAddressHistory_amounts_wrap (first : AddressRow)
  (rest : list AddressRow) :
  exists info : AddressInfo,
    ReduceAddressHistory (first :: rest) = Some info /\
    AmountReceived info = int64 (total_value (first :: rest)) /\
    AmountSent info = int64 (total_value (spent_rows (first :: rest))) /\
    AmountUnspent info
      = int64 (total_value (filter is_unspent (first :: rest))).
Proof.
  destruct (ReduceAddressHistory_keeps_order_aux first rest)
    as (info & Hrun & _).
  exists info. split; [exact Hrun|].
  apply (ReduceAddressHistory_amounts_aux first rest info Hrun).
Qed.

(** X3. While the rows' values are non-negative and add up to no more than
    an int64 holds, nothing wraps: the amounts are the plain sums, and the
    unspent amount lies between zero and the received amount. *)
Theorem ReduceAddressHistory_amounts_exact (first : AddressRow)
  (rest : list AddressRow) :
  Forall (fun r => 0 <= Value r) (first :: rest) ->
  total_value (first :: rest) <= max_int64 ->
  exists info : AddressInfo,
    ReduceAddressHistory (first :: rest) = Some info /\
    AmountReceived info = total_value (first :: rest) /\
    AmountSent info = total_value (spent_rows (first :: rest)) /\
    AmountUnspent info = total_value (filter is_unspent (first :: rest)) /\
    0 <= AmountUnspent info <= AmountReceived info.
Proof.
  intros Hpos Hmax.
  destruct (ReduceAddressHistory_keeps_order_aux first rest)
    as (info & Hrun & _).
  destruct (ReduceAddressHistory_amounts_aux first rest info Hrun)
    as (_ & _ & Hr & Hs & Hu).
  exists info. split; [exact Hrun|].
  assert (Hnn : forall h, Forall (fun r => 0 <= Value r) h ->
                          0 <= total_value h).
  { intros h Hh. induction Hh as [|x xs Hx _ IH]; [cbn; lia|].
    cbn [total_value fold_right]. fold (total_value xs). lia. }
  assert (Hsp : 0 <= total_value (spent_rows (first :: rest))).
  { apply Hnn. unfold spent_rows. apply Forall_forall. intros x Hx.
    apply filter_In in Hx. destruct Hx as [Hx _].
    exact (proj1 (Forall_forall _ _) Hpos x Hx). }
  assert (Hun : 0 <= total_value (filter is_unspent (first :: rest))).
  { apply Hnn. apply Forall_forall. intros x Hx.
    apply filter_In in Hx. destruct Hx as [Hx _].
    exact (proj1 (Forall_forall _ _) Hpos x Hx). }
  pose proof (total_value_split (first :: rest)) as Hsplit.
  rewrite Hr, Hs, Hu.
  rewrite !int64_small by (unfold min_int64, max_int64 in *; lia).
  repeat split; lia.
Qed.

(** X4. Every transaction [ReduceAddressHistory] builds has one of its two
    totals zero, as [IOID] expects: the funding transactions send nothing
    and the spending transactions receive nothing. *)
Theorem ReduceAddressHistory_one_total_zero (first : AddressRow)
  (rest : list AddressRow) :
  exists info : AddressInfo,
    ReduceAddressHistory (first :: rest) = Some info /\
    Forall (fun t => SentTotal t = 0%float) (TxnsFunding info) /\
    Forall (fun t => ReceivedTotal t = 0%float) (TxnsSpending info) /\
    Forall (fun t => ReceivedTotal t = 0%float \/ SentTotal t = 0%float)
           (Transactions info).
Proof.
  eexists. split; [reflexivity|].
  cbn [Transactions TxnsFunding TxnsSpending].
  destruct (loop_shape (first :: rest) ReduceHistory.locals0)
    as (Ht & Hc & Hd & _).
  rewrite Ht, Hc, Hd.
  cbn [ReduceHistory.transactions ReduceHistory.creditTxns
       ReduceHistory.debitTxns ReduceHistory.locals0 app].
  split; [|split].
  - apply Forall_forall. intros t Ht'. apply in_map_iff in Ht'.
    destruct Ht' as (r & <- & _). reflexivity.
  - apply Forall_forall. intros t Ht'. apply in_map_iff in Ht'.
    destruct Ht' as (r & <- & _). reflexivity.
  - apply Forall_forall. intros t Ht'. apply in_flat_map in Ht'.
    destruct Ht' as (r & _ & Hin). unfold row_transactions in Hin.
    destruct Hin as [<-|Hin]; [right; reflexivity|].
    destruct (is_spent r); [|contradiction].
    destruct Hin as [<-|[]]. left. reflexivity.
Qed.

(** X5. A history can be reduced page by page: for two non-empty pages the
    lists of the whole are the lists of the first page followed by those of
    the second, the counts add up, the amounts are the int64 sums of the
    pages' amounts, and the address is the first page's. *)
Theorem ReduceAddressHistory_pages (first1 : AddressRow)
  (rest1 : list AddressRow) (first2 : AddressRow) (rest2 : list AddressRow) :
  let page1 := first1 :: rest1 in
  let page2 := first2 :: rest2 in
  exists whole p1 p2 : AddressInfo,
    ReduceAddressHistory (page1 ++ page2) = Some whole /\
    ReduceAddressHistory page1 = Some p1 /\
    ReduceAddressHistory page2 = Some p2 /\
    ai_Address whole = ai_Address p1 /\
    Transactions whole = Transactions p1 ++ Transactions p2 /\
    TxnsFunding whole = TxnsFunding p1 ++ TxnsFunding p2 /\
    TxnsSpending whole = TxnsSpending p1 ++ TxnsSpending p2 /\
    NumFundingTxns whole = NumFundingTxns p1 + NumFundingTxns p2 /\
    NumSpendingTxns whole = NumSpendingTxns p1 + NumSpendingTxns p2 /\
    AmountReceived whole = add64 (AmountReceived p1) (AmountReceived p2) /\
    AmountSent whole = add64 (AmountSent p1) (AmountSent p2) /\
    AmountUnspent whole = add64 (AmountUnspent p1) (AmountUnspent p2).
Proof.
  intros page1 page2. subst page1 page2.
  destruct (ReduceAddressHistory_keeps_order_aux first1 (rest1 ++ first2 :: rest2))
    as (whole & Hw & Ha & Ht & Hf & Hs).
  destruct (ReduceAddressHistory_keeps_order_aux first1 rest1)
    as (p1 & H1 & Ha1 & Ht1 & Hf1 & Hs1).
  destruct (ReduceAddressHistory_keeps_order_aux first2 rest2)
    as (p2 & H2 & _ & Ht2 & Hf2 & Hs2).
  destruct (ReduceAddressHistory_amounts_aux first1 (rest1 ++ first2 :: rest2) whole Hw)
    as (Hn & Hm & Hr & Hse & Hu).
  destruct (ReduceAddressHistory_amounts_aux first1 rest1 p1 H1)
    as (Hn1 & Hm1 & Hr1 & Hse1 & Hu1).
  destruct (ReduceAddressHistory_amounts_aux first2 rest2 p2 H2)
    as (Hn2 & Hm2 & Hr2 & Hse2 & Hu2).
  exists whole, p1, p2.
  change (first1 :: rest1 ++ first2 :: rest2)
    with ((first1 :: rest1) ++ first2 :: rest2) in *.
  split; [exact Hw|]. split; [exact H1|]. split; [exact H2|].
  split; [congruence|].
  unfold spent_rows in *.
  rewrite Ht, Hf, Hs, Ht1, Hf1, Hs1, Ht2, Hf2, Hs2.
  rewrite Hn, Hm, Hn1, Hm1, Hn2, Hm2, Hr, Hse, Hu, Hr1, Hse1, Hu1,
    Hr2, Hse2, Hu2.
  rewrite flat_map_app, !filter_app, !map_app, !total_value_app.
  unfold len. rewrite !length_app.
  unfold add64. rewrite !int64_add_l, !int64_add_r.
  repeat split; try reflexivity; lia.
Qed.

(** X6. [TxnCount] never exceeds the known total: when the known total is
    the sum of the known funding and spending counts, as the record's
    comment says, and neither is negative, the count lies between zero and
    [KnownTransactions], whatever the mode and the transaction type. *)
Theorem TxnCount_bounded (AddrTxnTypeFromStr : string -> AddrTxnType)
  (a : AddressInfo) :
  0 <= KnownFundingTxns a ->
  0 <= KnownSpendingTxns a ->
  KnownTransactions a = KnownFundingTxns a + KnownSpendingTxns a ->
  0 <= fst (TxnCount AddrTxnTypeFromStr a) <= KnownTransactions a.
Proof.
  intros Hf Hs Hk. unfold TxnCount.
  destruct (Fullmode a); cbn [negb fst]; [|lia].
  destruct (AddrTxnTypeFromStr (TxnType a)); cbn [fst]; lia.
Qed.

(** ** The producer entry points: what a call leaves alone, and sequences *)

Section ExplorerFrames.

Variable MsgBlock : Type.
Variable ToBlockExplorerSummary :
  blockdata.BlockData -> blockdata.BlockExplorerBasic.
Variable humanize_Bytes : Z -> string.

Local Arguments Chan.has_room : simpl never.

Ltac open_ui e :=
  let buf := fresh "buf" in
  let cap := fresh "cap" in
  let wr := fresh "wr" in
  let rd := fresh "rd" in
  let mwr := fresh "mwr" in
  let mrd := fresh "mrd" in
  destruct e as [? [[buf cap] ? ? ?] [wr rd] ? ? [[mwr mrd] ? ? ? ? ?] ?].

Ltac run_ui :=
  unfold Store, StoreMPData, bind, ret, Lock, Unlock,
    RLock, RUnlock, lock_op, write, send_HubRelay, log, step, start,
    RWMutex.Lock, RWMutex.Unlock, RWMutex.RLock, RWMutex.RUnlock,
    RWMutex.can_Lock, RWMutex.can_RLock, Chan.send;
  cbn.

(** X7. [Store] leaves alone what is not its own: in every run, returned or
    held up, the mempool record with its lock, the chain parameters and the
    mode are as before, [NewBlockDataMtx] is back to its state before the
    call, and the hub is as before or has the one NewBlock signal queued at
    the end of its control channel. *)
Theorem Store_leaves_the_rest (e : explorerUI.t)
  (blockData : blockdata.BlockData) (msg : MsgBlock) :
  let e' :=
    exp (world_of
           (Store ToBlockExplorerSummary humanize_Bytes blockData msg
              (start e))) in
  explorerUI.MempoolData e' = explorerUI.MempoolData e /\
  explorerUI.ChainParams e' = explorerUI.ChainParams e /\
  explorerUI.liteMode e' = explorerUI.liteMode e /\
  explorerUI.NewBlockDataMtx e' = explorerUI.NewBlockDataMtx e /\
  queued_after sigNewBlock (explorerUI.wsHub e) (explorerUI.wsHub e').
Proof.
  unfold queued_after. open_ui e. run_ui.
  destruct wr; [cbn; repeat split; left; reflexivity|].
  destruct rd; [|cbn; repeat split; left; reflexivity]. cbn.
  destruct (Chan.has_room _); cbn; repeat split;
    solve [left; reflexivity | right; reflexivity].
Qed.

(** X8. [StoreMPData] leaves alone what is not its own: in every run the
    chain summary, its lock, the chain parameters and the mode are as
    before, the mempool record's lock is back to its state before the call,
    its transaction lists are untouched, and the hub is as before or has the
    one signal queued at the end of its control channel. *)
Theorem StoreMPData_leaves_the_rest (e : explorerUI.t)
  (data : mempool.MempoolData) (timestamp : Z) :
  let e' := exp (world_of (StoreMPData data timestamp (start e))) in
  explorerUI.NewBlockData e' = explorerUI.NewBlockData e /\
  explorerUI.ExtraInfo e' = explorerUI.ExtraInfo e /\
  explorerUI.NewBlockDataMtx e' = explorerUI.NewBlockDataMtx e /\
  explorerUI.ChainParams e' = explorerUI.ChainParams e /\
  explorerUI.liteMode e' = explorerUI.liteMode e /\
  MempoolInfo.RWMutex (explorerUI.MempoolData e')
    = MempoolInfo.RWMutex (explorerUI.MempoolData e) /\
  MempoolInfo.Transactions (explorerUI.MempoolData e')
    = MempoolInfo.Transactions (explorerUI.MempoolData e) /\
  MempoolInfo.Tickets (explorerUI.MempoolData e')
    = MempoolInfo.Tickets (explorerUI.MempoolData e) /\
  MempoolInfo.Votes (explorerUI.MempoolData e')
    = MempoolInfo.Votes (explorerUI.MempoolData e) /\
  MempoolInfo.Revocations (explorerUI.MempoolData e')
    = MempoolInfo.Revocations (explorerUI.MempoolData e) /\
  queued_after sigMempoolUpdate (explorerUI.wsHub e) (explorerUI.wsHub e').
Proof.
  unfold queued_after. open_ui e. run_ui.
  destruct mwr; [cbn; repeat split; left; reflexivity|]. cbn.
  destruct (Chan.has_room _); cbn; repeat split;
    solve [left; reflexivity | right; reflexivity].
Qed.

(** X9. A full control channel holds the signal back, not the update: a
    call that gets its lock while the channel has no room stops at the send
    with the store already updated, its lock released and nothing queued. *)
Theorem full_channel_holds_signal_only (e : explorerUI.t)
  (blockData : blockdata.BlockData) (msg : MsgBlock)
  (data : mempool.MempoolData) (timestamp : Z) :
  Chan.has_room (WebsocketHub.HubRelay (explorerUI.wsHub e)) = false ->
  (RWMutex.can_Lock (explorerUI.NewBlockDataMtx e) = true ->
   exists w' : world,
     Store ToBlockExplorerSummary humanize_Bytes blockData msg (start e)
       = Blocked w' /\
     explorerUI.NewBlockData (exp w')
       = Some (newBlockData humanize_Bytes (ToBlockExplorerSummary blockData))
     /\ explorerUI.ExtraInfo (exp w')
       = Some (newExtraInfo blockData (explorerUI.ChainParams e)) /\
     explorerUI.NewBlockDataMtx (exp w') = explorerUI.NewBlockDataMtx e /\
     explorerUI.wsHub (exp w') = explorerUI.wsHub e /\
     sends_of (map ev_op (trace w')) = []) /\
  (RWMutex.can_RLock (MempoolInfo.RWMutex (explorerUI.MempoolData e)) = true ->
   exists w' : world,
     StoreMPData data timestamp (start e) = Blocked w' /\
     MempoolShort.NumTickets
       (MempoolInfo.MempoolShort (explorerUI.MempoolData (exp w')))
       = mempool.NumTickets data /\
     MempoolInfo.RWMutex (explorerUI.MempoolData (exp w'))
       = MempoolInfo.RWMutex (explorerUI.MempoolData e) /\
     explorerUI.wsHub (exp w') = explorerUI.wsHub e /\
     sends_of (map ev_op (trace w')) = []).
Proof.
  open_ui e. cbn. intros Hfull. split.
  - unfold RWMutex.can_Lock. cbn. intros Hl.
    apply andb_true_iff in Hl. destruct Hl as [Hw Hz].
    apply negb_true_iff in Hw. apply Nat.eqb_eq in Hz. subst wr rd.
    run_ui. rewrite Hfull. cbn.
    eexists. split; [reflexivity|]. cbn. repeat split; reflexivity.
  - unfold RWMutex.can_RLock. cbn. intros Hw.
    apply negb_true_iff in Hw. subst mwr.
    run_ui. rewrite Hfull. cbn.
    eexists. split; [reflexivity|]. cbn. repeat split; reflexivity.
Qed.


(** A call does not look at the trace: run after others, it does what it
    does from the same store with an empty trace. *)
Lemma Store_from (w : world) (blockData : blockdata.BlockData)
  (msg : MsgBlock) :
  Store ToBlockExplorerSummary humanize_Bytes blockData msg w
  = with_history (trace w)
      (Store ToBlockExplorerSummary humanize_Bytes blockData msg
         (start (exp w))).
Proof.
  destruct w as [e tr]. open_ui e. run_ui.
  destruct wr; [cbn; rewrite app_nil_r; reflexivity|].
  destruct rd; [|cbn; rewrite app_nil_r; reflexivity]. cbn.
  destruct (Chan.has_room _); cbn; rewrite <- !app_assoc; reflexivity.
Qed.

Lemma StoreMPData_from (w : world) (data : mempool.MempoolData)
  (timestamp : Z) :
  StoreMPData data timestamp w
  = with_history (trace w) (StoreMPData data timestamp (start (exp w))).
Proof.
  destruct w as [e tr]. open_ui e. run_ui.
  destruct mwr; [cbn; rewrite app_nil_r; reflexivity|]. cbn.
  destruct (Chan.has_room _); cbn; rewrite <- !app_assoc; reflexivity.
Qed.

Lemma room_for_two (e : explorerUI.t) (s : hubSignal) :
  room_for 2 e ->
  Chan.has_room (WebsocketHub.HubRelay (explorerUI.wsHub e)) = true /\
  Chan.has_room
    {| Chan.buf := Chan.buf (WebsocketHub.HubRelay (explorerUI.wsHub e)) ++ [s];
       Chan.cap := Chan.cap (WebsocketHub.HubRelay (explorerUI.wsHub e)) |}
  = true.
Proof.
  unfold room_for, Chan.has_room. cbn [Chan.buf Chan.cap]. intros H.
  rewrite length_app. cbn [List.length].
  split; apply Nat.ltb_lt; lia.
Qed.

(** X11. The last block stored is the one the store holds: two calls of
    [Store] in a row, with the lock free and room for two signals, both
    return nil; the store then holds the second block's record and
    ExtraInfo, exactly as after storing the second block alone, and two
    NewBlock signals are queued behind those already waiting. *)
Theorem Store_twice_keeps_the_last (e : explorerUI.t)
  (blockData1 blockData2 : blockdata.BlockData) (msg1 msg2 : MsgBlock) :
  RWMutex.can_Lock (explorerUI.NewBlockDataMtx e) = true ->
  room_for 2 e ->
  exists w' : world,
    bind (Store ToBlockExplorerSummary humanize_Bytes blockData1 msg1)
         (fun _ => Store ToBlockExplorerSummary humanize_Bytes blockData2 msg2)
         (start e)
      = Returned error_nil w' /\
    explorerUI.NewBlockData (exp w')
      = Some (newBlockData humanize_Bytes (ToBlockExplorerSummary blockData2))
    /\ explorerUI.ExtraInfo (exp w')
      = Some (newExtraInfo blockData2 (explorerUI.ChainParams e)) /\
    explorerUI.NewBlockDataMtx (exp w') = explorerUI.NewBlockDataMtx e /\
    Chan.buf (WebsocketHub.HubRelay (explorerUI.wsHub (exp w')))
      = Chan.buf (WebsocketHub.HubRelay (explorerUI.wsHub e))
        ++ [sigNewBlock; sigNewBlock] /\
    sends_of (map ev_op (trace w')) = [sigNewBlock; sigNewBlock].
Proof.
  intros Hl Hroom.
  destruct (room_for_two e sigNewBlock Hroom) as [Hr1 Hr2].
  destruct (Store_run MsgBlock ToBlockExplorerSummary humanize_Bytes e
              blockData1 msg1 Hl Hr1) as (w1 & Hrun1 & He1 & Ht1).
  assert (Hl2 : RWMutex.can_Lock (explorerUI.NewBlockDataMtx (exp w1)) = true)
    by (rewrite He1; exact Hl).
  assert (Hr2' : Chan.has_room
                   (WebsocketHub.HubRelay (explorerUI.wsHub (exp w1))) = true)
    by (rewrite He1; exact Hr2).
  destruct (Store_run MsgBlock ToBlockExplorerSummary humanize_Bytes (exp w1)
              blockData2 msg2 Hl2 Hr2') as (w2 & Hrun2 & He2 & Ht2).
  unfold bind. rewrite Hrun1, Store_from, Hrun2. cbn [with_history].
  eexists. split; [reflexivity|]. cbn [exp trace].
  rewrite map_app, Ht1, Ht2, He2, He1. cbn.
  rewrite <- app_assoc. repeat split; reflexivity.
Qed.

(** X12. The same holds for the mempool: after two calls of [StoreMPData]
    in a row the record's [NumTickets] is the second call's, the rest of the
    record is as before the first, and two signals are queued. *)
Theorem StoreMPData_twice_keeps_the_last (e : explorerUI.t)
  (data1 data2 : mempool.MempoolData) (timestamp1 timestamp2 : Z) :
  RWMutex.can_RLock (MempoolInfo.RWMutex (explorerUI.MempoolData e)) = true ->
  room_for 2 e ->
  exists w' : world,
    bind (StoreMPData data1 timestamp1)
         (fun _ => StoreMPData data2 timestamp2) (start e)
      = Returned error_nil w' /\
    explorerUI.MempoolData (exp w')
      = MempoolInfo.set_MempoolShort
          (MempoolShort.set_NumTickets (mempool.NumTickets data2)
             (MempoolInfo.MempoolShort (explorerUI.MempoolData e)))
          (explorerUI.MempoolData e) /\
    Chan.buf (WebsocketHub.HubRelay (explorerUI.wsHub (exp w')))
      = Chan.buf (WebsocketHub.HubRelay (explorerUI.wsHub e))
        ++ [sigMempoolUpdate; sigMempoolUpdate].
Proof.
  intros Hl Hroom.
  destruct (room_for_two e sigMempoolUpdate Hroom) as [Hr1 Hr2].
  destruct (StoreMPData_run e data1 timestamp1 Hl Hr1)
    as (w1 & Hrun1 & He1 & Ht1).
  assert (Hl2 : RWMutex.can_RLock
                  (MempoolInfo.RWMutex (explorerUI.MempoolData (exp w1)))
                = true)
    by (rewrite He1; exact Hl).
  assert (Hr2' : Chan.has_room
                   (WebsocketHub.HubRelay (explorerUI.wsHub (exp w1))) = true)
    by (rewrite He1; exact Hr2).
  destruct (StoreMPData_run (exp w1) data2 timestamp2 Hl2 Hr2')
    as (w2 & Hrun2 & He2 & Ht2).
  unfold bind. rewrite Hrun1, StoreMPData_from, Hrun2. cbn [with_history].
  eexists. split; [reflexivity|]. cbn [exp trace].
  rewrite He2, He1. cbn. rewrite <- app_assoc.
  destruct e as [? ? ? ? ? [? [] ? ? ? ?] ?]. split; reflexivity.
Qed.

(** X13. A block and a mempool update can be stored in either order: with
    both locks free and room for two signals both orders return nil and
    leave the same chain summary, the same mempool record and the same
    locks; only the order of the two signals in the control channel
    differs. *)
Theorem Store_and_StoreMPData_commute (e : explorerUI.t)
  (blockData : blockdata.BlockData) (msg : MsgBlock)
  (data : mempool.MempoolData) (timestamp : Z) :
  RWMutex.can_Lock (explorerUI.NewBlockDataMtx e) = true ->
  RWMutex.can_RLock (MempoolInfo.RWMutex (explorerUI.MempoolData e)) = true ->
  room_for 2 e ->
  exists w1 w2 : world,
    bind (Store ToBlockExplorerSummary humanize_Bytes blockData msg)
         (fun _ => StoreMPData data timestamp) (start e)
      = Returned error_nil w1 /\
    bind (StoreMPData data timestamp)
         (fun _ => Store ToBlockExplorerSummary humanize_Bytes blockData msg)
         (start e)
      = Returned error_nil w2 /\
    explorerUI.NewBlockData (exp w1) = explorerUI.NewBlockData (exp w2) /\
    explorerUI.ExtraInfo (exp w1) = explorerUI.ExtraInfo (exp w2) /\
    explorerUI.MempoolData (exp w1) = explorerUI.MempoolData (exp w2) /\
    explorerUI.NewBlockDataMtx (exp w1) = explorerUI.NewBlockDataMtx (exp w2)
    /\
    Chan.buf (WebsocketHub.HubRelay (explorerUI.wsHub (exp w1)))
      = Chan.buf (WebsocketHub.HubRelay (explorerUI.wsHub e))
        ++ [sigNewBlock; sigMempoolUpdate] /\
    Chan.buf (WebsocketHub.HubRelay (explorerUI.wsHub (exp w2)))
      = Chan.buf (WebsocketHub.HubRelay (explorerUI.wsHub e))
        ++ [sigMempoolUpdate; sigNewBlock].
Proof.
  intros Hl Hm Hroom.
  destruct (room_for_two e sigNewBlock Hroom) as [Hr1 Hr2].
  destruct (room_for_two e sigMempoolUpdate Hroom) as [_ Hr3].
  destruct (Store_run MsgBlock ToBlockExplorerSummary humanize_Bytes e
              blockData msg Hl Hr1) as (a1 & Ha1 & Ea1 & _).
  assert (Hm' : RWMutex.can_RLock
                  (MempoolInfo.RWMutex (explorerUI.MempoolData (exp a1)))
                = true)
    by (rewrite Ea1; exact Hm).
  assert (Hra : Chan.has_room
                  (WebsocketHub.HubRelay (explorerUI.wsHub (exp a1))) = true)
    by (rewrite Ea1; exact Hr2).
  destruct (StoreMPData_run (exp a1) data timestamp Hm' Hra)
    as (a2 & Ha2 & Ea2 & _).
  destruct (StoreMPData_run e data timestamp Hm Hr1)
    as (b1 & Hb1 & Eb1 & _).
  assert (Hl' : RWMutex.can_Lock (explorerUI.NewBlockDataMtx (exp b1)) = true)
    by (rewrite Eb1; exact Hl).
  assert (Hrb : Chan.has_room
                  (WebsocketHub.HubRelay (explorerUI.wsHub (exp b1))) = true)
    by (rewrite Eb1; exact Hr3).
  destruct (Store_run MsgBlock ToBlockExplorerSummary humanize_Bytes (exp b1)
              blockData msg Hl' Hrb) as (b2 & Hb2 & Eb2 & _).
  unfold bind.
  rewrite Ha1, StoreMPData_from, Ha2, Hb1, Store_from, Hb2.
  cbn [with_history].
  eexists. eexists. split; [reflexivity|]. split; [reflexivity|].
  cbn [exp]. rewrite Ea2, Ea1, Eb2, Eb1. cbn.
  rewrite <- !app_assoc. repeat split; reflexivity.
Qed.
End ExplorerFrames.

(** ** The template set: reloading *)

Section TemplateFacts.

Variable Template : Type.
Variable ParseFiles : string -> bool -> list string -> Template + string.
Variable filepath_Join : string -> string -> string.

Let reloadTemplates := Templates.reloadTemplates Template ParseFiles.
Let parse_page := Templates.parse_page Template ParseFiles.
Let New_templates := Templates.New_templates Template ParseFiles filepath_Join.

(** [reloadTemplates] page by page: the first page that fails to parse
    decides; with all seven parsed, the first seven slots are stored. *)
Lemma reloadTemplates_by_pages (p : Templates.t Template) :
  reloadTemplates p =
  match Templates.first_error Template
          (map (parse_page p) Templates.pages) with
  | Some msg => Templates.ReturnedErr (error_of msg) p
  | None =>
      if Nat.leb 7 (List.length (Templates.templates p)) then
        Templates.ReturnedNil
          {| Templates.templates :=
               map (fun page => Templates.parsed Template (parse_page p page))
                   Templates.pages
               ++ skipn 7 (Templates.templates p);
             Templates.templateFiles := Templates.templateFiles p |}
      else Templates.IndexOutOfRange
  end.
Proof.
  unfold reloadTemplates, parse_page, Templates.reloadTemplates,
    Templates.parse_page, Templates.pages.
  cbn [map fst snd Templates.first_error].
  destruct (Templates.parse Template ParseFiles p "home" true);
    cbn [Templates.or_return Templates.first_error]; [|reflexivity].
  destruct (Templates.parse Template ParseFiles p "explorer" true);
    cbn [Templates.or_return Templates.first_error]; [|reflexivity].
  destruct (Templates.parse Template ParseFiles p "block" true);
    cbn [Templates.or_return Templates.first_error]; [|reflexivity].
  destruct (Templates.parse Template ParseFiles p "tx" true);
    cbn [Templates.or_return Templates.first_error]; [|reflexivity].
  destruct (Templates.parse Template ParseFiles p "address" true);
    cbn [Templates.or_return Templates.first_error]; [|reflexivity].
  destruct (Templates.parse Template ParseFiles p "rawtx" true);
    cbn [Templates.or_return Templates.first_error]; [|reflexivity].
  destruct (Templates.parse Template ParseFiles p "error" false);
    cbn [Templates.or_return Templates.first_error]; [|reflexivity].
  destruct p as [l fs]. cbn [Templates.templates Templates.templateFiles].
  destruct l as [|a0 [|a1 [|a2 [|a3 [|a4 [|a5 [|a6 l]]]]]]]; reflexivity.
Qed.

(** X14. [reloadTemplates] is all or nothing: when it returns an error, the
    error is that of the first page, in index order, that failed to parse,
    and neither the templates nor the file table have changed. *)
Theorem reloadTemplates_error_changes_nothing (p p' : Templates.t Template)
  (err : error) :
  reloadTemplates p = Templates.ReturnedErr err p' ->
  p' = p /\
  exists msg : string,
    err = error_of msg /\
    Templates.first_error Template (map (parse_page p) Templates.pages)
      = Some msg.
Proof.
  rewrite reloadTemplates_by_pages.
  destruct (Templates.first_error _ _) as [msg|].
  - intros H. injection H as <- <-. split; [reflexivity|].
    exists msg. split; reflexivity.
  - destruct (Nat.leb _ _); discriminate.
Qed.

(** X15. When every page parses and the template slice has its seven
    slots, [reloadTemplates] returns nil with slot [i] holding the page of
    index [i] (home, explorer, block, tx, address, rawtx, error), the slice's
    length and any further slots unchanged. On a shorter slice it runs into
    an index out of range. *)
Theorem reloadTemplates_stores_by_index (p : Templates.t Template) :
  Templates.first_error Template (map (parse_page p) Templates.pages) = None ->
  ((7 <= List.length (Templates.templates p))%nat ->
   exists p' : Templates.t Template,
     reloadTemplates p = Templates.ReturnedNil p' /\
     Templates.templateFiles p' = Templates.templateFiles p /\
     List.length (Templates.templates p')
       = List.length (Templates.templates p) /\
     (forall (i : nat) (page : string * bool),
        nth_error Templates.pages i = Some page ->
        nth_error (Templates.templates p') i
          = Some (Templates.parsed Template (parse_page p page)) /\
        Templates.parsed Template (parse_page p page) <> None) /\
     (forall i : nat,
        (7 <= i)%nat ->
        nth_error (Templates.templates p') i
          = nth_error (Templates.templates p) i)) /\
  ((List.length (Templates.templates p) < 7)%nat ->
   reloadTemplates p = Templates.IndexOutOfRange).
Proof.
  intros Hok. rewrite reloadTemplates_by_pages, Hok. split.
  - intros Hlen.
    destruct (Nat.leb_spec 7 (List.length (Templates.templates p)));
      [|lia].
    eexists. split; [reflexivity|].
    cbn [Templates.templates Templates.templateFiles].
    split; [reflexivity|]. split; [|split].
    + rewrite length_app, length_map, length_skipn.
      change (List.length Templates.pages) with 7%nat. lia.
    + intros i page Hi.
      assert (Hlt : (i < 7)%nat).
      { change 7%nat with (List.length Templates.pages).
        apply nth_error_Some. congruence. }
      split.
      * rewrite nth_error_app1
          by (rewrite length_map; exact Hlt).
        rewrite nth_error_map, Hi. reflexivity.
      * apply nth_error_In in Hi.
        assert (Hall : forall rs,
                  Templates.first_error Template rs = None ->
                  forall r, In r rs -> Templates.parsed Template r <> None).
        { induction rs as [|[x|m] rs IH]; cbn; intros Hn r Hr.
          - contradiction.
          - destruct Hr as [<-|Hr]; [discriminate|]. exact (IH Hn r Hr).
          - discriminate Hn. }
        apply (Hall _ Hok). apply in_map. exact Hi.
    + intros i Hi.
      rewrite nth_error_app2 by (rewrite length_map; exact Hi).
      rewrite length_map. change (List.length Templates.pages) with 7%nat.
      rewrite nth_error_skipn. f_equal. lia.
  - intros Hlen.
    destruct (Nat.leb_spec 7 (List.length (Templates.templates p)));
      [lia|reflexivity].
Qed.

(** [New] parses every page against the same file table and appends the
    results in the order of the indices. *)
Lemma New_templates_by_pages :
  let p0 := {| Templates.templates := [];
               Templates.templateFiles :=
                 Templates.New_templateFiles filepath_Join |} in
  Templates.templateFiles (fst New_templates)
    = Templates.New_templateFiles filepath_Join /\
  Templates.templates (fst New_templates)
    = map (fun page => Templates.parsed Template (parse_page p0 page))
          Templates.pages /\
  (snd New_templates = [] <->
   Templates.first_error Template (map (parse_page p0) Templates.pages)
     = None).
Proof.
  unfold New_templates, parse_page, Templates.New_templates,
    Templates.parse_page, Templates.pages, Templates.append_parsed,
    Templates.parse.
  cbn [map fst snd Templates.templateFiles Templates.first_error].
  repeat match goal with
  | |- context [ParseFiles ?n ?f ?l] =>
      destruct (ParseFiles n f l);
      cbn [fst snd Templates.templateFiles Templates.templates
           Templates.parsed Templates.first_error app]
  end;
  (split; [reflexivity|]; split; [reflexivity|]);
  split; intros H; try reflexivity; try discriminate H;
  apply (f_equal (@List.length string)) in H; cbn in H;
  repeat rewrite length_app in H; cbn in H; lia.
Qed.

(** X16. Reloading right after [New] is safe and changes nothing: [New]
    always leaves seven template slots, so the indices of [reloadTemplates]
    are in range; when [New] logged no error the reload returns nil with the
    same template set, and when it logged one the reload returns an error
    and leaves the set, with its nil slots, as [New] built it. *)
Theorem reload_after_New_changes_nothing :
  let p := fst New_templates in
  List.length (Templates.templates p) = 7%nat /\
  (snd New_templates = [] -> reloadTemplates p = Templates.ReturnedNil p) /\
  (snd New_templates <> [] ->
   exists err : error, reloadTemplates p = Templates.ReturnedErr err p).
Proof.
  destruct New_templates_by_pages as (Hf & Ht & Hlog).
  cbv zeta. set (p := fst New_templates) in *.
  assert (Hparse : forall page,
            parse_page p page
            = parse_page {| Templates.templates := [];
                            Templates.templateFiles :=
                              Templates.New_templateFiles filepath_Join |}
                         page).
  { intros page. unfold parse_page, Templates.parse_page, Templates.parse.
    rewrite Hf. reflexivity. }
  assert (Hlen : List.length (Templates.templates p) = 7%nat)
    by (rewrite Ht, length_map; reflexivity).
  split; [exact Hlen|].
  rewrite reloadTemplates_by_pages.
  rewrite (map_ext _ _ Hparse), Hlen. cbn [Nat.leb].
  split.
  - intros Hnil. rewrite (proj1 Hlog Hnil).
    rewrite skipn_all2 by (rewrite Hlen; lia). rewrite app_nil_r.
    rewrite (map_ext _ _ (fun page => f_equal (Templates.parsed Template)
                                        (Hparse page))).
    rewrite <- Ht. destruct p; reflexivity.
  - intros Hlogged.
    destruct (Templates.first_error _ _) as [msg|].
    + eexists. reflexivity.
    + exfalso. apply Hlogged. apply Hlog. reflexivity.
Qed.

End TemplateFacts.

(** ** The template helpers: strings and digits *)

Section GoStringFacts.

Import GoStrings.

Lemma length_append (s1 s2 : string) :
  String.length (String.append s1 s2)
  = (String.length s1 + String.length s2)%nat.
Proof. induction s1 as [|c s1 IH]; cbn; [reflexivity|]. rewrite IH. lia. Qed.

Lemma append_nil_r (s : string) : String.append s "" = s.
Proof. induction s as [|c s IH]; cbn; [reflexivity|]. rewrite IH. reflexivity. Qed.

Lemma append_assoc (s1 s2 s3 : string) :
  String.append (String.append s1 s2) s3
  = String.append s1 (String.append s2 s3).
Proof.
  induction s1 as [|c s1 IH]; cbn; [reflexivity|]. rewrite IH. reflexivity.
Qed.

Lemma take_drop (n : nat) : forall s : string,
  String.append (take n s) (drop n s) = s.
Proof.
  induction n as [|n IH]; intros [|c s]; cbn; try reflexivity.
  rewrite IH. reflexivity.
Qed.

Lemma length_drop (n : nat) : forall s : string,
  String.length (drop n s) = (String.length s - n)%nat.
Proof.
  induction n as [|n IH]; intros [|c s]; cbn; try reflexivity; try lia.
  apply IH.
Qed.

Lemma length_take (n : nat) : forall s : string,
  (n <= String.length s)%nat -> String.length (take n s) = n.
Proof.
  induction n as [|n IH]; intros [|c s]; cbn; intros H; try reflexivity;
    try lia.
  rewrite IH; lia.
Qed.

Lemma length_repeat_zero (n : nat) :
  String.length (repeat_string "0" n) = n.
Proof. induction n as [|n IH]; cbn; [reflexivity|]. rewrite IH. reflexivity. Qed.

(** Trimming takes trailing zeros off, and nothing else. *)
Lemma TrimRight0_split (s : string) :
  (String.length (TrimRight0 s) <= String.length s)%nat /\
  s = String.append (TrimRight0 s)
        (repeat_string "0"
           (String.length s - String.length (TrimRight0 s))).
Proof.
  induction s as [|c r [IHlen IHeq]]; [split; reflexivity|].
  cbn [TrimRight0]. destruct (TrimRight0 r) as [|a r'] eqn:Htrim.
  - cbn [String.length String.append] in IHeq.
    rewrite Nat.sub_0_r in IHeq.
    destruct (Ascii.eqb c "0") eqn:Hc.
    + apply Ascii.eqb_eq in Hc. subst c. split; [cbn; lia|].
      cbn [String.length String.append Nat.sub repeat_string].
      rewrite <- IHeq. reflexivity.
    + split; [cbn; lia|].
      cbn [String.length String.append Nat.sub].
      rewrite Nat.sub_0_r, <- IHeq. reflexivity.
  - split; [cbn [String.length] in *; lia|].
    cbn [String.length String.append Nat.sub] in *.
    rewrite <- IHeq. reflexivity.
Qed.

Lemma all_digits_append (s1 s2 : string) :
  all_digits (String.append s1 s2) = all_digits s1 && all_digits s2.
Proof.
  induction s1 as [|c s1 IH]; cbn; [reflexivity|].
  rewrite IH, andb_assoc. reflexivity.
Qed.

Lemma all_digits_repeat_zero (n : nat) :
  all_digits (repeat_string "0" n) = true.
Proof. induction n as [|n IH]; cbn; [reflexivity|]. exact IH. Qed.

Lemma digit_char_spec (d : Z) :
  0 <= d <= 9 ->
  digit_val (digit_char d) = d /\ is_digit (digit_char d) = true.
Proof.
  intros H.
  assert (Hd : d = 0 \/ d = 1 \/ d = 2 \/ d = 3 \/ d = 4 \/ d = 5 \/ d = 6
               \/ d = 7 \/ d = 8 \/ d = 9) by lia.
  repeat (destruct Hd as [->|Hd]; [split; reflexivity|]).
  subst d. split; reflexivity.
Qed.

Lemma is_digit_val (c : ascii) : is_digit c = true -> 0 <= digit_val c <= 9.
Proof.
  unfold is_digit, digit_val. intros H. apply andb_true_iff in H.
  destruct H as [H1 H2]. apply N.leb_le in H1, H2. lia.
Qed.

Lemma len_String (c : ascii) (s : string) : len (String c s) = 1 + len s.
Proof. unfold len. cbn [String.length]. lia. Qed.

Lemma len_append (s1 s2 : string) :
  len (String.append s1 s2) = len s1 + len s2.
Proof. unfold len. rewrite length_append. lia. Qed.

Lemma len_nonneg (s : string) : 0 <= len s.
Proof. unfold len. lia. Qed.

Lemma digits_value_from_shift (s : string) : forall a : Z,
  digits_value_from a s = a * 10 ^ len s + digits_value s.
Proof.
  unfold digits_value.
  induction s as [|c s IH]; intros a; cbn [digits_value_from].
  - cbn. lia.
  - rewrite (IH (a * 10 + digit_val c)), (IH (0 * 10 + digit_val c)).
    rewrite len_String, Z.pow_add_r by (try apply len_nonneg; lia). lia.
Qed.

Lemma digits_value_String (c : ascii) (s : string) :
  digits_value (String c s) = digit_val c * 10 ^ len s + digits_value s.
Proof.
  unfold digits_value at 1. cbn [digits_value_from].
  rewrite digits_value_from_shift. lia.
Qed.

Lemma digits_value_append (s1 s2 : string) :
  digits_value (String.append s1 s2)
  = digits_value s1 * 10 ^ len s2 + digits_value s2.
Proof.
  induction s1 as [|c s1 IH]; cbn [String.append].
  - cbn. lia.
  - rewrite !digits_value_String, IH, len_append,
      Z.pow_add_r by apply len_nonneg. lia.
Qed.

Lemma digits_value_bound (s : string) :
  all_digits s = true -> 0 <= digits_value s < 10 ^ len s.
Proof.
  induction s as [|c s IH]; cbn [all_digits]; intros H.
  - cbn. lia.
  - apply andb_true_iff in H. destruct H as [Hc Hs].
    specialize (IH Hs). apply is_digit_val in Hc.
    rewrite digits_value_String, len_String,
      Z.pow_add_r by (try apply len_nonneg; lia).
    nia.
Qed.

Lemma digits_value_repeat_zero (n : nat) :
  digits_value (repeat_string "0" n) = 0.
Proof.
  induction n as [|n IH]; [reflexivity|].
  cbn [repeat_string String.append].
  rewrite digits_value_String, IH. cbn. lia.
Qed.

End GoStringFacts.

Section FormatFacts.

Import GoStrings.

Lemma pow10_S (k : nat) : 10 ^ Z.of_nat (S k) = 10 * 10 ^ Z.of_nat k.
Proof. rewrite Nat2Z.inj_succ, Z.pow_succ_r by lia. reflexivity. Qed.

Lemma pow10_pos (k : nat) : 0 < 10 ^ Z.of_nat k.
Proof. apply Z.pow_pos_nonneg; lia. Qed.

Lemma format_digits_append (fuel : nat) : forall (n : Z) (acc : string),
  format_digits fuel n acc = String.append (format_digits fuel n "") acc.
Proof.
  induction fuel as [|fuel IH]; intros n acc; cbn [format_digits].
  - reflexivity.
  - destruct (n <? 10); [reflexivity|].
    rewrite (IH (n / 10) (String _ acc)), (IH (n / 10) (String _ "")).
    rewrite append_assoc. reflexivity.
Qed.

Lemma format_digits_length_acc (fuel : nat) : forall (n : Z) (acc : string),
  (String.length acc <= String.length (format_digits fuel n acc))%nat.
Proof.
  induction fuel as [|fuel IH]; intros n acc; cbn [format_digits].
  - lia.
  - destruct (n <? 10); [cbn; lia|].
    specialize (IH (n / 10) (String (digit_char (n mod 10)) acc)).
    cbn [String.length] in IH. lia.
Qed.

(** A number below [10^(k+1)] has at most [k+1] digits ... *)
Lemma format_digits_length_le (k : nat) :
  forall (fuel : nat) (n : Z) (acc : string),
  0 <= n < 10 ^ Z.of_nat (S k) -> (k < fuel)%nat ->
  (String.length (format_digits fuel n acc) <= S k + String.length acc)%nat.
Proof.
  induction k as [|k IH]; intros [|fuel] n acc Hn Hf; try lia;
    cbn [format_digits].
  - replace (n <? 10) with true by (symmetry; apply Z.ltb_lt;
      change (10 ^ Z.of_nat 1) with 10 in Hn; lia).
    cbn. lia.
  - destruct (n <? 10) eqn:Hlt; [cbn; lia|]. apply Z.ltb_ge in Hlt.
    rewrite pow10_S in Hn.
    assert (Hq : 0 <= n / 10 < 10 ^ Z.of_nat (S k)).
    { split; [apply Z.div_pos; lia|].
      apply Z.div_lt_upper_bound; lia. }
    specialize (IH fuel (n / 10) (String (digit_char (n mod 10)) acc) Hq
                  ltac:(lia)).
    cbn [String.length] in IH. lia.
Qed.

(** ... and one of at least [10^k] has at least [k+1]. *)
Lemma format_digits_length_ge (k : nat) :
  forall (fuel : nat) (n : Z) (acc : string),
  10 ^ Z.of_nat k <= n -> (k < fuel)%nat ->
  (S k + String.length acc <= String.length (format_digits fuel n acc))%nat.
Proof.
  induction k as [|k IH]; intros [|fuel] n acc Hn Hf; try lia;
    cbn [format_digits].
  - destruct (n <? 10); [cbn; lia|].
    pose proof (format_digits_length_acc fuel (n / 10)
                  (String (digit_char (n mod 10)) acc)) as H.
    cbn [String.length] in H. lia.
  - rewrite pow10_S in Hn. pose proof (pow10_pos k) as Hp.
    replace (n <? 10) with false by (symmetry; apply Z.ltb_ge; lia).
    assert (Hq : 10 ^ Z.of_nat k <= n / 10)
      by (apply Z.div_le_lower_bound; lia).
    specialize (IH fuel (n / 10) (String (digit_char (n mod 10)) acc) Hq
                  ltac:(lia)).
    cbn [String.length] in IH. lia.
Qed.

(** The digits written are digits, and they read back as the number. *)
Lemma format_digits_value (fuel : nat) : forall (k : nat) (n : Z),
  0 <= n < 10 ^ Z.of_nat k -> (k <= fuel)%nat ->
  digits_value (format_digits fuel n "") = n /\
  all_digits (format_digits fuel n "") = true.
Proof.
  induction fuel as [|fuel IH]; intros k n Hn Hk; cbn [format_digits].
  - assert (k = O) by lia. subst k. cbn in Hn.
    assert (n = 0) by lia. subst n. split; reflexivity.
  - pose proof (Z.mod_pos_bound n 10 ltac:(lia)) as Hm.
    destruct (digit_char_spec (n mod 10) ltac:(lia)) as [Hv Hd].
    destruct (n <? 10) eqn:Hlt.
    + apply Z.ltb_lt in Hlt. split.
      * rewrite digits_value_String, Hv. cbn.
        rewrite Z.mod_small by lia. lia.
      * cbn [all_digits]. rewrite Hd. reflexivity.
    + apply Z.ltb_ge in Hlt.
      destruct k as [|k]; [cbn in Hn; lia|].
      rewrite pow10_S in Hn.
      assert (Hq : 0 <= n / 10 < 10 ^ Z.of_nat k).
      { split; [apply Z.div_pos; lia|].
        apply Z.div_lt_upper_bound; lia. }
      destruct (IH k (n / 10) Hq ltac:(lia)) as [IHv IHd].
      rewrite format_digits_append. split.
      * rewrite digits_value_append, IHv, digits_value_String, Hv.
        cbn. pose proof (Z.div_mod n 10 ltac:(lia)). lia.
      * rewrite all_digits_append, IHd. cbn [all_digits].
        rewrite Hd. reflexivity.
Qed.

Lemma FormatInt_nonneg (v : Z) :
  0 <= v -> FormatInt v = format_digits 20 v "".
Proof.
  intros H. unfold FormatInt.
  replace (v <? 0) with false by (symmetry; apply Z.ltb_ge; lia).
  reflexivity.
Qed.

Lemma FormatInt_neg (v : Z) :
  v < 0 -> FormatInt v = String "-" (format_digits 20 (- v) "").
Proof.
  intros H. unfold FormatInt.
  replace (v <? 0) with true by (symmetry; apply Z.ltb_lt; lia).
  reflexivity.
Qed.

Lemma all_digits_take (n : nat) : forall s : string,
  all_digits s = true -> all_digits (take n s) = true.
Proof.
  induction n as [|n IH]; intros [|c s]; cbn; intros H; try reflexivity.
  apply andb_true_iff in H. destruct H as [Hc Hs].
  rewrite Hc, (IH s Hs). reflexivity.
Qed.

Lemma all_digits_drop (n : nat) : forall s : string,
  all_digits s = true -> all_digits (drop n s) = true.
Proof.
  induction n as [|n IH]; intros [|c s]; cbn; intros H; try reflexivity;
    try exact H.
  apply andb_true_iff in H. destruct H as [_ Hs]. exact (IH s Hs).
Qed.

(** Parsing a non-empty string of digits gives its value, if that fits. *)
Lemma ParseInt_digits (s : string) :
  s <> "" -> all_digits s = true -> digits_value s <= max_int64 ->
  ParseInt s = Some (digits_value s).
Proof.
  intros Hne Hd Hmax. pose proof (digits_value_bound s Hd) as Hb.
  destruct s as [|c r]; [congruence|].
  unfold ParseInt.
  assert (Hc : is_digit c = true)
    by (cbn in Hd; apply andb_true_iff in Hd; tauto).
  assert (Hplus : Ascii.eqb c "+" = false).
  { apply Ascii.eqb_neq. intros ->. discriminate Hc. }
  assert (Hminus : Ascii.eqb c "-" = false).
  { apply Ascii.eqb_neq. intros ->. discriminate Hc. }
  rewrite Hplus, Hminus, Hd. cbn [String.eqb negb orb].
  replace ((min_int64 <=? digits_value (String c r))
           && (digits_value (String c r) <=? max_int64)) with true.
  - reflexivity.
  - symmetry. apply andb_true_iff. split; apply Z.leb_le;
      unfold min_int64 in *; lia.
Qed.

Lemma ParseInt_minus_digits (s : string) :
  s <> "" -> all_digits s = true -> digits_value s <= 2 ^ 63 ->
  ParseInt (String "-" s) = Some (- digits_value s).
Proof.
  intros Hne Hd Hmax. pose proof (digits_value_bound s Hd) as Hb.
  unfold ParseInt. cbn [Ascii.eqb Bool.eqb]. cbn match.
  destruct s as [|c r]; [congruence|].
  rewrite Hd. cbn [String.eqb negb orb].
  replace ((min_int64 <=? - digits_value (String c r))
           && (- digits_value (String c r) <=? max_int64)) with true.
  - reflexivity.
  - symmetry. apply andb_true_iff. split; apply Z.leb_le;
      unfold min_int64, max_int64 in *; lia.
Qed.

End FormatFacts.

(** ** The template helpers: integers *)

(** X17. "int64" keeps the value of an int64, int32, uint32, int, int16 or
    uint16, and of a uint64 up to the largest int64; a larger uint64 comes
    out negative, by [2^64] less; a value of any other type, the 8-bit
    integers included, comes out as the smallest int64. *)
Theorem toInt64_by_type (v : Helpers.value) :
  Helpers.well_typed v ->
  match v with
  | Helpers.VUint64 z =>
      Helpers.toInt64 v = if z <=? max_int64 then z else z - 2 ^ 64
  | Helpers.VInt64 z | Helpers.VInt32 z | Helpers.VUint32 z | Helpers.VInt z
  | Helpers.VInt16 z | Helpers.VUint16 z => Helpers.toInt64 v = z
  | Helpers.VInt8 _ | Helpers.VUint8 _ | Helpers.VFloat64 _
  | Helpers.VString _ | Helpers.VOther _ => Helpers.toInt64 v = min_int64
  end.
Proof.
  destruct v; cbn [Helpers.well_typed Helpers.toInt64]; intros H;
    try reflexivity;
    try (apply int64_small; unfold min_int64, max_int64; lia).
  destruct (z <=? max_int64) eqn:Hz.
  - apply Z.leb_le in Hz. apply int64_small.
    unfold min_int64, max_int64 in *. lia.
  - apply Z.leb_gt in Hz. unfold max_int64 in Hz.
    unfold int64, wrap_signed.
    replace (z + 2 ^ (64 - 1)) with ((z - 2 ^ 63) + 1 * 2 ^ 64) by lia.
    rewrite Z.mod_add, Z.mod_small by lia. lia.
Qed.

(** X18. "add" and "subtract" undo each other on int64 values, also when
    the sum or the difference wraps around. *)
Theorem add_subtract_round_trip (a b : Z) :
  min_int64 <= a <= max_int64 ->
  Helpers.subtract (Helpers.add a b) b = a /\
  Helpers.add (Helpers.subtract a b) b = a.
Proof.
  intros Ha. unfold Helpers.subtract, Helpers.add, add64, sub64. split.
  - replace (int64 (a + b) - b) with (int64 (a + b) + (- b)) by lia.
    rewrite int64_add_l. replace (a + b + - b) with a by lia.
    apply int64_small. exact Ha.
  - rewrite int64_add_l. replace (a - b + b) with a by lia.
    apply int64_small. exact Ha.
Qed.

(** X19. "divide" panics exactly on a zero divisor. Otherwise it is Go's
    truncated division: apart from the one overflow, the smallest int64 by
    minus one, which gives the smallest int64 back, the quotient [q]
    satisfies [n = q * d + r] with [|r| < |d|] and [r] of the sign of
    [n]. *)
Theorem divide_truncates (n d : Z) :
  min_int64 <= n <= max_int64 ->
  min_int64 <= d <= max_int64 ->
  (Helpers.divide n d = None <-> d = 0) /\
  (d <> 0 ->
   exists q : Z,
     Helpers.divide n d = Some q /\
     min_int64 <= q <= max_int64 /\
     (n = min_int64 /\ d = -1 -> q = min_int64) /\
     (~ (n = min_int64 /\ d = -1) ->
      exists r : Z,
        n = q * d + r /\ Z.abs r < Z.abs d /\ 0 <= r * n)).
Proof.
  intros Hn Hd. unfold Helpers.divide. split.
  - destruct (d =? 0) eqn:H0.
    + apply Z.eqb_eq in H0. split; [auto|reflexivity].
    + apply Z.eqb_neq in H0. split; [discriminate|contradiction].
  - intros Hnz.
    replace (d =? 0) with false by (symmetry; apply Z.eqb_neq; exact Hnz).
    eexists. split; [reflexivity|]. split; [apply int64_range|]. split.
    + intros [-> ->]. reflexivity.
    + intros Hno. exists (Z.rem n d).
      assert (Hq : min_int64 <= Z.quot n d <= max_int64).
      { unfold min_int64, max_int64 in *.
        pose proof (Z.quot_rem' n d) as Hqr.
        pose proof (Z.rem_bound_abs n d Hnz) as Hrb.
        pose proof (Z.rem_sign_mul n d Hnz) as Hrs.
        destruct (Z.eq_dec d (-1)) as [->|Hm1]; [lia|].
        assert (Habs : Z.abs (Z.quot n d) <= Z.abs n).
        { rewrite <- (Z.quot_abs n d) by exact Hnz.
          apply Z.quot_le_upper_bound; [lia|]. nia. }
        lia. }
      rewrite (int64_small _ Hq).
      pose proof (Z.quot_rem' n d) as Hqr.
      pose proof (Z.rem_bound_abs n d Hnz) as Hrb.
      pose proof (Z.rem_sign_mul n d Hnz) as Hrs.
      split; [lia|]. split; [exact Hrb | lia].
Qed.

(** ** The template helpers: amounts *)

Section AmountFacts.

Import GoStrings.

Variable humanize_Comma : Z -> string.

Let amountAsDecimalParts := Helpers.amountAsDecimalParts humanize_Comma.

(** An amount written with up to eight characters: no count is negative. *)
Lemma amount_short (v : Z) (useCommas : bool) :
  len (FormatInt v) <= 8 ->
  amountAsDecimalParts v useCommas =
  Some (["0";
         String.append
           (repeat_string "0" (8 - String.length (FormatInt v)))
           (TrimRight0 (FormatInt v));
         repeat_string "0"
           (String.length (FormatInt v)
            - String.length (TrimRight0 (FormatInt v)))], []).
Proof.
  intros Hlen. unfold amountAsDecimalParts, Helpers.amountAsDecimalParts.
  destruct (TrimRight0_split (FormatInt v)) as [Htrim _].
  replace (len (FormatInt v) <=? 8) with true
    by (symmetry; apply Z.leb_le; exact Hlen).
  unfold Repeat, Helpers.and_then, len in *.
  replace (_ - _ <? 0) with false by (symmetry; apply Z.ltb_ge; lia).
  replace (8 - _ <? 0) with false by (symmetry; apply Z.ltb_ge; lia).
  repeat f_equal; lia.
Qed.

(** A longer one: the slices are in range and no count is negative. *)
Lemma amount_long (v : Z) (useCommas : bool) :
  8 < len (FormatInt v) ->
  let amt := FormatInt v in
  let integer := take (String.length amt - 8) amt in
  let dec := TrimRight0 (drop (String.length amt - 8) amt) in
  let zeros := repeat_string "0" (8 - String.length dec) in
  String.length (drop (String.length amt - 8) amt) = 8%nat /\
  amountAsDecimalParts v useCommas =
  if useCommas then
    match ParseInt integer with
    | None => Some (["ERROR"; "VALUE"; ""],
                    ["amountAsDecimalParts comma formatting failed."])
    | Some n => Some ([humanize_Comma n; dec; zeros], [])
    end
  else Some ([integer; dec; zeros], []).
Proof.
  intros Hlen amt integer dec zeros.
  change (8 < len amt) in Hlen.
  assert (Hl8 : String.length (drop (String.length amt - 8) amt) = 8%nat).
  { rewrite length_drop. unfold len in Hlen. lia. }
  split; [exact Hl8|].
  unfold amountAsDecimalParts, Helpers.amountAsDecimalParts.
  fold amt.
  replace (len amt <=? 8) with false
    by (symmetry; apply Z.leb_gt; exact Hlen).
  destruct (TrimRight0_split (drop (String.length amt - 8) amt))
    as [Htrim _].
  fold dec in Htrim.
  unfold slice_to, slice_from, Repeat, Helpers.and_then, len in *.
  replace ((Z.of_nat (String.length amt) - 8 <? 0)
           || (Z.of_nat (String.length amt)
               <? Z.of_nat (String.length amt) - 8)) with false
    by (symmetry; apply orb_false_iff; split; apply Z.ltb_ge; lia).
  replace (Z.to_nat (Z.of_nat (String.length amt) - 8))
    with (String.length amt - 8)%nat by lia.
  fold integer. fold dec.
  replace (8 - Z.of_nat (String.length dec) <? 0) with false
    by (symmetry; apply Z.ltb_ge; lia).
  replace (Z.to_nat (8 - Z.of_nat (String.length dec)))
    with (8 - String.length dec)%nat by lia.
  fold zeros.
  destruct useCommas; [|reflexivity].
  destruct (ParseInt integer); reflexivity.
Qed.

(** X20. "amountAsDecimalParts" never panics: for every amount and either
    setting of the commas it returns three parts; the counts it hands to
    [strings.Repeat] are never negative and its slices are in range. *)
Theorem amountAsDecimalParts_three_parts (v : Z) (useCommas : bool) :
  exists (integer dec zeros : string) (logged : list string),
    amountAsDecimalParts v useCommas
    = Some ([integer; dec; zeros], logged).
Proof.
  destruct (Z.le_gt_cases (len (FormatInt v)) 8) as [Hs|Hl].
  - rewrite (amount_short v useCommas Hs).
    eexists. eexists. eexists. eexists. reflexivity.
  - destruct (amount_long v useCommas ltac:(lia)) as [_ ->].
    destruct useCommas; [destruct (ParseInt _)|];
      eexists; eexists; eexists; eexists; reflexivity.
Qed.

(** X21. An amount below one coin, [0 <= v < 10^8] atoms: the integer
    part is "0" and the two fraction parts together are [v] written with
    eight digits, the second part holding trailing zeros only. Commas make
    no difference. *)
Theorem amountAsDecimalParts_below_one_coin (v : Z) (useCommas : bool) :
  0 <= v < 10 ^ 8 ->
  exists dec zeros : string,
    amountAsDecimalParts v useCommas = Some (["0"; dec; zeros], []) /\
    len (String.append dec zeros) = 8 /\
    all_digits (String.append dec zeros) = true /\
    digits_value (String.append dec zeros) = v /\
    zeros = repeat_string "0" (String.length zeros).
Proof.
  intros Hv.
  assert (Hlen : (String.length (FormatInt v) <= 8)%nat).
  { rewrite FormatInt_nonneg by lia.
    pose proof (format_digits_length_le 7 20 v "" ltac:(cbn; lia)
                  ltac:(lia)) as H.
    cbn [String.length] in H. lia. }
  destruct (format_digits_value 20 8 v ltac:(cbn; lia) ltac:(lia))
    as [Hval Hdig].
  rewrite <- FormatInt_nonneg in Hval, Hdig by lia.
  rewrite (amount_short v useCommas) by (unfold len; lia).
  destruct (TrimRight0_split (FormatInt v)) as [Htl Hsplit].
  eexists. eexists. split; [reflexivity|].
  rewrite append_assoc, <- Hsplit.
  split; [|split; [|split]].
  - rewrite len_append. unfold len. rewrite length_repeat_zero. lia.
  - rewrite all_digits_append, all_digits_repeat_zero, Hdig. reflexivity.
  - rewrite digits_value_append, digits_value_repeat_zero, Hval. lia.
  - rewrite length_repeat_zero. reflexivity.
Qed.

(** X22. An amount of one coin or more, [10^8 <= v]: without commas the
    three parts put together are the decimal digits of [v], the integer
    part reads as [v / 10^8] and the two fraction parts together are the
    eight digits of [v mod 10^8]; with commas the integer part is
    [humanize.Comma] of [v / 10^8] and the fraction parts are the same. *)
Theorem amountAsDecimalParts_coins (v : Z) :
  10 ^ 8 <= v <= max_int64 ->
  exists integer dec zeros : string,
    amountAsDecimalParts v false = Some ([integer; dec; zeros], []) /\
    amountAsDecimalParts v true
      = Some ([humanize_Comma (v / 10 ^ 8); dec; zeros], []) /\
    String.append integer (String.append dec zeros) = FormatInt v /\
    all_digits integer = true /\
    digits_value integer = v / 10 ^ 8 /\
    len (String.append dec zeros) = 8 /\
    all_digits (String.append dec zeros) = true /\
    digits_value (String.append dec zeros) = v mod 10 ^ 8 /\
    zeros = repeat_string "0" (String.length zeros).
Proof.
  intros Hv. unfold max_int64 in Hv.
  assert (Hlen : (9 <= String.length (FormatInt v))%nat).
  { rewrite FormatInt_nonneg by lia.
    pose proof (format_digits_length_ge 8 20 v "" ltac:(cbn; lia)
                  ltac:(lia)) as H.
    cbn [String.length] in H. lia. }
  destruct (format_digits_value 20 19 v ltac:(cbn; lia) ltac:(lia))
    as [Hval Hdig].
  rewrite <- FormatInt_nonneg in Hval, Hdig by lia.
  destruct (amount_long v false ltac:(unfold len; lia)) as [Hl8 Hfalse].
  destruct (amount_long v true ltac:(unfold len; lia)) as [_ Htrue].
  cbv zeta in Hl8, Hfalse, Htrue.
  set (amt := FormatInt v) in *.
  set (integer := take (String.length amt - 8) amt) in *.
  set (last8 := drop (String.length amt - 8) amt) in *.
  assert (Hamt : String.append integer last8 = amt) by apply take_drop.
  assert (Hdi : all_digits integer = true) by (apply all_digits_take, Hdig).
  assert (Hdl : all_digits last8 = true) by (apply all_digits_drop, Hdig).
  pose proof (digits_value_bound last8 Hdl) as Hbl.
  pose proof (digits_value_bound integer Hdi) as Hbi.
  assert (Hl8' : len last8 = 8) by (unfold len; rewrite Hl8; reflexivity).
  rewrite Hl8' in Hbl.
  assert (Hsum : digits_value integer * 10 ^ 8 + digits_value last8 = v).
  { pose proof (digits_value_append integer last8) as Happ.
    rewrite Hamt, Hval, Hl8' in Happ. lia. }
  assert (Hquot : digits_value integer = v / 10 ^ 8).
  { apply (Z.div_unique_pos v (10 ^ 8) _ (digits_value last8)); lia. }
  assert (Hrem : digits_value last8 = v mod 10 ^ 8).
  { apply (Z.mod_unique_pos v (10 ^ 8) (digits_value integer)); lia. }
  assert (Hne : integer <> "").
  { intros He. assert (String.length integer = 0%nat) by (rewrite He; reflexivity).
    unfold integer in H. rewrite length_take in H by lia. lia. }
  assert (Hparse : ParseInt integer = Some (v / 10 ^ 8)).
  { rewrite <- Hquot. apply ParseInt_digits; try assumption.
    unfold max_int64. rewrite Hquot.
    assert (v / 10 ^ 8 <= v) by (apply Z.div_le_upper_bound; lia). lia. }
  rewrite Hparse in Htrue.
  destruct (TrimRight0_split last8) as [_ Hsplit].
  eexists. eexists. eexists.
  split; [exact Hfalse|]. split; [exact Htrue|].
  replace (8 - String.length (TrimRight0 last8))%nat
    with (String.length last8 - String.length (TrimRight0 last8))%nat
    by (rewrite Hl8; reflexivity).
  rewrite <- Hsplit.
  repeat split; try assumption.
  rewrite length_repeat_zero. reflexivity.
Qed.

(** X23. Negative amounts are not handled: for [-10^7 < v < 0] the integer
    part is "0" and the minus sign ends up inside the fraction, which is the
    digits of [v], sign included, padded on the left to eight characters;
    for [-10^8 < v <= -10^7] the integer part is the bare minus sign, so
    with commas the parse fails and the parts are "ERROR", "VALUE" and the
    empty string, with an error logged. *)
Theorem amountAsDecimalParts_negative (v : Z) (useCommas : bool) :
  (- 10 ^ 7 < v < 0 ->
   exists dec zeros : string,
     amountAsDecimalParts v useCommas = Some (["0"; dec; zeros], []) /\
     String.append dec zeros =
       String.append
         (repeat_string "0" (8 - String.length (FormatInt v)))
         (String "-" (format_digits 20 (- v) ""))) /\
  (- 10 ^ 8 < v <= - 10 ^ 7 ->
   amountAsDecimalParts v true
     = Some (["ERROR"; "VALUE"; ""],
             ["amountAsDecimalParts comma formatting failed."]) /\
   exists dec zeros : string,
     amountAsDecimalParts v false = Some (["-"; dec; zeros], []) /\
     String.append dec zeros = format_digits 20 (- v) "").
Proof.
  split; intros Hv.
  - assert (Hlen : (String.length (FormatInt v) <= 8)%nat).
    { rewrite FormatInt_neg by lia.
      pose proof (format_digits_length_le 6 20 (- v) "" ltac:(cbn; lia)
                    ltac:(lia)) as H.
      cbn [String.length] in *. lia. }
    rewrite (amount_short v useCommas) by (unfold len; lia).
    destruct (TrimRight0_split (FormatInt v)) as [_ Hsplit].
    eexists. eexists. split; [reflexivity|].
    rewrite append_assoc, <- Hsplit, FormatInt_neg by lia. reflexivity.
  - assert (Hlen : String.length (format_digits 20 (- v) "") = 8%nat).
    { pose proof (format_digits_length_le 7 20 (- v) "" ltac:(cbn; lia)
                    ltac:(lia)) as H1.
      pose proof (format_digits_length_ge 7 20 (- v) "" ltac:(cbn; lia)
                    ltac:(lia)) as H2.
      cbn [String.length] in *. lia. }
    assert (Hamt : FormatInt v = String "-" (format_digits 20 (- v) ""))
      by (apply FormatInt_neg; lia).
    destruct (amount_long v true) as [_ Htrue];
      [unfold len; rewrite Hamt; cbn [String.length]; lia|].
    destruct (amount_long v false) as [_ Hfalse];
      [unfold len; rewrite Hamt; cbn [String.length]; lia|].
    cbv zeta in Htrue, Hfalse. rewrite Hamt in Htrue, Hfalse.
    cbn [String.length] in Htrue, Hfalse. rewrite Hlen in Htrue, Hfalse.
    change (9 - 8)%nat with 1%nat in Htrue, Hfalse.
    cbn [take drop] in Htrue, Hfalse.
    split; [exact Htrue|].
    destruct (TrimRight0_split (format_digits 20 (- v) "")) as [_ Hsplit].
    eexists. eexists. split; [exact Hfalse|].
    rewrite Hlen in Hsplit. rewrite <- Hsplit. reflexivity.
Qed.

(** X24. A negative amount of one coin or more, [v <= -10^8]: the integer
    part is the minus sign followed by the digits of [|v| / 10^8]; with
    commas it parses, and [humanize.Comma] is handed the quotient rounded
    towards zero. The fraction parts together are the eight digits of
    [|v| mod 10^8]. *)
Theorem amountAsDecimalParts_negative_coins (v : Z) :
  min_int64 <= v <= - 10 ^ 8 ->
  exists digits dec zeros : string,
    amountAsDecimalParts v false
      = Some ([String "-" digits; dec; zeros], []) /\
    amountAsDecimalParts v true
      = Some ([humanize_Comma (Z.quot v (10 ^ 8)); dec; zeros], []) /\
    all_digits digits = true /\
    digits_value digits = (- v) / 10 ^ 8 /\
    len (String.append dec zeros) = 8 /\
    all_digits (String.append dec zeros) = true /\
    digits_value (String.append dec zeros) = (- v) mod 10 ^ 8 /\
    zeros = repeat_string "0" (String.length zeros).
Proof.
  intros Hv. unfold min_int64 in Hv.
  set (ds := format_digits 20 (- v) "").
  assert (Hamt : FormatInt v = String "-" ds) by (apply FormatInt_neg; lia).
  assert (Hlen : (9 <= String.length ds)%nat).
  { pose proof (format_digits_length_ge 8 20 (- v) "" ltac:(cbn; lia)
                  ltac:(lia)) as H.
    cbn [String.length] in H. fold ds in H. lia. }
  destruct (format_digits_value 20 20 (- v) ltac:(cbn; lia) ltac:(lia))
    as [Hval Hdig].
  fold ds in Hval, Hdig.
  destruct (amount_long v false) as [_ Hfalse];
    [unfold len; rewrite Hamt; cbn [String.length]; lia|].
  destruct (amount_long v true) as [_ Htrue];
    [unfold len; rewrite Hamt; cbn [String.length]; lia|].
  cbv zeta in Hfalse, Htrue. rewrite Hamt in Hfalse, Htrue.
  cbn [String.length] in Hfalse, Htrue.
  replace (S (String.length ds) - 8)%nat
    with (S (String.length ds - 8)) in Hfalse, Htrue by lia.
  cbn [take drop] in Hfalse, Htrue.
  set (integer := take (String.length ds - 8) ds) in *.
  set (last8 := drop (String.length ds - 8) ds) in *.
  assert (Hl8 : String.length last8 = 8%nat)
    by (unfold last8; rewrite length_drop; lia).
  assert (Hcat : String.append integer last8 = ds) by apply take_drop.
  assert (Hdi : all_digits integer = true) by (apply all_digits_take, Hdig).
  assert (Hdl : all_digits last8 = true) by (apply all_digits_drop, Hdig).
  pose proof (digits_value_bound last8 Hdl) as Hbl.
  pose proof (digits_value_bound integer Hdi) as Hbi.
  assert (Hl8' : len last8 = 8) by (unfold len; rewrite Hl8; reflexivity).
  rewrite Hl8' in Hbl.
  assert (Hsum : digits_value integer * 10 ^ 8 + digits_value last8 = - v).
  { pose proof (digits_value_append integer last8) as Happ.
    rewrite Hcat, Hval, Hl8' in Happ. lia. }
  assert (Hquot : digits_value integer = (- v) / 10 ^ 8).
  { apply (Z.div_unique_pos (- v) (10 ^ 8) _ (digits_value last8)); lia. }
  assert (Hrem : digits_value last8 = (- v) mod 10 ^ 8).
  { apply (Z.mod_unique_pos (- v) (10 ^ 8) (digits_value integer)); lia. }
  assert (Hne : integer <> "").
  { intros He.
    assert (H0 : String.length integer = 0%nat) by (rewrite He; reflexivity).
    unfold integer in H0. rewrite length_take in H0 by lia. lia. }
  assert (Hparse : ParseInt (String "-" integer)
                   = Some (Z.quot v (10 ^ 8))).
  { rewrite ParseInt_minus_digits; try assumption.
    - rewrite Hquot. f_equal.
      rewrite <- (Z.opp_involutive v) at 2.
      rewrite Z.quot_opp_l by lia.
      rewrite Z.quot_div_nonneg by lia. reflexivity.
    - rewrite Hquot.
      assert ((- v) / 10 ^ 8 <= - v) by (apply Z.div_le_upper_bound; lia).
      lia. }
  rewrite Hparse in Htrue.
  destruct (TrimRight0_split last8) as [_ Hsplit].
  exists integer. eexists. eexists.
  split; [exact Hfalse|]. split; [exact Htrue|].
  replace (8 - String.length (TrimRight0 last8))%nat
    with (String.length last8 - String.length (TrimRight0 last8))%nat
    by (rewrite Hl8; reflexivity).
  rewrite <- Hsplit.
  repeat split; try assumption.
  rewrite length_repeat_zero. reflexivity.
Qed.

End AmountFacts.

(** ** The further theorems at the sample inputs *)

Lemma ReduceAddressHistory_amounts_exact_witness :
  exists info : AddressInfo,
    ReduceAddressHistory sample_history = Some info /\
    AmountReceived info = 200000000 /\
    AmountSent info = 150000000 /\
    AmountUnspent info = 50000000.
Proof.
  destruct (ReduceAddressHistory_amounts_exact
              {| Address := "DsExample"; FundingTxHash := "f0";
                 FundingTxVoutIndex := 0; Value := 150000000;
                 SpendingTxHash := "s0"; SpendingTxVinIndex := 1 |}
              [ {| Address := "DsExample"; FundingTxHash := "f1";
                   FundingTxVoutIndex := 2; Value := 50000000;
                   SpendingTxHash := ""; SpendingTxVinIndex := 0 |} ])
    as (info & Hrun & Hr & Hs & Hu & _).
  - repeat constructor; cbn; lia.
  - vm_compute. discriminate.
  - exists info. split; [exact Hrun|].
    split; [exact Hr|]. split; [exact Hs | exact Hu].
Defined.

Lemma TxnCount_bounded_witness :
  0 <= fst (TxnCount sample_AddrTxnTypeFromStr sample_address_info) <= 5.
Proof.
  apply (TxnCount_bounded sample_AddrTxnTypeFromStr sample_address_info);
    cbn; lia.
Defined.

Lemma full_channel_holds_signal_only_witness :
  (exists w' : world,
     @Store unit sample_summary sample_Bytes sample_block tt
       (start sample_exp_full) = Blocked w' /\
     explorerUI.NewBlockData (exp w')
       = Some (newBlockData sample_Bytes (sample_summary sample_block)) /\
     explorerUI.wsHub (exp w') = explorerUI.wsHub sample_exp_full) /\
  (exists w' : world,
     StoreMPData sample_mempool 0 (start sample_exp_full) = Blocked w' /\
     MempoolShort.NumTickets
       (MempoolInfo.MempoolShort (explorerUI.MempoolData (exp w'))) = 7).
Proof.
  destruct (full_channel_holds_signal_only unit sample_summary sample_Bytes
              sample_exp_full sample_block tt sample_mempool 0 eq_refl)
    as [Hs Hm].
  destruct (Hs eq_refl) as (w1 & H1 & Hb & _ & _ & Hh & _).
  destruct (Hm eq_refl) as (w2 & H2 & Hn & _).
  split.
  - exists w1. split; [exact H1|]. split; [exact Hb | exact Hh].
  - exists w2. split; [exact H2 | exact Hn].
Defined.


Lemma Store_twice_keeps_the_last_witness :
  exists w' : world,
    bind (@Store unit sample_summary sample_Bytes sample_block tt)
         (fun _ => @Store unit sample_summary sample_Bytes sample_block2 tt)
         (start sample_exp_room2)
      = Returned error_nil w' /\
    explorerUI.ExtraInfo (exp w')
      = Some (newExtraInfo sample_block2 sample_params) /\
    Chan.buf (WebsocketHub.HubRelay (explorerUI.wsHub (exp w')))
      = [sigNewBlock; sigNewBlock].
Proof.
  destruct (Store_twice_keeps_the_last unit sample_summary sample_Bytes
              sample_exp_room2 sample_block sample_block2 tt tt eq_refl)
    as (w' & Hrun & _ & Hx & _ & Hq & _).
  - unfold room_for. cbn. lia.
  - exists w'. split; [exact Hrun|]. split; [exact Hx | exact Hq].
Defined.

Lemma StoreMPData_twice_keeps_the_last_witness :
  exists w' : world,
    bind (StoreMPData sample_mempool 0) (fun _ => StoreMPData sample_mempool2 1)
         (start sample_exp_room2)
      = Returned error_nil w' /\
    MempoolShort.NumTickets
      (MempoolInfo.MempoolShort (explorerUI.MempoolData (exp w'))) = 9 /\
    Chan.buf (WebsocketHub.HubRelay (explorerUI.wsHub (exp w')))
      = [sigMempoolUpdate; sigMempoolUpdate].
Proof.
  destruct (StoreMPData_twice_keeps_the_last sample_exp_room2 sample_mempool
              sample_mempool2 0 1 eq_refl)
    as (w' & Hrun & Hm & Hq).
  - unfold room_for. cbn. lia.
  - exists w'. split; [exact Hrun|]. rewrite Hm. split; [reflexivity|].
    exact Hq.
Defined.

Lemma Store_and_StoreMPData_commute_witness :
  exists w1 w2 : world,
    bind (@Store unit sample_summary sample_Bytes sample_block tt)
         (fun _ => StoreMPData sample_mempool 0) (start sample_exp_room2)
      = Returned error_nil w1 /\
    bind (StoreMPData sample_mempool 0)
         (fun _ => @Store unit sample_summary sample_Bytes sample_block tt)
         (start sample_exp_room2)
      = Returned error_nil w2 /\
    explorerUI.MempoolData (exp w1) = explorerUI.MempoolData (exp w2) /\
    Chan.buf (WebsocketHub.HubRelay (explorerUI.wsHub (exp w1)))
      = [sigNewBlock; sigMempoolUpdate] /\
    Chan.buf (WebsocketHub.HubRelay (explorerUI.wsHub (exp w2)))
      = [sigMempoolUpdate; sigNewBlock].
Proof.
  destruct (Store_and_StoreMPData_commute unit sample_summary sample_Bytes
              sample_exp_room2 sample_block tt sample_mempool 0
              eq_refl eq_refl)
    as (w1 & w2 & H1 & H2 & _ & _ & Hm & _ & Hq1 & Hq2).
  - unfold room_for. cbn. lia.
  - exists w1, w2. split; [exact H1|]. split; [exact H2|].
    split; [exact Hm|]. split; [exact Hq1 | exact Hq2].
Defined.

Lemma reloadTemplates_error_changes_nothing_witness :
  Templates.reloadTemplates string sample_parse_bad sample_templates_ok
    = Templates.ReturnedErr (error_of "block.tmpl: unexpected EOF")
        sample_templates_ok /\
  sample_templates_ok = sample_templates_ok.
Proof.
  assert (Hrun : Templates.reloadTemplates string sample_parse_bad
                   sample_templates_ok
                 = Templates.ReturnedErr
                     (error_of "block.tmpl: unexpected EOF")
                     sample_templates_ok) by reflexivity.
  split; [exact Hrun|].
  exact (proj1 (reloadTemplates_error_changes_nothing string sample_parse_bad
                  sample_templates_ok sample_templates_ok _ Hrun)).
Defined.

Lemma reloadTemplates_stores_by_index_witness :
  (exists p' : Templates.t string,
     Templates.reloadTemplates string sample_parse_ok sample_templates_bad
       = Templates.ReturnedNil p' /\
     nth_error (Templates.templates p') Templates.blockTemplateIndex
       = Some (Some "block") /\
     nth_error (Templates.templates sample_templates_bad)
               Templates.blockTemplateIndex
       = Some None) /\
  Templates.reloadTemplates string sample_parse_ok
    {| Templates.templates := [None; None; None];
       Templates.templateFiles := [] |}
  = Templates.IndexOutOfRange.
Proof.
  destruct (reloadTemplates_stores_by_index string sample_parse_ok
              sample_templates_bad eq_refl) as [Hok _].
  destruct (reloadTemplates_stores_by_index string sample_parse_ok
              {| Templates.templates := [None; None; None];
                 Templates.templateFiles := [] |} eq_refl) as [_ Hshort].
  split.
  - destruct Hok as (p' & Hrun & _ & _ & Hslots & _); [cbn; lia|].
    exists p'. split; [exact Hrun|]. split; [|reflexivity].
    exact (proj1 (Hslots Templates.blockTemplateIndex ("block", true)
                    eq_refl)).
  - apply Hshort. cbn. lia.
Defined.

Lemma reload_after_New_changes_nothing_witness :
  Templates.reloadTemplates string sample_parse_ok sample_templates_ok
    = Templates.ReturnedNil sample_templates_ok /\
  exists err : error,
    Templates.reloadTemplates string sample_parse_bad sample_templates_bad
      = Templates.ReturnedErr err sample_templates_bad.
Proof.
  pose proof (reload_after_New_changes_nothing string sample_parse_ok
                sample_Join) as Hok.
  pose proof (reload_after_New_changes_nothing string sample_parse_bad
                sample_Join) as Hbad.
  cbv zeta in Hok, Hbad.
  destruct Hok as (_ & Hnil & _). destruct Hbad as (_ & _ & Herr).
  split.
  - apply Hnil. reflexivity.
  - apply Herr. discriminate.
Defined.

Lemma toInt64_by_type_witness :
  Helpers.toInt64 (Helpers.VUint64 (2 ^ 63)) = - 2 ^ 63 /\
  Helpers.toInt64 (Helpers.VUint16 5) = 5 /\
  Helpers.toInt64 (Helpers.VUint8 3) = min_int64.
Proof.
  split; [|split].
  - exact (toInt64_by_type (Helpers.VUint64 (2 ^ 63))
             ltac:(cbn; lia)).
  - exact (toInt64_by_type (Helpers.VUint16 5) ltac:(cbn; lia)).
  - exact (toInt64_by_type (Helpers.VUint8 3) ltac:(cbn; lia)).
Defined.

Lemma add_subtract_round_trip_witness :
  Helpers.add max_int64 1 = min_int64 /\
  Helpers.subtract (Helpers.add max_int64 1) 1 = max_int64.
Proof.
  split; [reflexivity|].
  apply (add_subtract_round_trip max_int64 1).
  unfold min_int64, max_int64. lia.
Defined.

Lemma divide_truncates_witness :
  exists q : Z,
    Helpers.divide (-7) 2 = Some q /\ min_int64 <= q <= max_int64.
Proof.
  destruct (divide_truncates (-7) 2) as [_ H].
  - unfold min_int64, max_int64. lia.
  - unfold min_int64, max_int64. lia.
  - destruct (H ltac:(lia)) as (q & Hq & Hr & _).
    exists q. split; [exact Hq | exact Hr].
Defined.

Lemma amountAsDecimalParts_below_one_coin_witness :
  exists dec zeros : string,
    Helpers.amountAsDecimalParts sample_Comma 1500000 true
      = Some (["0"; dec; zeros], []) /\
    GoStrings.digits_value (String.append dec zeros) = 1500000.
Proof.
  destruct (amountAsDecimalParts_below_one_coin sample_Comma 1500000 true)
    as (dec & zeros & Hrun & _ & _ & Hval & _).
  - lia.
  - exists dec, zeros. split; [exact Hrun | exact Hval].
Defined.

Lemma amountAsDecimalParts_coins_witness :
  exists integer dec zeros : string,
    Helpers.amountAsDecimalParts sample_Comma 150000000 false
      = Some ([integer; dec; zeros], []) /\
    GoStrings.digits_value integer = 150000000 / 10 ^ 8 /\
    GoStrings.digits_value (String.append dec zeros) = 150000000 mod 10 ^ 8.
Proof.
  destruct (amountAsDecimalParts_coins sample_Comma 150000000)
    as (integer & dec & zeros & Hrun & _ & _ & _ & Hq & _ & _ & Hr & _).
  - unfold max_int64. lia.
  - exists integer, dec, zeros.
    split; [exact Hrun|]. split; [exact Hq | exact Hr].
Defined.

Lemma amountAsDecimalParts_negative_witness :
  (exists dec zeros : string,
     Helpers.amountAsDecimalParts sample_Comma (-5) false
       = Some (["0"; dec; zeros], []) /\
     String.append dec zeros = "000000-5") /\
  Helpers.amountAsDecimalParts sample_Comma (-12345678) true
    = Some (["ERROR"; "VALUE"; ""],
            ["amountAsDecimalParts comma formatting failed."]).
Proof.
  destruct (amountAsDecimalParts_negative sample_Comma (-5) false)
    as [Hsmall _].
  destruct (amountAsDecimalParts_negative sample_Comma (-12345678) true)
    as [_ Hbare].
  split.
  - destruct (Hsmall ltac:(lia)) as (dec & zeros & Hrun & Hcat).
    exists dec, zeros. split; [exact Hrun | exact Hcat].
  - exact (proj1 (Hbare ltac:(lia))).
Defined.

Lemma amountAsDecimalParts_negative_coins_witness :
  exists digits dec zeros : string,
    Helpers.amountAsDecimalParts sample_Comma (-123456789) true
      = Some ([sample_Comma (Z.quot (-123456789) (10 ^ 8)); dec; zeros], [])
    /\ GoStrings.digits_value digits = 123456789 / 10 ^ 8.
Proof.
  destruct (amountAsDecimalParts_negative_coins sample_Comma (-123456789))
    as (digits & dec & zeros & _ & Hrun & _ & Hq & _).
  - unfold min_int64. lia.
  - exists digits, dec, zeros. split; [exact Hrun | exact Hq].
Defined.

(** The formatter against Rocq's own decimal printer, and the helper on a
    few amounts. *)
Example FormatInt_samples :
  map GoStrings.FormatInt
      [0; 7; 150000000; -5; min_int64; max_int64]
  = ["0"; "7"; "150000000"; "-5"; "-9223372036854775808";
     "9223372036854775807"].
Proof. vm_compute. reflexivity. Qed.

Example amountAsDecimalParts_samples :
  map (fun v => Helpers.amountAsDecimalParts sample_Comma v false)
      [0; 1500000; 150000000; 123456789012]
  = [Some (["0"; "0000000"; "0"], []);
     Some (["0"; "015"; "00000"], []);
     Some (["1"; "5"; "0000000"], []);
     Some (["1234"; "56789012"; ""], [])].
Proof. vm_compute. reflexivity. Qed.
